(** * GradeAnalyzer: a shallow embedding of [grade_analyzer.py]

    The Python class [GradeAnalyzer] is embedded method by method.

    - The instance attributes [_filename], [_students] and [_loaded] form the
      record [analyzer]; [_subjects] is assigned once in [__init__] and never
      written again, so it is the constant [_subjects].
    - A method body runs in the error monad [exc]: a primitive that raises in
      Python ([int()], a missing dict key, [/] by zero, [None < 60], ...)
      yields [Raise e]; [try_except] is the [try: ... except Exception] that
      wraps every method body.
    - Whatever the interpreter or a library supplies is an explicit input:
      the outcome of [open] ([open_result]), the float formatter, [str()] and
      numpy ([runtime]).
    - Python [int] is [Z].  A [float] is an extended rational ([pyfloat]):
      comparisons are exact, as they are in Python.  [a / b] on ints and the
      conversion of an int to a float give the binary64 number nearest to
      the exact value, ties to even ([nearest_double]), or raise
      OverflowError beyond the range of the doubles.  The sign of a zero is
      not kept: no operation of the class tells [-0.0] from [0.0] except
      the formatting of a quotient that underflows.
    - A [str] is a [string]: the sequence of its code points, each below
      256.  Text with other code points is outside the model.
    - [print] diagnostics do not influence state or results and are left
      out.
    - The list behind [_students] and the student dictionaries are values
      in [analyzer]; where sharing matters (the list that the [students]
      property hands out) they are objects on a heap, see [store_view]. *)

From Stdlib Require Import ZArith QArith Qabs Qround Qpower String Ascii List Lia Bool.
From Stdlib Require Import DecimalString Permutation Sorted Lqa.
From stdpp Require Import gmap.
Import ListNotations.
Set Warnings "-register-all".
Local Open Scope string_scope.
Local Open Scope Z_scope.

(** ** Exceptions and the error monad *)

Inductive exn : Type :=
| FileNotFoundError | PermissionError | OSError | UnicodeDecodeError
| StopIteration | ValueError | KeyError | IndexError | TypeError
| AttributeError | ZeroDivisionError | OverflowError | ImportError
| OtherException.

Definition exn_eqb (x y : exn) : bool :=
  match x, y with
  | FileNotFoundError, FileNotFoundError | PermissionError, PermissionError
  | OSError, OSError | UnicodeDecodeError, UnicodeDecodeError
  | StopIteration, StopIteration | ValueError, ValueError
  | KeyError, KeyError | IndexError, IndexError | TypeError, TypeError
  | AttributeError, AttributeError | ZeroDivisionError, ZeroDivisionError
  | OverflowError, OverflowError
  | ImportError, ImportError | OtherException, OtherException => true
  | _, _ => false
  end.

Inductive exc (A : Type) : Type :=
| Return (v : A)
| Raise (e : exn).
Arguments Return {A} v.
Arguments Raise {A} e.

Definition exc_bind {A B : Type} (m : exc A) (k : A -> exc B) : exc B :=
  match m with
  | Return v => k v
  | Raise e => Raise e
  end.

Notation "'let*' x ':=' m 'in' k" := (exc_bind m (fun x => k))
  (at level 10, x name, m at level 100, k at level 200).

(** [try: body  except Exception as e: handler] *)
Definition try_except {A : Type} (body : exc A) (handler : exn -> exc A) : exc A :=
  match body with
  | Return v => Return v
  | Raise e => handler e
  end.

Definition raises {A : Type} (m : exc A) : bool :=
  match m with
  | Return _ => false
  | Raise _ => true
  end.

Fixpoint exc_map {A B : Type} (f : A -> exc B) (l : list A) : exc (list B) :=
  match l with
  | [] => Return []
  | x :: l' => let* y := f x in let* ys := exc_map f l' in Return (y :: ys)
  end.

(** ** Python values *)

Inductive pyfloat : Type :=
| Fin (q : Q)
| PosInf
| NegInf
| NaN.

Inductive num : Type :=
| NInt (z : Z)
| NFloat (f : pyfloat).

(** Objects a caller can pass to, or get back from, a public method.
    [VOther] stands for an instance of any class not listed (it has none of
    the [str] methods and is no number); its flag is its truth value. *)
Inductive pyval : Type :=
| VNone
| VBool (b : bool)
| VNum (n : num)
| VStr (s : string)
| VList (l : list pyval)
| VTuple (l : list pyval)
| VDict (l : list (pyval * pyval))
| VOther (truthy : bool).

Definition Qlt_bool (x y : Q) : bool := negb (Qle_bool y x).

(** [x < y] and [x <= y] on floats: every comparison with NaN is false. *)
Definition f_ltb (x y : pyfloat) : bool :=
  match x, y with
  | NaN, _ | _, NaN => false
  | _, NegInf | PosInf, _ => false
  | NegInf, _ | _, PosInf => true
  | Fin a, Fin b => Qlt_bool a b
  end.

Definition f_leb (x y : pyfloat) : bool :=
  match x, y with
  | NaN, _ | _, NaN => false
  | NegInf, _ | _, PosInf => true
  | _, NegInf | PosInf, _ => false
  | Fin a, Fin b => Qle_bool a b
  end.

Definition f_abs (x : pyfloat) : pyfloat :=
  match x with
  | Fin q => Fin (Qabs q)
  | PosInf | NegInf => PosInf
  | NaN => NaN
  end.

(** The numeric value of an [int] or [float]; mixed comparisons are exact. *)
Definition num_val (n : num) : pyfloat :=
  match n with
  | NInt z => Fin (inject_Z z)
  | NFloat f => f
  end.

Definition num_ltb (x y : num) : bool := f_ltb (num_val x) (num_val y).
Definition num_leb (x y : num) : bool := f_leb (num_val x) (num_val y).

(** [isinstance(v, (int, float))], with the number; [bool] is a subclass of
    [int] (True is 1, False is 0). *)
Definition as_number (v : pyval) : option num :=
  match v with
  | VBool b => Some (NInt (if b then 1 else 0))
  | VNum n => Some n
  | _ => None
  end.

(** [isinstance(v, int)] *)
Definition as_int (v : pyval) : option Z :=
  match v with
  | VBool b => Some (if b then 1 else 0)
  | VNum (NInt z) => Some z
  | _ => None
  end.

(** [isinstance(v, str)] *)
Definition as_str (v : pyval) : option string :=
  match v with
  | VStr s => Some s
  | _ => None
  end.

(** [bool(v)] *)
Definition truthy (v : pyval) : bool :=
  match v with
  | VNone => false
  | VBool b => b
  | VNum (NInt z) => negb (z =? 0)
  | VNum (NFloat (Fin q)) => negb (Qeq_bool q 0)
  | VNum (NFloat _) => true
  | VStr s => negb (String.eqb s "")
  | VList l | VTuple l => match l with [] => false | _ => true end
  | VDict l => match l with [] => false | _ => true end
  | VOther t => t
  end.

(** *** Binary64

    A finite double is [m * 2^e] with [|m| < 2^53] and
    [-1074 <= e <= 971]. *)

Definition pow2 (k : Z) : Q := (2 ^ k)%Q.

(** The integer nearest to [q], a tie going to the even one. *)
Definition round_half_even (q : Q) : Z :=
  let f := Qfloor q in
  match (q - inject_Z f ?= 1 # 2)%Q with
  | Lt => f
  | Eq => if Z.even f then f else f + 1
  | Gt => f + 1
  end.

(** [floor (log2 q)] for a positive [q]. *)
Definition ilog2 (q : Q) : Z :=
  let k := Z.log2 (Qnum q) - Z.log2 (Zpos (Qden q)) in
  if Qle_bool (pow2 k) q then k else k - 1.

(** A non-negative [q] rounded to 53 significant bits, the exponent of the
    last bit not below that of the subnormal doubles. *)
Definition round_pos (q : Q) : Q :=
  let e := Z.max (ilog2 q - 52) (-1074) in
  (inject_Z (round_half_even (q * pow2 (- e))) * pow2 e)%Q.

(** The double nearest to [q], were the exponent not bounded above. *)
Definition nearest_double (q : Q) : Q :=
  Qred (if Qlt_bool q 0 then - round_pos (- q) else round_pos q).

(** The largest finite double, an int of 1024 bits. *)
Definition DBL_MAX : Z := (2 ^ 53 - 1) * 2 ^ 971.

(** Does the double nearest to [q] lie beyond the finite ones. *)
Definition overflows (q : Q) : bool :=
  Qle_bool (pow2 1024) (Qabs (nearest_double q)).

(** An exact value as a [float]. *)
Definition float_of (q : Q) : exc pyfloat :=
  if overflows q then Raise OverflowError else Return (Fin (nearest_double q)).

(** [float(z)] for an [int], as [format(z, '.2f')] applies it. *)
Definition float_of_int (z : Z) : exc pyfloat := float_of (inject_Z z).

(** [a / b] on ints: true division, correctly rounded. *)
Definition true_div (a b : Z) : exc num :=
  if b =? 0 then Raise ZeroDivisionError
  else let* f := float_of (inject_Z a / inject_Z b) in Return (NFloat f).

Definition sum_Z (l : list Z) : Z := fold_left Z.add l 0.

Definition len {A : Type} (l : list A) : Z := Z.of_nat (length l).

(** ** Strings: [strip], [split], [int()] and [str()] *)

(** [c.isspace()] for a code point below 256, which is what [str.strip()]
    removes: tab to carriage return, the separators 0x1C to 0x1F, the
    blank, NEL (0x85) and the no-break space (0xA0). *)
Definition is_space (c : ascii) : bool :=
  let n := nat_of_ascii c in
  ((9 <=? n)%nat && (n <=? 13)%nat) || ((28 <=? n)%nat && (n <=? 32)%nat)
  || (n =? 133)%nat || (n =? 160)%nat.

(** What [int()] skips around a literal: tab to carriage return and the
    blank, and the two spaces above 127, which it first turns into blanks;
    the separators 0x1C to 0x1F are not skipped. *)
Definition is_int_space (c : ascii) : bool :=
  let n := nat_of_ascii c in
  ((9 <=? n)%nat && (n <=? 13)%nat) || (n =? 32)%nat
  || (n =? 133)%nat || (n =? 160)%nat.

Fixpoint lstrip (space : ascii -> bool) (s : list ascii) : list ascii :=
  match s with
  | c :: s' => if space c then lstrip space s' else s
  | [] => []
  end.

Definition strip_chars (space : ascii -> bool) (s : list ascii) : list ascii :=
  rev (lstrip space (rev (lstrip space s))).

(** [s.strip()] *)
Definition strip (s : string) : string :=
  string_of_list_ascii (strip_chars is_space (list_ascii_of_string s)).

(** [s.split(sep)] for a one-character separator: never the empty list. *)
Fixpoint split (sep : ascii) (s : string) : list string :=
  match s with
  | EmptyString => [EmptyString]
  | String c s' =>
      if Ascii.eqb c sep then EmptyString :: split sep s'
      else match split sep s' with
           | p :: ps => String c p :: ps
           | [] => [String c EmptyString]
           end
  end.

Definition digit_of (c : ascii) : option Z :=
  let n := nat_of_ascii c in
  if ((48 <=? n)%nat && (n <=? 57)%nat) then Some (Z.of_nat (n - 48)) else None.

(** Decimal digits, single underscores allowed between two digits. *)
Fixpoint parse_digits (acc : Z) (after_digit : bool) (s : list ascii) : option Z :=
  match s with
  | [] => if after_digit then Some acc else None
  | c :: s' =>
      match digit_of c with
      | Some d => parse_digits (10 * acc + d) true s'
      | None =>
          if Ascii.eqb c "_"%char && after_digit then parse_digits acc false s'
          else None
      end
  end.

(** The default of [sys.get_int_max_str_digits()]: the longest decimal
    literal that [int()] reads and that [str()] of an int writes. *)
Definition int_max_str_digits : Z := 4300.

Definition is_digit (c : ascii) : bool :=
  match digit_of c with
  | Some _ => true
  | None => false
  end.

(** [int(s)] for a [str]: surrounding whitespace, an optional sign, decimal
    digits, no more of them than the limit; anything else is a
    ValueError. *)
Definition py_int (s : string) : exc Z :=
  let body := strip_chars is_int_space (list_ascii_of_string s) in
  let '(negative, digits) :=
    match body with
    | c :: rest =>
        if Ascii.eqb c "-"%char then (true, rest)
        else if Ascii.eqb c "+"%char then (false, rest)
        else (false, body)
    | [] => (false, body)
    end in
  if int_max_str_digits <? len (List.filter is_digit digits) then Raise ValueError
  else
    match parse_digits 0 false digits with
    | Some z => Return (if negative then - z else z)
    | None => Raise ValueError
    end.

(** The decimal digits of an int, with its sign. *)
Definition str_int (z : Z) : string := NilZero.string_of_int (Z.to_int z).

(** [str(z)] and [f"{z}"] for an [int]: a ValueError when the digits are
    more than the limit.  (The length of a list is far below it.) *)
Definition py_str_int (z : Z) : exc string :=
  if 10 ^ int_max_str_digits <=? Z.abs z then Raise ValueError
  else Return (str_int z).

(** [s.endswith(suffix)] *)
Definition endswith (s suffix : string) : bool :=
  let n := String.length s in
  let k := String.length suffix in
  (k <=? n)%nat && String.eqb (substring (n - k) k s) suffix.

(** ** The data model *)

(** A student dictionary [{'id': .., 'name': .., 'grades': {..}}]; the
    [grades] dictionary keeps its insertion order. *)
Record student : Type := {
  id : string;
  name : string;
  grades : list (string * Z)
}.

Record analyzer : Type := {
  _filename : string;
  _students : list student;
  _loaded : bool
}.

Definition _subjects : list string :=
  ["Math"; "Physics"; "Chemistry"; "Biology"; "English"].

(** [GradeAnalyzer(filename)] *)
Definition init (filename : string) : analyzer :=
  {| _filename := filename; _students := []; _loaded := false |}.

Definition set_students (l : list student) (a : analyzer) : analyzer :=
  {| _filename := _filename a; _students := l; _loaded := _loaded a |}.

Definition set_loaded (b : bool) (a : analyzer) : analyzer :=
  {| _filename := _filename a; _students := _students a; _loaded := b |}.

(** [d[k]] and [d.get(k, default)] on a dictionary kept as an association
    list. *)
Fixpoint dict_find {V : Type} (d : list (string * V)) (k : string) : option V :=
  match d with
  | [] => None
  | (k', v) :: d' => if String.eqb k' k then Some v else dict_find d' k
  end.

Definition dict_item {V : Type} (d : list (string * V)) (k : string) : exc V :=
  match dict_find d k with
  | Some v => Return v
  | None => Raise KeyError
  end.

Definition dict_get {V : Type} (d : list (string * V)) (k : string) (default : V) : V :=
  match dict_find d k with
  | Some v => v
  | None => default
  end.

(** [l[i]] on a list, negative indices counted from the end. *)
Definition list_item {A : Type} (l : list A) (i : Z) : exc A :=
  let j := if i <? 0 then i + len l else i in
  if (j <? 0) || (len l <=? j) then Raise IndexError
  else match nth_error l (Z.to_nat j) with
       | Some x => Return x
       | None => Raise IndexError
       end.

(** ** What the interpreter and the libraries supply *)

(** The outcome of [open(self._filename, 'r')] and of reading the file to
    its end: [open] raises, or the file delivers [lines] and then either
    ends ([read_error = None]) or fails with an exception. *)
Inductive open_result : Type :=
| OpenRaises (e : exn)
| Opened (lines : list string) (read_error : option exn).

Record runtime : Type := {
  format_2f : pyfloat -> string;  (* format(x, '.2f') of a float *)
  py_str : pyval -> exc string;   (* str(v), as an f-string field renders v *)
  numpy_importable : bool;        (* does "import numpy" succeed *)
  corrcoef : list Z -> list Z -> exc pyfloat;
                                  (* float(np.corrcoef(x, y)[0, 1]) *)
  nan_sort_order : list pyfloat -> list nat
                                  (* the order in which list.sort leaves items
                                     whose keys include nan: the positions of
                                     the input, in the order of the output *)
}.

(** The outcome of [open(filename, 'w')], [file.write(content)] and the
    closing of the file: [open] raises and the file is as it was; or the
    file is opened, which empties it, and then the write or the close
    raises after [kept] characters have reached the file; or all of it
    succeeds. *)
Inductive write_result : Type :=
| OpenForWriteRaises (e : exn)
| WriteRaises (e : exn) (kept : nat)
| WriteSucceeds.

(** What a call did to the file system. *)
Inductive file_effect : Type :=
| NoFileTouched
| FileHolds (filename content : string).

(** ** Loading *)

Definition parse_student_line_body (line : pyval) : exc (option student) :=
  let* text := match as_str line with
               | Some s => Return s
               | None => Raise AttributeError
               end in
  let parts := split "," (strip text) in
  if negb (len parts =? 7) then Return None
  else
    let* p0 := list_item parts 0 in
    let* p1 := list_item parts 1 in
    let* math := (let* p := list_item parts 2 in py_int p) in
    let* physics := (let* p := list_item parts 3 in py_int p) in
    let* chemistry := (let* p := list_item parts 4 in py_int p) in
    let* biology := (let* p := list_item parts 5 in py_int p) in
    let* english := (let* p := list_item parts 6 in py_int p) in
    Return (Some {| id := p0;
                    name := p1;
                    grades := [("Math", math); ("Physics", physics);
                               ("Chemistry", chemistry); ("Biology", biology);
                               ("English", english)] |}).

Definition parse_student_line (line : pyval) : exc (option student) :=
  try_except (parse_student_line_body line) (fun _ => Return None).

(** [for line in file: ...]; the second component is the exception that
    left the loop, if one did. *)
Fixpoint load_lines (lines : list string) (a : analyzer) : analyzer * option exn :=
  match lines with
  | [] => (a, None)
  | line :: rest =>
      match parse_student_line (VStr line) with
      | Raise e => (a, Some e)
      | Return (Some s) => load_lines rest (set_students (_students a ++ [s]) a)
      | Return None => load_lines rest a
      end
  end.

(** The [try] block of [load_data]: the state it leaves and the exception
    it ends with, if any. *)
Definition load_data_body (o : open_result) (a : analyzer) : analyzer * option exn :=
  match o with
  | OpenRaises e => (a, Some e)
  | Opened lines read_error =>
      let a := set_students [] a in
      let a := set_loaded false a in
      match lines with
      | [] =>
          (* next(file) *)
          (a, Some (match read_error with Some e => e | None => StopIteration end))
      | _ :: rest =>
          match load_lines rest a with
          | (a, Some e) => (a, Some e)
          | (a, None) =>
              match read_error with
              | Some e => (a, Some e)
              | None => (set_loaded true a, None)
              end
          end
      end
  end.

Definition load_data (o : open_result) (a : analyzer) : analyzer :=
  match load_data_body o a with
  | (a, None) => a
  | (a, Some e) =>
      if exn_eqb e FileNotFoundError then a   (* except FileNotFoundError *)
      else set_loaded false a                 (* except Exception *)
  end.

(** ** Accessors and validators *)

(** The [students] property: [self._students.copy()]. *)
Definition students (a : analyzer) : list student := _students a.

Definition check_data_loaded (a : analyzer) : bool := _loaded a.

(** A student dictionary has three keys, so it is always true in a test. *)
Definition validate_student_id_body (a : analyzer) (student_id : pyval)
    : exc (option student) :=
  match as_str student_id with
  | None => Return None
  | Some sid =>
      match find (fun s => String.eqb (id s) sid) (_students a) with
      | None => Return None
      | Some s => Return (Some s)
      end
  end.

Definition validate_student_id (a : analyzer) (student_id : pyval)
    : exc (option student) :=
  try_except (validate_student_id_body a student_id) (fun _ => Return None).

Definition validate_course_name_body (a : analyzer) (course_name : pyval)
    : exc (option string) :=
  match as_str course_name with
  | None => Return None
  | Some c =>
      if negb (existsb (String.eqb c) _subjects) then Return None
      else Return (Some c)
  end.

Definition validate_course_name (a : analyzer) (course_name : pyval)
    : exc (option string) :=
  try_except (validate_course_name_body a course_name) (fun _ => Return None).

(** [not v] for a value that is [None] or a [str]. *)
Definition falsy_str (v : option string) : bool :=
  match v with
  | None => true
  | Some s => String.eqb s ""
  end.

(** Records are built by [parse_student_line] only, so the type tests of the
    source hold for every record; the test on the number of grades remains. *)
Definition validate_data_body (a : analyzer) : exc bool :=
  if negb (check_data_loaded a) then Return false
  else Return (forallb (fun s => len (grades s) =? len _subjects) (_students a)).

Definition validate_data (a : analyzer) : exc bool :=
  try_except (validate_data_body a) (fun _ => Return false).

Definition get_student_count_body (a : analyzer) : exc Z :=
  if negb (check_data_loaded a) then Return 0
  else Return (len (_students a)).

Definition get_student_count (a : analyzer) : exc Z :=
  try_except (get_student_count_body a) (fun _ => Return 0).

(** ** Per-student queries *)

Definition calculate_student_average_body (a : analyzer) (student_id : pyval)
    : exc (option num) :=
  if negb (check_data_loaded a) then Return None
  else
    let* student := validate_student_id a student_id in
    match student with
    | None => Return None
    | Some s =>
        let* avg := true_div (sum_Z (map snd (grades s))) (len (grades s)) in
        Return (Some avg)
    end.

Definition calculate_student_average (a : analyzer) (student_id : pyval)
    : exc (option num) :=
  try_except (calculate_student_average_body a student_id) (fun _ => Return None).

(** [max(items, key=...)] and [min(items, key=...)]: the first extreme item
    in iteration order; ValueError on an empty sequence. *)
Fixpoint extreme_by {A : Type} (better : Z -> Z -> bool) (key : A -> Z)
    (best : A) (l : list A) : A :=
  match l with
  | [] => best
  | x :: l' => extreme_by better key (if better (key x) (key best) then x else best) l'
  end.

Definition py_max {A : Type} (key : A -> Z) (l : list A) : exc A :=
  match l with
  | [] => Raise ValueError
  | x :: l' => Return (extreme_by Z.gtb key x l')
  end.

Definition py_min {A : Type} (key : A -> Z) (l : list A) : exc A :=
  match l with
  | [] => Raise ValueError
  | x :: l' => Return (extreme_by Z.ltb key x l')
  end.

Definition get_student_highest_score_body (a : analyzer) (student_id : pyval)
    : exc (option (string * Z)) :=
  if negb (check_data_loaded a) then Return None
  else
    let* student := validate_student_id a student_id in
    match student with
    | None => Return None
    | Some s => let* item := py_max snd (grades s) in Return (Some item)
    end.

Definition get_student_highest_score (a : analyzer) (student_id : pyval)
    : exc (option (string * Z)) :=
  try_except (get_student_highest_score_body a student_id) (fun _ => Return None).

Definition get_student_lowest_score_body (a : analyzer) (student_id : pyval)
    : exc (option (string * Z)) :=
  if negb (check_data_loaded a) then Return None
  else
    let* student := validate_student_id a student_id in
    match student with
    | None => Return None
    | Some s => let* item := py_min snd (grades s) in Return (Some item)
    end.

Definition get_student_lowest_score (a : analyzer) (student_id : pyval)
    : exc (option (string * Z)) :=
  try_except (get_student_lowest_score_body a student_id) (fun _ => Return None).

(** [not isinstance(t, (int, float)) or t < 0 or t > 100] *)
Definition out_of_range (v : pyval) : bool :=
  match as_number v with
  | None => true
  | Some t => num_ltb t (NInt 0) || num_ltb (NInt 100) t
  end.

Definition is_student_passing_body (a : analyzer) (student_id threshold : pyval)
    : exc (option bool) :=
  if negb (check_data_loaded a) then Return (Some false)
  else
    let* student := validate_student_id a student_id in
    match student with
    | None => Return None
    | Some _ =>
        match as_number threshold with
        | None => Return None
        | Some t =>
            if out_of_range threshold then Return None
            else
              let* average := calculate_student_average a student_id in
              Return (Some match average with
                           | None => false
                           | Some avg => num_leb t avg
                           end)
        end
    end.

Definition is_student_passing (a : analyzer) (student_id threshold : pyval)
    : exc (option bool) :=
  try_except (is_student_passing_body a student_id threshold) (fun _ => Return None).

Definition nl : string := String (ascii_of_nat 10) "".

(** [for subject, grade in items: info += f"  {subject}: {grade}\n"] *)
Fixpoint grade_lines (items : list (string * Z)) (info : string) : exc string :=
  match items with
  | [] => Return info
  | (subject, grade) :: rest =>
      let* digits := py_str_int grade in
      grade_lines rest (info ++ "  " ++ subject ++ ": " ++ digits ++ nl)
  end.

Definition get_student_info_body (a : analyzer) (student_id : pyval)
    : exc (option string) :=
  if negb (check_data_loaded a) then Return None
  else
    let* student := validate_student_id a student_id in
    match student with
    | None => Return None
    | Some s =>
        let info := "Student ID: " ++ id s ++ nl ++ "Name: " ++ name s ++ nl
                    ++ "Grades:" ++ nl in
        let* info := grade_lines (grades s) info in
        Return (Some info)
    end.

Definition get_student_info (a : analyzer) (student_id : pyval)
    : exc (option string) :=
  try_except (get_student_info_body a student_id) (fun _ => Return None).

(** ** Sorting *)

(** [sorted] and [list.sort] are stable.  [before y x] says that [y] comes
    strictly before [x] in the target order; an element is inserted in front
    of the first element that is not strictly before it, so elements that
    compare equal keep the order they had.  This is the result of Python's
    sort whenever the keys are totally ordered. *)
Fixpoint insert_stable {A : Type} (before : A -> A -> bool) (x : A) (l : list A) : list A :=
  match l with
  | [] => [x]
  | y :: l' => if before y x then y :: insert_stable before x l' else x :: l
  end.

Definition stable_sort {A : Type} (before : A -> A -> bool) (l : list A) : list A :=
  fold_right (insert_stable before) [] l.

(** [sorted(l)] on ints. *)
Definition py_sorted (l : list Z) : list Z := stable_sort Z.ltb l.

Definition is_none {A : Type} (o : option A) : bool :=
  match o with
  | None => true
  | Some _ => false
  end.

Definition key_before (reverse : bool) (ky kx : option num) : bool :=
  match ky, kx with
  | Some a, Some b => if reverse then num_ltb b a else num_ltb a b
  | _, _ => false
  end.

(** [sorted(l, key=key, reverse=reverse)] with keys that are [None] or
    numbers other than nan (an int, or a quotient of ints, which is never a
    nan); a [None] key meets a comparison as soon as there are two
    elements: TypeError. *)
Definition py_sorted_by {A : Type} (key : A -> option num) (reverse : bool)
    (l : list A) : exc (list A) :=
  if (2 <=? len l) && existsb (fun x => is_none (key x)) l then Raise TypeError
  else Return (stable_sort (fun y x => key_before reverse (key y) (key x)) l).

(** ** Per-course queries *)

Definition letter_bands : list (Z * string) :=
  [(90, "A"); (80, "B"); (70, "C"); (60, "D"); (50, "E")].

Fixpoint first_band (score : num) (bands : list (Z * string)) : string :=
  match bands with
  | [] => "F"
  | (threshold, letter) :: rest =>
      if num_leb (NInt threshold) score then letter else first_band score rest
  end.

Definition convert_to_letter_grade_body (score : pyval) : exc (option string) :=
  match as_number score with
  | None => Return None
  | Some s =>
      if num_ltb s (NInt 0) || num_ltb (NInt 100) s then Return None
      else Return (Some (first_band s letter_bands))
  end.

Definition convert_to_letter_grade (score : pyval) : exc (option string) :=
  try_except (convert_to_letter_grade_body score) (fun _ => Return None).

Definition get_course_scores_body (a : analyzer) (course_name : pyval)
    : exc (list Z) :=
  if negb (check_data_loaded a) then Return []
  else
    let* course := validate_course_name a course_name in
    match course with
    | None => Return []
    | Some c =>
        if falsy_str course then Return []
        else Return (map (fun s => dict_get (grades s) c 0) (_students a))
    end.

Definition get_course_scores (a : analyzer) (course_name : pyval)
    : exc (list Z) :=
  try_except (get_course_scores_body a course_name) (fun _ => Return []).

Definition calculate_course_average_body (a : analyzer) (course_name : pyval)
    : exc num :=
  if negb (check_data_loaded a) then Return (NInt 0)
  else
    let* course := validate_course_name a course_name in
    if falsy_str course then Return (NInt 0)
    else
      let* scores := get_course_scores a course_name in
      match scores with
      | [] => Return (NInt 0)
      | _ => true_div (sum_Z scores) (len scores)
      end.

Definition calculate_course_average (a : analyzer) (course_name : pyval)
    : exc num :=
  try_except (calculate_course_average_body a course_name) (fun _ => Return (NInt 0)).

(** The statements of [find_course_median] after the scores are fetched. *)
Definition median_of (raw : list Z) : exc (option num) :=
  let scores := py_sorted raw in
  let n := len scores in
  if n =? 0 then Return None
  else
    let mid := n / 2 in
    if negb (n mod 2 =? 0) then
      let* x := list_item scores mid in Return (Some (NInt x))
    else
      let* x := list_item scores (mid - 1) in
      let* y := list_item scores mid in
      let* m := true_div (x + y) 2 in
      Return (Some m).

Definition find_course_median_body (a : analyzer) (course_name : pyval)
    : exc (option num) :=
  let* raw := get_course_scores a course_name in median_of raw.

Definition find_course_median (a : analyzer) (course_name : pyval)
    : exc (option num) :=
  try_except (find_course_median_body a course_name) (fun _ => Return None).

Fixpoint dict_set {V : Type} (d : list (string * V)) (k : string) (v : V) : list (string * V) :=
  match d with
  | [] => [(k, v)]
  | (k', v') :: d' => if String.eqb k' k then (k', v) :: d' else (k', v') :: dict_set d' k v
  end.

(** [distribution[key] += 1]; [None] is not a key of the dictionary. *)
Definition dict_incr (d : list (string * Z)) (key : option string) : exc (list (string * Z)) :=
  match key with
  | None => Raise KeyError
  | Some k => let* v := dict_item d k in Return (dict_set d k (v + 1))
  end.

Fixpoint count_letters (scores : list Z) (distribution : list (string * Z))
    : exc (list (string * Z)) :=
  match scores with
  | [] => Return distribution
  | score :: rest =>
      let* letter_grade := convert_to_letter_grade (VNum (NInt score)) in
      let* distribution := dict_incr distribution letter_grade in
      count_letters rest distribution
  end.

Definition empty_distribution : list (string * Z) :=
  [("A", 0); ("B", 0); ("C", 0); ("D", 0); ("E", 0); ("F", 0)].

Definition get_course_grade_distribution_body (a : analyzer) (course_name : pyval)
    : exc (list (string * Z)) :=
  if negb (check_data_loaded a) then Return []
  else
    let* course := validate_course_name a course_name in
    if falsy_str course then Return []
    else
      let* scores := get_course_scores a course_name in
      count_letters scores empty_distribution.

Definition get_course_grade_distribution (a : analyzer) (course_name : pyval)
    : exc (list (string * Z)) :=
  try_except (get_course_grade_distribution_body a course_name) (fun _ => Return []).

Definition rank_courses_by_difficulty_body (a : analyzer)
    : exc (list (string * num)) :=
  if negb (check_data_loaded a) then Return []
  else
    let* averages :=
      exc_map (fun subject =>
                 let* avg := calculate_course_average a (VStr subject) in
                 Return (subject, avg)) _subjects in
    py_sorted_by (fun item => Some (snd item)) false averages.

Definition rank_courses_by_difficulty (a : analyzer)
    : exc (list (string * num)) :=
  try_except (rank_courses_by_difficulty_body a) (fun _ => Return []).

Record course_stats : Type := {
  average : num;
  median : option num;
  highest : Z;
  lowest : Z;
  distribution : list (string * Z)
}.

(** [max(l, default=0)] and [min(l, default=0)] *)
Definition max_default (l : list Z) : Z :=
  match l with
  | [] => 0
  | x :: l' => extreme_by Z.gtb (fun v => v) x l'
  end.

Definition min_default (l : list Z) : Z :=
  match l with
  | [] => 0
  | x :: l' => extreme_by Z.ltb (fun v => v) x l'
  end.

Definition get_course_statistics_body (a : analyzer) (course_name : pyval)
    : exc (option course_stats) :=
  if negb (check_data_loaded a) then Return None
  else
    let* course := validate_course_name a course_name in
    if falsy_str course then Return None
    else
      let* avg := calculate_course_average a course_name in
      let* med := find_course_median a course_name in
      let* scores_hi := get_course_scores a course_name in
      let* scores_lo := get_course_scores a course_name in
      let* dist := get_course_grade_distribution a course_name in
      Return (Some {| average := avg;
                      median := med;
                      highest := max_default scores_hi;
                      lowest := min_default scores_lo;
                      distribution := dist |}).

Definition get_course_statistics (a : analyzer) (course_name : pyval)
    : exc (option course_stats) :=
  try_except (get_course_statistics_body a course_name) (fun _ => Return None).

(** ** Ranking and segmentation *)

Definition rank_students_by_average_body (a : analyzer)
    : exc (list (string * option num)) :=
  if negb (check_data_loaded a) then Return []
  else
    let* averages :=
      exc_map (fun s =>
                 let* avg := calculate_student_average a (VStr (id s)) in
                 Return (id s, avg)) (_students a) in
    py_sorted_by snd true averages.

Definition rank_students_by_average (a : analyzer)
    : exc (list (string * option num)) :=
  try_except (rank_students_by_average_body a) (fun _ => Return []).

Definition get_top_performers_body (a : analyzer) (n : pyval)
    : exc (list (string * option num)) :=
  if negb (check_data_loaded a) then Return []
  else
    match as_int n with
    | None => Return []
    | Some k =>
        if k <=? 0 then Return []
        else
          let* ranking := rank_students_by_average a in
          Return (firstn (Z.to_nat k) ranking)
    end.

Definition get_top_performers (a : analyzer) (n : pyval)
    : exc (list (string * option num)) :=
  try_except (get_top_performers_body a n) (fun _ => Return []).

(** [[s for s in l if test(s)]] with a test that can raise. *)
Fixpoint exc_filter {A : Type} (test : A -> exc bool) (l : list A) : exc (list A) :=
  match l with
  | [] => Return []
  | x :: l' =>
      let* keep := test x in
      let* rest := exc_filter test l' in
      Return (if keep then x :: rest else rest)
  end.

Definition get_struggling_students_body (a : analyzer) (threshold : pyval)
    : exc (list student) :=
  if negb (check_data_loaded a) then Return []
  else
    match as_number threshold with
    | None => Return []
    | Some t =>
        if out_of_range threshold then Return []
        else
          exc_filter
            (fun s =>
               let* avg := calculate_student_average a (VStr (id s)) in
               match avg with
               | None => Raise TypeError     (* None < threshold *)
               | Some v => Return (num_ltb v t)
               end)
            (_students a)
    end.

Definition get_struggling_students (a : analyzer) (threshold : pyval)
    : exc (list student) :=
  try_except (get_struggling_students_body a threshold) (fun _ => Return []).

Record class_stats : Type := {
  top_performers : list (string * option num);
  struggling_students : list student;
  subject_statistics : list (string * option course_stats);
  student_count : Z
}.

Definition calculate_class_statistics_body (a : analyzer)
    : exc (option class_stats) :=
  if negb (check_data_loaded a) then Return None
  else
    let* subject_stats :=
      exc_map (fun subject =>
                 let* stats := get_course_statistics a (VStr subject) in
                 Return (subject, stats)) _subjects in
    let* top := get_top_performers a (VNum (NInt 5)) in
    let* struggling := get_struggling_students a (VNum (NInt 60)) in
    Return (Some {| top_performers := top;
                    struggling_students := struggling;
                    subject_statistics := subject_stats;
                    student_count := len (_students a) |}).

Definition calculate_class_statistics (a : analyzer)
    : exc (option class_stats) :=
  try_except (calculate_class_statistics_body a) (fun _ => Return None).

(** ** Correlations *)

(** What [find_subject_correlations] returns: the list of triples, or the
    empty dict of its [except] branch. *)
Inductive correlations_result : Type :=
| CorrList (l : list (string * string * pyfloat))
| CorrEmptyDict.

(** [for i, s1 in enumerate(l): for s2 in l[i+1:]] *)
Fixpoint subject_pairs (l : list string) : list (string * string) :=
  match l with
  | [] => []
  | s1 :: rest => map (fun s2 => (s1, s2)) rest ++ subject_pairs rest
  end.

Definition is_nan (f : pyfloat) : bool :=
  match f with
  | NaN => true
  | _ => false
  end.

(** The items of [l] at the given positions; [l] itself if these are not
    the positions of [l], each once. *)
Definition rearrange {A : Type} (l : list A) (positions : list nat) : list A :=
  if (length positions =? length l)%nat
     && forallb (fun i => existsb (Nat.eqb i) positions) (seq 0 (length l))
  then flat_map (fun i => match nth_error l i with
                          | Some x => [x]
                          | None => []
                          end) positions
  else l.

(** [correlations.sort(key=lambda x: abs(x[2]), reverse=True)].  Without a
    nan the keys are totally ordered and the sort is the stable one.  With
    a nan among the keys [<] is no order: the list is left in an order that
    depends on the merge strategy of the interpreter, which the runtime
    supplies; whatever it is, the items are those of the list. *)
Definition sort_by_strength (rt : runtime) (l : list (string * string * pyfloat))
    : exc (list (string * string * pyfloat)) :=
  if existsb (fun x => is_nan (snd x)) l
  then Return (rearrange l (nan_sort_order rt (map (fun x => f_abs (snd x)) l)))
  else py_sorted_by (fun x => Some (NFloat (f_abs (snd x)))) true l.

Definition find_subject_correlations_body (rt : runtime) (a : analyzer)
    : exc correlations_result :=
  if negb (numpy_importable rt) then Raise ImportError
  else if negb (check_data_loaded a) then Return (CorrList [])
  else
    let* scores :=
      exc_map (fun subject =>
                 let* column := exc_map (fun s => dict_item (grades s) subject)
                                        (_students a) in
                 Return (subject, column)) _subjects in
    let* correlations :=
      exc_map (fun pair =>
                 let* x := dict_item scores (fst pair) in
                 let* y := dict_item scores (snd pair) in
                 let* corr := corrcoef rt x y in
                 Return (fst pair, snd pair, corr)) (subject_pairs _subjects) in
    let* correlations := sort_by_strength rt correlations in
    Return (CorrList correlations).

Definition find_subject_correlations (rt : runtime) (a : analyzer)
    : exc correlations_result :=
  try_except (find_subject_correlations_body rt a) (fun _ => Return CorrEmptyDict).

Definition get_grade_distribution_summary_body (a : analyzer)
    : exc (list (string * list (string * Z))) :=
  if negb (check_data_loaded a) then Return []
  else
    exc_map (fun subject =>
               let* dist := get_course_grade_distribution a (VStr subject) in
               Return (subject, dist)) _subjects.

Definition get_grade_distribution_summary (a : analyzer)
    : exc (list (string * list (string * Z))) :=
  try_except (get_grade_distribution_summary_body a) (fun _ => Return []).

(** ** Values handed to [str()] and returned to a caller *)

Definition py_opt {A : Type} (f : A -> pyval) (o : option A) : pyval :=
  match o with
  | None => VNone
  | Some x => f x
  end.

Definition py_int_dict (d : list (string * Z)) : pyval :=
  VDict (map (fun item => (VStr (fst item), VNum (NInt (snd item)))) d).

Definition py_student (s : student) : pyval :=
  VDict [(VStr "id", VStr (id s)); (VStr "name", VStr (name s));
         (VStr "grades", py_int_dict (grades s))].

Definition py_item (item : string * Z) : pyval :=
  VTuple [VStr (fst item); VNum (NInt (snd item))].

Definition py_ranking (l : list (string * option num)) : pyval :=
  VList (map (fun item => VTuple [VStr (fst item); py_opt VNum (snd item)]) l).

Definition py_course_stats (st : course_stats) : pyval :=
  VDict [(VStr "average", VNum (average st));
         (VStr "median", py_opt VNum (median st));
         (VStr "highest", VNum (NInt (highest st)));
         (VStr "lowest", VNum (NInt (lowest st)));
         (VStr "distribution", py_int_dict (distribution st))].

Definition py_class_stats (cs : class_stats) : pyval :=
  VDict [(VStr "top_performers", py_ranking (top_performers cs));
         (VStr "struggling_students (<60)",
          VList (map py_student (struggling_students cs)));
         (VStr "subject_statistics",
          VDict (map (fun item => (VStr (fst item), py_opt py_course_stats (snd item)))
                     (subject_statistics cs)));
         (VStr "student_count", VNum (NInt (student_count cs)))].

Definition py_correlations (r : correlations_result) : pyval :=
  match r with
  | CorrList l =>
      VList (map (fun t => VTuple [VStr (fst (fst t)); VStr (snd (fst t));
                                   VNum (NFloat (snd t))]) l)
  | CorrEmptyDict => VDict []
  end.

(** ** Reports *)

(** [f"{n:.2f}"] for a number: an int is converted to a float first. *)
Definition fmt_num (rt : runtime) (n : num) : exc string :=
  match n with
  | NInt z => let* f := float_of_int z in Return (format_2f rt f)
  | NFloat f => Return (format_2f rt f)
  end.

(** [f"{v:.2f}"]: [None] does not take a format specification. *)
Definition fmt_2f (rt : runtime) (v : option num) : exc string :=
  match v with
  | None => Raise TypeError
  | Some n => fmt_num rt n
  end.

(** [v[0]] and [v[1]] for a value that is a pair or [None]. *)
Definition subscript {A : Type} (v : option A) : exc A :=
  match v with
  | None => Raise TypeError
  | Some x => Return x
  end.

(** [f"{v}"] for a value that is a [str] or [None]. *)
Definition str_or_none (v : option string) : string :=
  match v with
  | None => "None"
  | Some s => s
  end.

Fixpoint letter_lines (items : list (string * Z)) : exc string :=
  match items with
  | [] => Return ""
  | (subject, score) :: rest =>
      let* letter := convert_to_letter_grade (VNum (NInt score)) in
      let* more := letter_lines rest in
      Return ("  " ++ subject ++ ": " ++ str_or_none letter ++ nl ++ more)
  end.

Definition generate_student_report_body (rt : runtime) (a : analyzer) (student_id : pyval)
    : exc (option string) :=
  if negb (check_data_loaded a) then Return None
  else
    let* student_data := validate_student_id a student_id in
    match student_data with
    | None => Return None
    | Some s =>
        let* info := get_student_info a student_id in
        let* avg := calculate_student_average a student_id in
        let* high := get_student_highest_score a student_id in
        let* low := get_student_lowest_score a student_id in
        let* passing := is_student_passing a student_id (VNum (NInt 60)) in
        let status := if truthy (py_opt VBool passing) then "Passing" else "Failing" in
        let* avg_text := fmt_2f rt avg in
        let* hi := subscript high in
        let* hi_text := py_str_int (snd hi) in
        let* lo := subscript low in
        let* lo_text := py_str_int (snd lo) in
        let report :=
          str_or_none info
          ++ "Average Score: " ++ avg_text ++ nl
          ++ "Highest Score: " ++ fst hi ++ " (" ++ hi_text ++ ")" ++ nl
          ++ "Lowest Score: " ++ fst lo ++ " (" ++ lo_text ++ ")" ++ nl
          ++ "Passing Status: " ++ status ++ nl
          ++ "Letter Grades:" ++ nl in
        let* letters := letter_lines (grades s) in
        Return (Some (report ++ letters ++ nl))
    end.

Definition generate_student_report (rt : runtime) (a : analyzer) (student_id : pyval)
    : exc (option string) :=
  try_except (generate_student_report_body rt a student_id) (fun _ => Return None).

Definition generate_course_report_body (rt : runtime) (a : analyzer) (course_name : pyval)
    : exc (option string) :=
  if negb (check_data_loaded a) then Return None
  else
    let* course := validate_course_name a course_name in
    match course with
    | None => Return None
    | Some c =>
        let* stats := get_course_statistics a course_name in
        match stats with
        | None => Return None
        | Some st =>
            let* avg_text := fmt_num rt (average st) in
            let* hi_text := fmt_num rt (NInt (highest st)) in
            let* lo_text := fmt_num rt (NInt (lowest st)) in
            let* dist_text := py_str rt (py_int_dict (distribution st)) in
            Return (Some ("Course: " ++ c ++ nl
              ++ "Average Score: " ++ avg_text ++ nl
              ++ "Highest Score: " ++ hi_text ++ nl
              ++ "Lowest Score: " ++ lo_text ++ nl
              ++ "Distribution: " ++ dist_text ++ nl
              ++ "Total Students: " ++ str_int (len (_students a)) ++ nl))
        end
    end.

Definition generate_course_report (rt : runtime) (a : analyzer) (course_name : pyval)
    : exc (option string) :=
  try_except (generate_course_report_body rt a course_name) (fun _ => Return None).

Fixpoint subject_sections (rt : runtime) (a : analyzer)
    (items : list (string * option course_stats)) (report : string) : exc string :=
  match items with
  | [] => Return report
  | (subject, stats) :: rest =>
      let* st := subscript stats in
      let* avg_text := fmt_num rt (average st) in
      let* hi_text := fmt_num rt (NInt (highest st)) in
      let* lo_text := fmt_num rt (NInt (lowest st)) in
      let* dist_text := py_str rt (py_int_dict (distribution st)) in
      subject_sections rt a rest
        (report ++ "Subject: " ++ subject ++ nl
         ++ "  Average: " ++ avg_text ++ nl
         ++ "  Highest: " ++ hi_text ++ nl
         ++ "  Lowest: " ++ lo_text ++ nl
         ++ "  Distribution: " ++ dist_text ++ nl
         ++ "  Total Students: " ++ str_int (len (_students a)) ++ nl)
  end.

Definition generate_class_overview_body (rt : runtime) (a : analyzer)
    : exc (option string) :=
  if negb (check_data_loaded a) then Return None
  else
    let* overall_stats := calculate_class_statistics a in
    match overall_stats with
    | None => Return None
    | Some cs =>
        let* top_text := py_str rt (py_ranking (top_performers cs)) in
        let* struggling_text :=
          py_str rt (VList (map py_student (struggling_students cs))) in
        let report :=
          "Class Overview" ++ nl
          ++ "Total Students: " ++ str_int (student_count cs) ++ nl
          ++ "Top Performers: " ++ top_text ++ nl
          ++ "Struggling Students (<60): " ++ struggling_text ++ nl in
        let* report := subject_sections rt a (subject_statistics cs) report in
        Return (Some report)
    end.

Definition generate_class_overview (rt : runtime) (a : analyzer)
    : exc (option string) :=
  try_except (generate_class_overview_body rt a) (fun _ => Return None).

(** The [try] block of [save_report_to_file]: what it does to the file
    system and how it ends.  The method returns [None] on every path. *)
Definition save_report_to_file_body (w : write_result)
    (report_content filename : pyval) : file_effect * exc unit :=
  if negb (truthy report_content) then (NoFileTouched, Return tt)
  else
    match as_str filename with
    | None => (NoFileTouched, Raise AttributeError)   (* filename.endswith *)
    | Some target =>
        if negb (endswith target ".txt") then (NoFileTouched, Return tt)
        else
          match as_str report_content with
          | None => (NoFileTouched, Return tt)
          | Some text =>
              match w with
              | OpenForWriteRaises e => (NoFileTouched, Raise e)
              | WriteRaises e kept =>
                  (FileHolds target (substring 0 kept text), Raise e)
              | WriteSucceeds => (FileHolds target text, Return tt)
              end
          end
    end.

Definition save_report_to_file (w : write_result)
    (report_content filename : pyval) : file_effect * exc unit :=
  let r := save_report_to_file_body w report_content filename in
  (fst r, try_except (snd r) (fun _ => Return tt)).

(** [display_summary] only prints: what remains of it are the calls it
    makes and the formatting of what it prints. *)
Definition display_summary_body (rt : runtime) (a : analyzer) : exc unit :=
  if negb (check_data_loaded a) then Return tt
  else
    let* count := get_student_count a in
    let* class_stats := calculate_class_statistics a in
    match class_stats with
    | None => Return tt
    | Some cs =>
        let* top_text := py_str rt (py_ranking (top_performers cs)) in
        let* struggling_text :=
          py_str rt (VList (map py_student (struggling_students cs))) in
        let* averages :=
          exc_map (fun item => match snd item with
                               | None => Return ""
                               | Some st => fmt_num rt (average st)
                               end) (subject_statistics cs) in
        Return tt
    end.

Definition display_summary (rt : runtime) (a : analyzer) : exc unit :=
  try_except (display_summary_body rt a) (fun _ => Return tt).

(** ** The public interface *)

(** Every public method of the class, with its arguments.  An argument left
    out by the caller is its default ([threshold=60], [n=5]). *)
Inductive operation : Type :=
| Students
| CheckDataLoaded
| ValidateStudentId (student_id : pyval)
| ValidateCourseName (course_name : pyval)
| LoadData
| ParseStudentLine (line : pyval)
| ValidateData
| GetStudentCount
| CalculateStudentAverage (student_id : pyval)
| GetStudentHighestScore (student_id : pyval)
| GetStudentLowestScore (student_id : pyval)
| IsStudentPassing (student_id threshold : pyval)
| GetStudentInfo (student_id : pyval)
| ConvertToLetterGrade (score : pyval)
| GetCourseScores (course_name : pyval)
| CalculateCourseAverage (course_name : pyval)
| FindCourseMedian (course_name : pyval)
| GetCourseGradeDistribution (course_name : pyval)
| RankCoursesByDifficulty
| GetCourseStatistics (course_name : pyval)
| RankStudentsByAverage
| GetTopPerformers (n : pyval)
| GetStrugglingStudents (threshold : pyval)
| CalculateClassStatistics
| FindSubjectCorrelations
| GetGradeDistributionSummary
| GenerateStudentReport (student_id : pyval)
| GenerateCourseReport (course_name : pyval)
| GenerateClassOverview
| SaveReportToFile (report_content filename : pyval)
| DisplaySummary.

(** What the world answers during one call. *)
Record environment : Type := {
  env_runtime : runtime;
  env_open : open_result;
  env_write : write_result
}.

Definition exc_fmap {A B : Type} (f : A -> B) (m : exc A) : exc B :=
  let* v := m in Return (f v).

Definition py_Z (z : Z) : pyval := VNum (NInt z).

Definition py_course_ranking (l : list (string * num)) : pyval :=
  VList (map (fun item => VTuple [VStr (fst item); VNum (snd item)]) l).

Definition py_summary (l : list (string * list (string * Z))) : pyval :=
  VDict (map (fun item => (VStr (fst item), py_int_dict (snd item))) l).

Definition const_none {A : Type} (_ : A) : pyval := VNone.

(** The value computed by the guarded part of an operation (its [try]
    block; the whole body for the two accessors that have none), or the
    exception that part ends with. *)
Definition attempt (env : environment) (a : analyzer) (op : operation) : exc pyval :=
  let rt := env_runtime env in
  match op with
  | Students => Return (VList (map py_student (students a)))
  | CheckDataLoaded => Return (VBool (check_data_loaded a))
  | ValidateStudentId v => exc_fmap (py_opt py_student) (validate_student_id_body a v)
  | ValidateCourseName v => exc_fmap (py_opt VStr) (validate_course_name_body a v)
  | LoadData =>
      match snd (load_data_body (env_open env) a) with
      | None => Return VNone
      | Some e => Raise e
      end
  | ParseStudentLine v => exc_fmap (py_opt py_student) (parse_student_line_body v)
  | ValidateData => exc_fmap VBool (validate_data_body a)
  | GetStudentCount => exc_fmap py_Z (get_student_count_body a)
  | CalculateStudentAverage v => exc_fmap (py_opt VNum) (calculate_student_average_body a v)
  | GetStudentHighestScore v => exc_fmap (py_opt py_item) (get_student_highest_score_body a v)
  | GetStudentLowestScore v => exc_fmap (py_opt py_item) (get_student_lowest_score_body a v)
  | IsStudentPassing v t => exc_fmap (py_opt VBool) (is_student_passing_body a v t)
  | GetStudentInfo v => exc_fmap (py_opt VStr) (get_student_info_body a v)
  | ConvertToLetterGrade v => exc_fmap (py_opt VStr) (convert_to_letter_grade_body v)
  | GetCourseScores v => exc_fmap (fun l => VList (map py_Z l)) (get_course_scores_body a v)
  | CalculateCourseAverage v => exc_fmap VNum (calculate_course_average_body a v)
  | FindCourseMedian v => exc_fmap (py_opt VNum) (find_course_median_body a v)
  | GetCourseGradeDistribution v =>
      exc_fmap py_int_dict (get_course_grade_distribution_body a v)
  | RankCoursesByDifficulty => exc_fmap py_course_ranking (rank_courses_by_difficulty_body a)
  | GetCourseStatistics v => exc_fmap (py_opt py_course_stats) (get_course_statistics_body a v)
  | RankStudentsByAverage => exc_fmap py_ranking (rank_students_by_average_body a)
  | GetTopPerformers v => exc_fmap py_ranking (get_top_performers_body a v)
  | GetStrugglingStudents v =>
      exc_fmap (fun l => VList (map py_student l)) (get_struggling_students_body a v)
  | CalculateClassStatistics =>
      exc_fmap (py_opt py_class_stats) (calculate_class_statistics_body a)
  | FindSubjectCorrelations => exc_fmap py_correlations (find_subject_correlations_body rt a)
  | GetGradeDistributionSummary =>
      exc_fmap py_summary (get_grade_distribution_summary_body a)
  | GenerateStudentReport v => exc_fmap (py_opt VStr) (generate_student_report_body rt a v)
  | GenerateCourseReport v => exc_fmap (py_opt VStr) (generate_course_report_body rt a v)
  | GenerateClassOverview => exc_fmap (py_opt VStr) (generate_class_overview_body rt a)
  | SaveReportToFile c f =>
      exc_fmap const_none (snd (save_report_to_file_body (env_write env) c f))
  | DisplaySummary => exc_fmap const_none (display_summary_body rt a)
  end.

(** What a caller observes of one call: the value returned and the engine
    afterwards, or the exception that reached the caller. *)
Definition call (env : environment) (a : analyzer) (op : operation) : exc (pyval * analyzer) :=
  let rt := env_runtime env in
  let pure (m : exc pyval) := exc_fmap (fun v => (v, a)) m in
  match op with
  | Students => pure (Return (VList (map py_student (students a))))
  | CheckDataLoaded => pure (Return (VBool (check_data_loaded a)))
  | ValidateStudentId v => pure (exc_fmap (py_opt py_student) (validate_student_id a v))
  | ValidateCourseName v => pure (exc_fmap (py_opt VStr) (validate_course_name a v))
  | LoadData => Return (VNone, load_data (env_open env) a)
  | ParseStudentLine v => pure (exc_fmap (py_opt py_student) (parse_student_line v))
  | ValidateData => pure (exc_fmap VBool (validate_data a))
  | GetStudentCount => pure (exc_fmap py_Z (get_student_count a))
  | CalculateStudentAverage v => pure (exc_fmap (py_opt VNum) (calculate_student_average a v))
  | GetStudentHighestScore v =>
      pure (exc_fmap (py_opt py_item) (get_student_highest_score a v))
  | GetStudentLowestScore v => pure (exc_fmap (py_opt py_item) (get_student_lowest_score a v))
  | IsStudentPassing v t => pure (exc_fmap (py_opt VBool) (is_student_passing a v t))
  | GetStudentInfo v => pure (exc_fmap (py_opt VStr) (get_student_info a v))
  | ConvertToLetterGrade v => pure (exc_fmap (py_opt VStr) (convert_to_letter_grade v))
  | GetCourseScores v => pure (exc_fmap (fun l => VList (map py_Z l)) (get_course_scores a v))
  | CalculateCourseAverage v => pure (exc_fmap VNum (calculate_course_average a v))
  | FindCourseMedian v => pure (exc_fmap (py_opt VNum) (find_course_median a v))
  | GetCourseGradeDistribution v =>
      pure (exc_fmap py_int_dict (get_course_grade_distribution a v))
  | RankCoursesByDifficulty => pure (exc_fmap py_course_ranking (rank_courses_by_difficulty a))
  | GetCourseStatistics v =>
      pure (exc_fmap (py_opt py_course_stats) (get_course_statistics a v))
  | RankStudentsByAverage => pure (exc_fmap py_ranking (rank_students_by_average a))
  | GetTopPerformers v => pure (exc_fmap py_ranking (get_top_performers a v))
  | GetStrugglingStudents v =>
      pure (exc_fmap (fun l => VList (map py_student l)) (get_struggling_students a v))
  | CalculateClassStatistics =>
      pure (exc_fmap (py_opt py_class_stats) (calculate_class_statistics a))
  | FindSubjectCorrelations => pure (exc_fmap py_correlations (find_subject_correlations rt a))
  | GetGradeDistributionSummary =>
      pure (exc_fmap py_summary (get_grade_distribution_summary a))
  | GenerateStudentReport v => pure (exc_fmap (py_opt VStr) (generate_student_report rt a v))
  | GenerateCourseReport v => pure (exc_fmap (py_opt VStr) (generate_course_report rt a v))
  | GenerateClassOverview => pure (exc_fmap (py_opt VStr) (generate_class_overview rt a))
  | SaveReportToFile c f =>
      pure (exc_fmap const_none (snd (save_report_to_file (env_write env) c f)))
  | DisplaySummary => pure (exc_fmap const_none (display_summary rt a))
  end.

(** The value each operation's [except Exception] branch returns. *)
Definition sentinel (op : operation) : pyval :=
  match op with
  | ValidateData => VBool false
  | GetStudentCount | CalculateCourseAverage _ => VNum (NInt 0)
  | GetCourseScores _ | RankCoursesByDifficulty | RankStudentsByAverage
  | GetTopPerformers _ | GetStrugglingStudents _ => VList []
  | GetCourseGradeDistribution _ | FindSubjectCorrelations
  | GetGradeDistributionSummary => VDict []
  | _ => VNone
  end.

(** What each operation that tests [check_data_loaded] (itself or through
    the calls it makes) returns when the data is not loaded; [None] for the
    operations that do not depend on the flag. *)
Definition not_loaded_result (env : environment) (op : operation) : option pyval :=
  match op with
  | Students | CheckDataLoaded | ValidateStudentId _ | ValidateCourseName _
  | LoadData | ParseStudentLine _ | ConvertToLetterGrade _
  | SaveReportToFile _ _ => None
  | ValidateData | IsStudentPassing _ _ => Some (VBool false)
  | GetStudentCount | CalculateCourseAverage _ => Some (VNum (NInt 0))
  | GetCourseScores _ | RankCoursesByDifficulty | RankStudentsByAverage
  | GetTopPerformers _ | GetStrugglingStudents _ => Some (VList [])
  | FindSubjectCorrelations =>
      (* "import numpy" runs before the test of the flag *)
      Some (if numpy_importable (env_runtime env) then VList [] else VDict [])
  | GetCourseGradeDistribution _ | GetGradeDistributionSummary => Some (VDict [])
  | _ => Some VNone
  end.

(** ** Validity of arguments *)

(** A subject name is valid when it is a [str] of the catalog. *)
Definition invalid_course_name (course_name : pyval) : Prop :=
  match as_str course_name with
  | None => True
  | Some c => ~ In c _subjects
  end.

(** A student id is valid when it is a [str] and some record carries it. *)
Definition invalid_student_id (a : analyzer) (student_id : pyval) : Prop :=
  match as_str student_id with
  | None => True
  | Some sid => forall s, In s (_students a) -> id s <> sid
  end.

(** [x] may stand in front of [y] in a list sorted by [before]. *)
Definition may_precede {A : Type} (before : A -> A -> bool) (x y : A) : Prop :=
  before y x = false.

(** The comparison of a sort by a rational key, largest first: [y] comes
    strictly before [x] when its key is the larger. *)
Definition larger_first {A : Type} (qkey : A -> Q) (y x : A) : bool :=
  Qlt_bool (qkey x) (qkey y).

(** ** The record list and the records as objects

    [self._students] is a reference to a list object whose items are
    references to the student dictionaries.  For what a caller can do with
    the list returned by the [students] property, the objects are kept in a
    heap; an engine state in the sense of [analyzer] is what the references
    of the engine lead to. *)

Definition loc : Type := nat.

Inductive object : Type :=
| ListObject (items : list loc)
| RecordObject (s : student).

Record engine : Type := {
  students_ref : loc;
  loaded_flag : bool;
  file_name : string
}.

Definition list_at (h : gmap loc object) (l : loc) : option (list loc) :=
  match h !! l with
  | Some (ListObject items) => Some items
  | _ => None
  end.

Definition record_at (h : gmap loc object) (l : loc) : option student :=
  match h !! l with
  | Some (RecordObject s) => Some s
  | _ => None
  end.

Fixpoint records_at (h : gmap loc object) (items : list loc) : option (list student) :=
  match items with
  | [] => Some []
  | l :: rest =>
      match record_at h l, records_at h rest with
      | Some s, Some records => Some (s :: records)
      | _, _ => None
      end
  end.

(** The records a list object leads to, in the order of the list. *)
Definition read_list (h : gmap loc object) (l : loc) : option (list student) :=
  match list_at h l with
  | Some items => records_at h items
  | None => None
  end.

(** The engine state that the heap holds for an engine. *)
Definition store_view (h : gmap loc object) (e : engine) : option analyzer :=
  match read_list h (students_ref e) with
  | Some records =>
      Some {| _filename := file_name e; _students := records; _loaded := loaded_flag e |}
  | None => None
  end.

(** The [students] property, [self._students.copy()]: a new list object, at
    the address [r] that the allocator hands out, with the items of the
    list of the engine. *)
Definition students_property (h : gmap loc object) (e : engine) (r : loc)
    : option (gmap loc object) :=
  match list_at h (students_ref e) with
  | Some items => Some (<[r := ListObject items]> h)
  | None => None
  end.

(** What a caller can do to a list it holds ([append], [pop], [l[i] = x],
    [clear], ...): give the list object new items. *)
Definition list_mutate (h : gmap loc object) (l : loc) (items : list loc)
    : gmap loc object :=
  <[l := ListObject items]> h.

(** What a caller can do to a record it holds ([rec['name'] = x],
    [rec['grades']['Math'] = 0], ...): give the record new content. *)
Definition record_mutate (h : gmap loc object) (l : loc) (s : student)
    : gmap loc object :=
  <[l := RecordObject s]> h.

(** ** Vocabulary of the statements *)

(** A numeric score in [0, 100]. *)
Definition in_range_score (score : pyval) : Prop :=
  exists n, as_number score = Some n
            /\ num_leb (NInt 0) n = true /\ num_leb n (NInt 100) = true.

(** The band of a score, in the words of the grading table: 90 and above
    is A, 80 and above B, 70 and above C, 60 and above D, 50 and above E,
    anything lower F. *)
Definition band_of (q : Q) : string :=
  if Qle_bool 90 q then "A"
  else if Qle_bool 80 q then "B"
  else if Qle_bool 70 q then "C"
  else if Qle_bool 60 q then "D"
  else if Qle_bool 50 q then "E"
  else "F".

(** A record as [parse_student_line] builds it: one grade per subject of
    the catalog, in catalog order. *)
Definition record_ok (s : student) : Prop := map fst (grades s) = _subjects.

(** A record set as a successful [load_data] leaves it. *)
Definition loaded_store (a : analyzer) : Prop :=
  _loaded a = true /\ Forall record_ok (_students a).

(** The scores of one subject, record by record in store order. *)
Definition column (a : analyzer) (subject : string) : list Z :=
  map (fun s => dict_get (grades s) subject 0) (_students a).

(** The arithmetic mean of a list of ints, exact. *)
Definition exact_mean (l : list Z) : Q := inject_Z (sum_Z l) / inject_Z (len l).

(** The arithmetic mean of the grades of a record, exact. *)
Definition grades_mean (s : student) : Q :=
  inject_Z (sum_Z (map snd (grades s))) / inject_Z (len (grades s)).

(** The average of a record as a float: the double nearest to the mean of
    its grades. *)
Definition student_mean (s : student) : Q := nearest_double (grades_mean s).

(** A record whose average is within the range of the doubles. *)
Definition average_in_range (s : student) : Prop :=
  overflows (grades_mean s) = false.

(** A record whose grades are all within the range of the doubles (they
    have far fewer digits than [str()] allows, then). *)
Definition grades_in_float_range (s : student) : Prop :=
  Forall (fun item => Z.abs (snd item) <= DBL_MAX) (grades s).


(** What [calculate_student_average] makes of a record: its average, or
    [None] when the mean is beyond the range of the doubles (the
    OverflowError of the division is caught). *)
Definition record_average (s : student) : option num :=
  if overflows (grades_mean s) then None
  else Some (NFloat (Fin (student_mean s))).

(** The exact mean of the two middle elements of a list of even length. *)
Definition middle_mean (sorted : list Z) : Q :=
  let n := length sorted in
  ((inject_Z (nth (n / 2 - 1) sorted 0%Z) + inject_Z (nth (n / 2) sorted 0%Z)) / 2)%Q.

(** The first record, in store order, that carries an id. *)
Definition first_with_id (a : analyzer) (sid : string) : option student :=
  find (fun s => String.eqb (id s) sid) (_students a).

(** The entry of the ranking that a record gives rise to: its id with the
    average of the first record that carries this id. *)
Definition ranking_entry (a : analyzer) (s : student) : string * option num :=
  (id s, match first_with_id a (id s) with
         | Some s0 => record_average s0
         | None => None
         end).

(** A record paired with its own average. *)
Definition own_entry (s : student) : string * option num :=
  (id s, Some (NFloat (Fin (student_mean s)))).

Definition entry_average (e : string * option num) : Q :=
  match snd e with
  | Some (NFloat (Fin q)) => q
  | Some (NInt z) => inject_Z z
  | _ => 0
  end.

Definition letters : list string := ["A"; "B"; "C"; "D"; "E"; "F"].

(** The number of scores that fall in a band. *)
Definition band_count (letter : string) (scores : list Z) : Z :=
  len (List.filter (fun score => String.eqb (band_of (inject_Z score)) letter) scores).




(** A runtime whose numpy answers nan, as [np.corrcoef] does for columns of
    a single sample (zero degrees of freedom) and for a constant column. *)
Definition nan_runtime : runtime :=
  {| format_2f := fun _ => "";
     py_str := fun _ => Return "";
     numpy_importable := true;
     corrcoef := fun _ _ => Return NaN;
     nan_sort_order := fun keys => seq 0 (length keys) |}.



(** ** Sample engines *)

Definition header_line : string := "id,name,Math,Physics,Chemistry,Biology,English".

Definition load_file (lines : list string) : analyzer :=
  load_data (Opened (header_line :: lines) None) (init "student_grades.txt").

(** The one-student file of the round-trip test. *)
Definition alice_engine : analyzer := load_file ["STU001,Alice,90,85,70,60,95"].

(** Math scores 50, 60, 70 and 50, 60, 70, 80, not in sorted order. *)
Definition three_scores_engine : analyzer :=
  load_file ["S1,Ann,70,1,1,1,1"; "S2,Ben,50,1,1,1,1"; "S3,Cal,60,1,1,1,1"].

Definition four_scores_engine : analyzer :=
  load_file ["S1,Ann,70,1,1,1,1"; "S2,Ben,50,1,1,1,1"; "S3,Cal,80,1,1,1,1";
             "S4,Dee,60,1,1,1,1"].

(** A record with a Math score above 100. *)
Definition out_of_range_engine : analyzer := load_file ["STU001,Alice,105,85,70,60,95"].


(** Math scores [10 ** 400] and 1. *)
Definition huge_score_engine : analyzer :=
  load_file ["S1,Ann," ++ str_int (10 ^ 400) ++ ",1,1,1,1"; "S2,Ben,1,1,1,1,1"].

(** Two records with one id. *)
Definition duplicate_id_engine : analyzer :=
  load_file ["S1,Ann,100,100,100,100,100"; "S1,Bob,0,0,0,0,0"].

(** Alice's record, and the same record with the Math grade set to 0. *)
Definition alice : student :=
  {| id := "STU001"; name := "Alice";
     grades := [("Math", 90); ("Physics", 85); ("Chemistry", 70);
                ("Biology", 60); ("English", 95)] |}.

Definition alice_math_zero : student :=
  {| id := "STU001"; name := "Alice";
     grades := [("Math", 0); ("Physics", 85); ("Chemistry", 70);
                ("Biology", 60); ("English", 95)] |}.

(** The objects of [alice_engine]: the list of the engine at address 0, the
    record of Alice at address 1. *)
Definition alice_heap : gmap loc object :=
  <[0%nat := ListObject [1%nat]]> (<[1%nat := RecordObject alice]> ∅).

Definition alice_handle : engine :=
  {| students_ref := 0%nat; loaded_flag := true; file_name := "student_grades.txt" |}.

(** The records of the data lines that [parse_student_line] accepts, in
    the order of the lines. *)
Definition parsed_records (lines : list string) : list student :=
  flat_map (fun line => match parse_student_line (VStr line) with
                        | Return (Some s) => [s]
                        | _ => []
                        end) lines.

(** The place of a letter in the scale, A first. *)
Definition letter_rank (letter : string) : Z :=
  if String.eqb letter "A" then 0
  else if String.eqb letter "B" then 1
  else if String.eqb letter "C" then 2
  else if String.eqb letter "D" then 3
  else if String.eqb letter "E" then 4
  else 5.

(** The rational value of a finite number. *)
Definition num_Q (n : num) : Q :=
  match n with
  | NInt z => inject_Z z
  | NFloat (Fin q) => q
  | NFloat _ => 0
  end.

(** A threshold that the two threshold tests accept: an int or a finite
    float from 0 to 100. *)
Definition valid_threshold (threshold : pyval) (t : Q) : Prop :=
  exists n, as_number threshold = Some n /\ num_val n = Fin t /\ (0 <= t <= 100)%Q.

(** The comparison of a sort by a rational key, smallest first. *)
Definition smaller_first {A : Type} (qkey : A -> Q) (y x : A) : bool :=
  Qlt_bool (qkey y) (qkey x).

(** The average of a subject over the store: the int 0 without records
    and when the mean of the column is beyond the range of the doubles,
    else the double nearest to that mean. *)
Definition course_mean (a : analyzer) (subject : string) : num :=
  match column a subject with
  | [] => NInt 0
  | _ => if overflows (exact_mean (column a subject)) then NInt 0
         else NFloat (Fin (nearest_double (exact_mean (column a subject))))
  end.

(** What [get_course_statistics] returns for a subject. *)
Definition course_statistics_of (a : analyzer) (subject : string) : option course_stats :=
  match get_course_statistics a (VStr subject) with
  | Return r => r
  | Raise _ => None
  end.

(** * Properties *)

Create HintDb methods.
#[local] Hint Unfold parse_student_line validate_student_id validate_course_name
  validate_data get_student_count calculate_student_average
  get_student_highest_score get_student_lowest_score is_student_passing
  get_student_info convert_to_letter_grade get_course_scores
  calculate_course_average find_course_median get_course_grade_distribution
  rank_courses_by_difficulty get_course_statistics rank_students_by_average
  get_top_performers get_struggling_students calculate_class_statistics
  find_subject_correlations get_grade_distribution_summary
  generate_student_report generate_course_report generate_class_overview
  save_report_to_file display_summary : methods.

(** ** Binary64 rounding *)

Lemma Qlt_bool_iff (x y : Q) : Qlt_bool x y = true <-> (x < y)%Q.
Proof.
  unfold Qlt_bool. rewrite negb_true_iff. split.
  - intros H. apply Qnot_le_lt. intros Hle. apply Qle_bool_iff in Hle. congruence.
  - intros H. destruct (Qle_bool y x) eqn:Hle; [|reflexivity].
    apply Qle_bool_iff in Hle. exfalso. exact (Qlt_not_le _ _ H Hle).
Qed.

Lemma Qlt_bool_false_iff (x y : Q) : Qlt_bool x y = false <-> (y <= x)%Q.
Proof.
  unfold Qlt_bool. rewrite negb_false_iff. apply Qle_bool_iff.
Qed.

Lemma pow2_pos k : (0 < pow2 k)%Q.
Proof. apply Qpower_0_lt. reflexivity. Qed.

Lemma pow2_add a b : (pow2 (a + b) == pow2 a * pow2 b)%Q.
Proof. apply Qpower_plus. discriminate. Qed.

Lemma pow2_inv a : (pow2 a * pow2 (- a) == 1)%Q.
Proof. rewrite <- pow2_add. replace (a + - a) with 0 by lia. reflexivity. Qed.

Lemma pow2_le a b : a <= b -> (pow2 a <= pow2 b)%Q.
Proof. intros H. apply Qpower_le_compat_l; [exact H | discriminate]. Qed.

Lemma pow2_lt_inv a b : (pow2 a < pow2 b)%Q -> a < b.
Proof. intros H. apply (Qpower_lt_compat_l_inv 2); [exact H | reflexivity]. Qed.

Lemma pow2_Z k : 0 <= k -> (pow2 k == inject_Z (2 ^ k))%Q.
Proof. intros H. unfold pow2. rewrite Zpower_Qpower by exact H. reflexivity. Qed.

Lemma Q_num_den (q : Q) : (q * inject_Z (Zpos (Qden q)) == inject_Z (Qnum q))%Q.
Proof. destruct q as [n d]. unfold Qeq. simpl. rewrite Pos.mul_1_r. ring. Qed.

Lemma ilog2_spec (q : Q) :
  (0 < q)%Q -> (pow2 (ilog2 q) <= q /\ q < pow2 (ilog2 q + 1))%Q.
Proof.
  intros Hq.
  assert (Hn : 0 < Qnum q) by (unfold Qlt in Hq; simpl in Hq; lia).
  pose proof (Z.log2_spec _ Hn) as [Ha1 Ha2].
  pose proof (Z.log2_spec (Zpos (Qden q)) eq_refl) as [Hb1 Hb2].
  pose proof (Z.log2_nonneg (Qnum q)) as Ha0.
  pose proof (Z.log2_nonneg (Zpos (Qden q))) as Hb0.
  pose proof (Q_num_den q) as Hq'.
  unfold ilog2.
  set (a := Z.log2 (Qnum q)) in *. set (b := Z.log2 (Zpos (Qden q))) in *.
  rewrite Zle_Qle in Ha1, Hb1.
  assert (Ha2' : (inject_Z (Qnum q) < inject_Z (2 ^ Z.succ a))%Q)
    by (rewrite <- Zlt_Qlt; exact Ha2).
  assert (Hb2' : (inject_Z (Zpos (Qden q)) < inject_Z (2 ^ Z.succ b))%Q)
    by (rewrite <- Zlt_Qlt; exact Hb2).
  clear Ha2 Hb2. rename Ha2' into Ha2. rename Hb2' into Hb2.
  rewrite <- pow2_Z in Ha1, Hb1 by lia.
  rewrite <- pow2_Z in Ha2, Hb2 by lia.
  set (N := inject_Z (Qnum q)) in *. set (D := inject_Z (Zpos (Qden q))) in *.
  assert (HD : (0 < D)%Q) by (unfold D, Qlt; simpl; lia).
  destruct (Qle_bool (pow2 (a - b)) q) eqn:E.
  - split; [apply Qle_bool_iff; exact E |].
    replace (a - b + 1) with (Z.succ a + - b) by lia.
    rewrite pow2_add.
    pose proof (pow2_inv b) as Hi. pose proof (pow2_pos b) as Hp.
    pose proof (pow2_pos (- b)) as Hp'. pose proof (pow2_pos (Z.succ a)) as Hs.
    set (P := pow2 b) in *. set (X := pow2 (- b)) in *. set (S := pow2 (Z.succ a)) in *.
    assert (H1 : (q * P < S)%Q) by nra.
    assert (H2 : (q * P * X < S * X)%Q) by (apply Qmult_lt_r; assumption).
    assert (H3 : (q * P * X == q)%Q) by (rewrite <- Qmult_assoc, Hi; ring).
    rewrite H3 in H2. exact H2.
  - split.
    + replace (a - b - 1) with (a + - Z.succ b) by lia.
      rewrite pow2_add.
      pose proof (pow2_inv (Z.succ b)) as Hi. pose proof (pow2_pos (Z.succ b)) as Hp.
      pose proof (pow2_pos (- Z.succ b)) as Hp'. pose proof (pow2_pos a) as Hs.
      set (P := pow2 (Z.succ b)) in *. set (X := pow2 (- Z.succ b)) in *.
      set (S := pow2 a) in *.
      assert (H1 : (S <= q * P)%Q) by nra.
      assert (H2 : (S * X <= q * P * X)%Q) by (apply Qmult_le_compat_r; [assumption | lra]).
      assert (H3 : (q * P * X == q)%Q) by (rewrite <- Qmult_assoc, Hi; ring).
      rewrite H3 in H2. exact H2.
    + replace (a - b - 1 + 1) with (a - b) by lia.
      apply Qnot_le_lt. intros Hc. apply Qle_bool_iff in Hc. congruence.
Qed.

Lemma ilog2_lt (q : Q) (k : Z) : (0 < q)%Q -> (q < pow2 k)%Q -> ilog2 q < k.
Proof.
  intros Hq Hk. destruct (ilog2_spec q Hq) as [H1 _].
  apply pow2_lt_inv. eapply Qle_lt_trans; eassumption.
Qed.

Lemma ilog2_ge (q : Q) (k : Z) : (0 < q)%Q -> (pow2 k <= q)%Q -> k <= ilog2 q.
Proof.
  intros Hq Hk. destruct (ilog2_spec q Hq) as [_ H2].
  assert (k < ilog2 q + 1); [| lia].
  apply pow2_lt_inv. eapply Qle_lt_trans; eassumption.
Qed.

Lemma ilog2_mono (p q : Q) : (0 < p)%Q -> (p <= q)%Q -> ilog2 p <= ilog2 q.
Proof.
  intros Hp Hpq. destruct (ilog2_spec p Hp) as [H1 _].
  apply ilog2_ge; [lra | lra].
Qed.

Lemma round_half_even_bounds (q : Q) :
  Qfloor q <= round_half_even q <= Qfloor q + 1.
Proof.
  unfold round_half_even.
  destruct (q - inject_Z (Qfloor q) ?= 1 # 2)%Q; [destruct (Z.even _) | |]; lia.
Qed.

Lemma round_half_even_Z (q : Q) (z : Z) : (q == inject_Z z)%Q -> round_half_even q = z.
Proof.
  intros H. unfold round_half_even.
  rewrite (Qfloor_comp _ _ H), Qfloor_Z.
  destruct (Qcompare_spec (q - inject_Z z) (1 # 2)) as [E | E | E];
    [exfalso; lra | reflexivity | exfalso; lra].
Qed.

Lemma round_half_even_mono (p q : Q) :
  (p <= q)%Q -> round_half_even p <= round_half_even q.
Proof.
  intros H. pose proof (Qfloor_resp_le _ _ H) as Hf.
  destruct (Z.eq_dec (Qfloor p) (Qfloor q)) as [E | E].
  - unfold round_half_even. rewrite E.
    destruct (Qcompare_spec (p - inject_Z (Qfloor q)) (1 # 2)) as [E1 | E1 | E1];
      destruct (Qcompare_spec (q - inject_Z (Qfloor q)) (1 # 2)) as [E2 | E2 | E2];
      try (exfalso; lra); try destruct (Z.even (Qfloor q)); lia.
  - pose proof (round_half_even_bounds p). pose proof (round_half_even_bounds q). lia.
Qed.

Lemma round_pos_nonneg (q : Q) : (0 <= q)%Q -> (0 <= round_pos q)%Q.
Proof.
  intros H. unfold round_pos.
  set (e := Z.max _ _). pose proof (pow2_pos e). pose proof (pow2_pos (- e)).
  apply Qmult_le_0_compat; [| lra].
  change 0%Q with (inject_Z 0). rewrite <- Zle_Qle.
  rewrite <- (round_half_even_Z 0 0) by reflexivity.
  apply round_half_even_mono. apply Qmult_le_0_compat; lra.
Qed.

Lemma round_pos_mono (p q : Q) :
  (0 < p)%Q -> (p <= q)%Q -> (round_pos p <= round_pos q)%Q.
Proof.
  intros Hp Hpq. assert (Hq : (0 < q)%Q) by lra.
  pose proof (ilog2_mono p q Hp Hpq) as Hl.
  unfold round_pos.
  set (e1 := Z.max (ilog2 p - 52) (-1074)). set (e2 := Z.max (ilog2 q - 52) (-1074)).
  assert (He : e1 <= e2) by lia.
  destruct (Z.eq_dec e1 e2) as [E | E].
  - rewrite E. pose proof (pow2_pos e2). pose proof (pow2_pos (- e2)).
    apply Qmult_le_compat_r; [| lra].
    rewrite <- Zle_Qle. apply round_half_even_mono.
    apply Qmult_le_compat_r; lra.
  - assert (He2 : e2 = ilog2 q - 52) by lia.
    destruct (ilog2_spec p Hp) as [_ Hp2]. destruct (ilog2_spec q Hq) as [Hq1 _].
    (* round_pos p <= 2^(53+e1) <= 2^(52+e2) <= round_pos q *)
    apply Qle_trans with (pow2 (52 + e2)).
    + apply Qle_trans with (pow2 (53 + e1)); [| apply pow2_le; lia].
      rewrite pow2_add. pose proof (pow2_pos e1). pose proof (pow2_pos (- e1)).
      apply Qmult_le_compat_r; [| lra].
      rewrite (pow2_Z 53) by lia. rewrite <- Zle_Qle.
      rewrite <- (round_half_even_Z (inject_Z (2 ^ 53)) (2 ^ 53)) by reflexivity.
      apply round_half_even_mono.
      rewrite <- (pow2_Z 53) by lia.
      assert (Hb : (p <= pow2 (53 + e1))%Q).
      { apply Qle_trans with (pow2 (ilog2 p + 1)); [lra | apply pow2_le; lia]. }
      rewrite pow2_add in Hb. pose proof (pow2_inv e1) as Hi. pose proof (pow2_pos 53).
      assert (Hc : (p * pow2 (- e1) <= pow2 53 * pow2 e1 * pow2 (- e1))%Q)
        by (apply Qmult_le_compat_r; lra).
      rewrite <- Qmult_assoc, Hi, Qmult_1_r in Hc. exact Hc.
    + rewrite pow2_add. pose proof (pow2_pos e2). pose proof (pow2_pos (- e2)).
      apply Qmult_le_compat_r; [| lra].
      rewrite (pow2_Z 52) by lia. rewrite <- Zle_Qle.
      rewrite <- (round_half_even_Z (inject_Z (2 ^ 52)) (2 ^ 52)) by reflexivity.
      apply round_half_even_mono.
      rewrite <- (pow2_Z 52) by lia.
      assert (Hb : (pow2 (52 + e2) <= q)%Q).
      { replace (52 + e2) with (ilog2 q) by lia. exact Hq1. }
      rewrite pow2_add in Hb. pose proof (pow2_inv e2) as Hi. pose proof (pow2_pos 52).
      assert (Hc : (pow2 52 * pow2 e2 * pow2 (- e2) <= q * pow2 (- e2))%Q)
        by (apply Qmult_le_compat_r; lra).
      rewrite <- Qmult_assoc, Hi, Qmult_1_r in Hc. exact Hc.
Qed.

Lemma round_pos_comp (p q : Q) : (0 < p)%Q -> (p == q)%Q -> (round_pos p == round_pos q)%Q.
Proof.
  intros Hp E. apply Qle_antisym; apply round_pos_mono; lra.
Qed.

(** A number [m * 2^e] with less than 54 bits in [m] is a double. *)
Lemma round_pos_exact (m e : Z) :
  0 < m < 2 ^ 53 -> -1074 <= e ->
  (round_pos (inject_Z m * pow2 e) == inject_Z m * pow2 e)%Q.
Proof.
  intros Hm He.
  assert (Hmq : (0 < inject_Z m)%Q) by (unfold Qlt; simpl; lia).
  pose proof (pow2_pos e) as Hpe.
  set (q := (inject_Z m * pow2 e)%Q).
  assert (Hq : (0 < q)%Q) by (apply Qmult_lt_0_compat; assumption).
  assert (Hl : ilog2 q < 53 + e).
  { apply ilog2_lt; [exact Hq |]. rewrite pow2_add. unfold q.
    apply Qmult_lt_compat_r; [exact Hpe |].
    rewrite pow2_Z by lia. rewrite <- Zlt_Qlt. lia. }
  unfold round_pos. set (e' := Z.max (ilog2 q - 52) (-1074)).
  assert (He' : e' <= e) by lia.
  assert (Hs : (q * pow2 (- e') == inject_Z (m * 2 ^ (e - e')))%Q).
  { unfold q. rewrite inject_Z_mult, <- pow2_Z by lia.
    replace (e - e') with (e + - e') by lia. rewrite pow2_add. ring. }
  rewrite (round_half_even_Z _ _ Hs).
  rewrite inject_Z_mult, <- pow2_Z by lia.
  replace (e - e') with (e + - e') by lia. rewrite pow2_add.
  unfold q. rewrite <- !Qmult_assoc. rewrite (Qmult_comm (pow2 (- e'))), pow2_inv. ring.
Qed.

Lemma round_pos_zero (p : Q) : (p == 0)%Q -> (round_pos p == 0)%Q.
Proof.
  intros H. unfold round_pos. set (e := Z.max _ _).
  rewrite (round_half_even_Z _ 0); [ring |].
  rewrite H. ring.
Qed.

Lemma nearest_double_mono (p q : Q) :
  (p <= q)%Q -> (nearest_double p <= nearest_double q)%Q.
Proof.
  intros H. unfold nearest_double. apply Qred_le.
  destruct (Qlt_bool p 0) eqn:Ep; destruct (Qlt_bool q 0) eqn:Eq.
  - apply Qlt_bool_iff in Ep, Eq.
    assert (round_pos (- q) <= round_pos (- p))%Q by (apply round_pos_mono; lra). lra.
  - apply Qlt_bool_iff in Ep. apply Qlt_bool_false_iff in Eq.
    pose proof (round_pos_nonneg (- p)). pose proof (round_pos_nonneg q). lra.
  - apply Qlt_bool_iff in Eq. apply Qlt_bool_false_iff in Ep. lra.
  - apply Qlt_bool_false_iff in Ep, Eq.
    destruct (Qlt_le_dec 0 p) as [Hp | Hp].
    + apply round_pos_mono; assumption.
    + rewrite (round_pos_zero p) by lra. apply round_pos_nonneg. exact Eq.
Qed.

(** A number [m * 2^e] with at most 53 bits in [m] is a double. *)
Lemma nearest_double_exact (m e : Z) :
  Z.abs m < 2 ^ 53 -> -1074 <= e ->
  (nearest_double (inject_Z m * pow2 e) == inject_Z m * pow2 e)%Q.
Proof.
  intros Hm He. unfold nearest_double. rewrite Qred_correct.
  pose proof (pow2_pos e) as Hp.
  destruct (Qlt_bool (inject_Z m * pow2 e) 0) eqn:E.
  - apply Qlt_bool_iff in E.
    assert (Hneg : m < 0).
    { destruct (Z_lt_le_dec m 0) as [Hm0 | Hm0]; [exact Hm0 | exfalso].
      rewrite Zle_Qle in Hm0. change (inject_Z 0) with 0%Q in Hm0.
      assert (0 <= inject_Z m * pow2 e)%Q by (apply Qmult_le_0_compat; lra). lra. }
    rewrite (round_pos_comp _ (inject_Z (- m) * pow2 e)).
    + rewrite round_pos_exact by lia. rewrite inject_Z_opp. ring.
    + lra.
    + rewrite inject_Z_opp. ring.
  - apply Qlt_bool_false_iff in E.
    destruct (Z.eq_dec m 0) as [-> | Hm0].
    + rewrite round_pos_zero; ring.
    + assert (Hpos : 0 < m).
      { destruct (Z_lt_le_dec 0 m) as [H0 | H0]; [exact H0 | exfalso].
        assert (Hlt : m < 0) by lia. rewrite Zlt_Qlt in Hlt.
        change (inject_Z 0) with 0%Q in Hlt.
        assert (inject_Z m * pow2 e < 0)%Q by nra. lra. }
      apply round_pos_exact; lia.
Qed.

Lemma Qred_inject_Z (z : Z) : Qred (inject_Z z) = inject_Z z.
Proof.
  unfold Qred, inject_Z.
  pose proof (Z.ggcd_gcd z 1) as Hg. pose proof (Z.ggcd_correct_divisors z 1) as Hd.
  destruct (Z.ggcd z 1) as [g [a b]]. simpl in *.
  rewrite Z.gcd_1_r in Hg. subst g. destruct Hd as [Ha Hb].
  f_equal; [lia |]. replace b with 1 by lia. reflexivity.
Qed.

Lemma nearest_double_comp (p q : Q) :
  (p == q)%Q -> nearest_double p = nearest_double q.
Proof.
  intros H.
  assert (E : (nearest_double p == nearest_double q)%Q)
    by (apply Qle_antisym; apply nearest_double_mono; lra).
  unfold nearest_double in *. apply Qred_complete. apply Qeq_Qred_iff. exact E.
Qed.

Lemma nearest_double_eq (q r : Q) :
  (nearest_double q == r)%Q -> nearest_double q = Qred r.
Proof.
  intros H. unfold nearest_double in *.
  rewrite <- (Qred_complete _ _ H). symmetry. apply Qred_complete, Qred_correct.
Qed.

(** Every int of at most 53 bits, and [2 ^ 53] itself, is a double. *)
Lemma nearest_double_Z (z : Z) :
  Z.abs z <= 2 ^ 53 -> nearest_double (inject_Z z) = inject_Z z.
Proof.
  intros H. rewrite <- (Qred_inject_Z z) at 2. apply nearest_double_eq.
  destruct (Z.eq_dec (Z.abs z) (2 ^ 53)) as [E | E].
  - assert (Hz : (inject_Z z == inject_Z (z / 2) * pow2 1)%Q).
    { change (pow2 1) with (inject_Z 2). rewrite <- inject_Z_mult.
      destruct (Z.abs_spec z) as [[_ A] | [_ A]]; rewrite A in E.
      - rewrite E. reflexivity.
      - replace z with (- 2 ^ 53) by lia. reflexivity. }
    rewrite (nearest_double_comp _ _ Hz), nearest_double_exact;
      [symmetry; exact Hz | | lia].
    destruct (Z.abs_spec z) as [[_ A] | [_ A]]; rewrite A in E.
    + rewrite E. reflexivity.
    + replace z with (- 2 ^ 53) by lia. reflexivity.
  - assert (Hz : (inject_Z z == inject_Z z * pow2 0)%Q) by (change (pow2 0) with 1%Q; ring).
    rewrite (nearest_double_comp _ _ Hz), nearest_double_exact;
      [symmetry; exact Hz | lia | lia].
Qed.

(** Half of an int of at most 53 bits is a double. *)
Lemma nearest_double_half (z : Z) :
  Z.abs z <= 2 ^ 53 ->
  nearest_double (inject_Z z / inject_Z 2) = Qred (inject_Z z / inject_Z 2).
Proof.
  intros H. apply nearest_double_eq.
  destruct (Z.eq_dec (Z.abs z) (2 ^ 53)) as [E | E].
  - assert (Hz : (inject_Z z / inject_Z 2 == inject_Z (z / 2))%Q).
    { destruct (Z.abs_spec z) as [[_ A] | [_ A]]; rewrite A in E.
      - rewrite E. reflexivity.
      - replace z with (- 2 ^ 53) by lia. reflexivity. }
    rewrite (nearest_double_comp _ _ Hz), nearest_double_Z; [symmetry; exact Hz |].
    destruct (Z.abs_spec z) as [[_ A] | [_ A]]; rewrite A in E.
    + rewrite E. vm_compute. discriminate.
    + replace z with (- 2 ^ 53) by lia. vm_compute. discriminate.
  - assert (Hz : (inject_Z z / inject_Z 2 == inject_Z z * pow2 (-1))%Q)
      by (change (pow2 (-1)) with (/ 2)%Q; reflexivity).
    rewrite (nearest_double_comp _ _ Hz), nearest_double_exact;
      [symmetry; exact Hz | lia | lia].
Qed.

(** Rounding does not leave an interval whose ends are doubles. *)
Lemma nearest_double_between (lo hi : Z) (q : Q) :
  Z.abs lo <= 2 ^ 53 -> Z.abs hi <= 2 ^ 53 ->
  (inject_Z lo <= q <= inject_Z hi)%Q ->
  (inject_Z lo <= nearest_double q <= inject_Z hi)%Q.
Proof.
  intros Hlo Hhi [H1 H2].
  rewrite <- (nearest_double_Z lo Hlo) at 1. rewrite <- (nearest_double_Z hi Hhi) at 1.
  split; apply nearest_double_mono; assumption.
Qed.

Lemma nearest_double_DBL_MAX : nearest_double (inject_Z DBL_MAX) = inject_Z DBL_MAX.
Proof.
  rewrite <- (Qred_inject_Z DBL_MAX) at 2. apply nearest_double_eq.
  assert (Hz : (inject_Z DBL_MAX == inject_Z (2 ^ 53 - 1) * pow2 971)%Q).
  { rewrite pow2_Z by lia. rewrite <- inject_Z_mult. reflexivity. }
  rewrite (nearest_double_comp _ _ Hz), nearest_double_exact;
    [symmetry; exact Hz | reflexivity | lia].
Qed.

Lemma nearest_double_opp_DBL_MAX :
  nearest_double (inject_Z (- DBL_MAX)) = inject_Z (- DBL_MAX).
Proof.
  rewrite <- (Qred_inject_Z (- DBL_MAX)) at 2. apply nearest_double_eq.
  assert (Hz : (inject_Z (- DBL_MAX) == inject_Z (- (2 ^ 53 - 1)) * pow2 971)%Q).
  { rewrite pow2_Z by lia. rewrite <- inject_Z_mult. reflexivity. }
  rewrite (nearest_double_comp _ _ Hz), nearest_double_exact;
    [symmetry; exact Hz | reflexivity | lia].
Qed.

(** Within the range of the finite doubles rounding stays there. *)
Lemma nearest_double_in_range (q : Q) :
  (Qabs q <= inject_Z DBL_MAX)%Q -> (Qabs (nearest_double q) <= inject_Z DBL_MAX)%Q.
Proof.
  intros H. apply Qabs_Qle_condition in H. destruct H as [H1 H2].
  apply Qabs_Qle_condition. rewrite <- inject_Z_opp in *.
  rewrite <- nearest_double_DBL_MAX at 1. rewrite <- nearest_double_opp_DBL_MAX at 1.
  split; apply nearest_double_mono; assumption.
Qed.

(** ** The operation boundary *)

Lemma try_except_sentinel {A : Type} (body : exc A) (s : A) :
  try_except body (fun _ => Return s)
  = Return (match body with Return v => v | Raise _ => s end).
Proof. destruct body; reflexivity. Qed.

Lemma exc_fmap_guarded {A B : Type} (f : A -> B) (body : exc A) (s : A) :
  exc_fmap f (try_except body (fun _ => Return s))
  = Return (match exc_fmap f body with Return v => v | Raise _ => f s end).
Proof. destruct body; reflexivity. Qed.

(** C2.  A call of a public operation, on any engine state, with any
    arguments and whatever the environment answers, returns to its caller:
    it yields the value its guarded part computed or, when that part ended
    with an exception, the sentinel of the operation. *)
Theorem public_operations_never_raise
    (env : environment) (a : analyzer) (op : operation) :
  raises (call env a op) = false
  /\ exists a',
       call env a op
       = Return (match attempt env a op with
                 | Return v => v
                 | Raise _ => sentinel op
                 end, a').
Proof.
  assert (H : exists a',
             call env a op
             = Return (match attempt env a op with
                       | Return v => v
                       | Raise _ => sentinel op
                       end, a')).
  { destruct op; cbn [call attempt sentinel]; autounfold with methods;
      try (eexists; rewrite ?exc_fmap_guarded; reflexivity).
    - (* load_data *)
      eexists. destruct (snd (load_data_body (env_open env) a)); reflexivity.
    - (* save_report_to_file *)
      eexists. cbv zeta. cbn [snd]. rewrite exc_fmap_guarded. reflexivity. }
  split; [|exact H]. destruct H as [a' ->]. reflexivity.
Qed.

(** ** Validators *)

Lemma existsb_eqb_In (c : string) (l : list string) :
  existsb (String.eqb c) l = true <-> In c l.
Proof.
  rewrite existsb_exists. split.
  - intros [x [Hin Heq]]. apply String.eqb_eq in Heq. now subst.
  - intros Hin. exists c. split; [assumption | apply String.eqb_refl].
Qed.

Lemma validate_course_name_invalid (a : analyzer) (course_name : pyval) :
  invalid_course_name course_name -> validate_course_name a course_name = Return None.
Proof.
  unfold invalid_course_name, validate_course_name, validate_course_name_body.
  destruct (as_str course_name) as [c|]; [|reflexivity].
  intros Hnot. destruct (existsb (String.eqb c) _subjects) eqn:Hex; [|reflexivity].
  apply existsb_eqb_In in Hex. contradiction.
Qed.

Lemma validate_course_name_valid (a : analyzer) (c : string) :
  In c _subjects -> validate_course_name a (VStr c) = Return (Some c).
Proof.
  intros Hin. unfold validate_course_name, validate_course_name_body. cbn [as_str].
  apply existsb_eqb_In in Hin. now rewrite Hin.
Qed.

Lemma find_id_none (l : list student) (sid : string) :
  (forall s, In s l -> id s <> sid) ->
  find (fun s => String.eqb (id s) sid) l = None.
Proof.
  induction l as [|s l IH]; intros Hall; [reflexivity|]. cbn [find].
  destruct (String.eqb (id s) sid) eqn:Heq.
  - apply String.eqb_eq in Heq. exfalso. apply (Hall s); [now left | assumption].
  - apply IH. intros s' Hin. apply Hall. now right.
Qed.

Lemma validate_student_id_invalid (a : analyzer) (student_id : pyval) :
  invalid_student_id a student_id -> validate_student_id a student_id = Return None.
Proof.
  unfold invalid_student_id, validate_student_id, validate_student_id_body.
  destruct (as_str student_id) as [sid|]; [|reflexivity].
  intros Hall. now rewrite (find_id_none _ _ Hall).
Qed.

(** ** Sentinels of the two averages *)

(** C3.  With the data not loaded or the subject invalid the course average
    is the int 0; with the data not loaded or the student id invalid the
    student average is [None]. *)
Theorem course_average_zero_student_average_none
    (a : analyzer) (course_name student_id : pyval) :
  _loaded a = false \/ invalid_course_name course_name ->
  _loaded a = false \/ invalid_student_id a student_id ->
  calculate_course_average a course_name = Return (NInt 0)
  /\ calculate_student_average a student_id = Return None.
Proof.
  intros Hcourse Hstudent. split.
  - unfold calculate_course_average, calculate_course_average_body, check_data_loaded.
    destruct (_loaded a) eqn:Hl; [|reflexivity].
    destruct Hcourse as [Hc|Hc]; [discriminate|].
    now rewrite (validate_course_name_invalid a _ Hc).
  - unfold calculate_student_average, calculate_student_average_body, check_data_loaded.
    destruct (_loaded a) eqn:Hl; [|reflexivity].
    destruct Hstudent as [Hs|Hs]; [discriminate|].
    now rewrite (validate_student_id_invalid a _ Hs).
Qed.

Lemma course_average_zero_student_average_none_witness :
  calculate_course_average alice_engine (VStr "History") = Return (NInt 0)
  /\ calculate_student_average alice_engine (VStr "STU999") = Return None.
Proof.
  apply (course_average_zero_student_average_none alice_engine
           (VStr "History") (VStr "STU999")).
  - right. cbn. intros H.
    repeat (destruct H as [H|H]; [discriminate H|]). exact H.
  - right. cbn. intros s [H|H]; [subst s; cbn; discriminate | contradiction].
Defined.

(** ** Loading *)

Lemma load_data_open_raises (e : exn) (a : analyzer) :
  load_data (OpenRaises e) a
  = if exn_eqb e FileNotFoundError then a else set_loaded false a.
Proof. reflexivity. Qed.

(** C1, evaluated where it fails.  After a successful load, a load attempt
    on a source that has gone missing ([open] raises FileNotFoundError)
    leaves the flag true and the records of the earlier load in place. *)
Theorem load_data_missing_file_after_success :
  let a2 := load_data (OpenRaises FileNotFoundError) alice_engine in
  _loaded alice_engine = true
  /\ _loaded a2 = true
  /\ _students a2 = _students alice_engine
  /\ length (_students a2) = 1%nat.
Proof. cbv zeta. repeat split; reflexivity. Qed.

(** On an unreadable source (any other exception of [open]) the flag is
    reset, and here too the earlier records stay. *)
Lemma load_data_unreadable_after_success :
  let a2 := load_data (OpenRaises PermissionError) alice_engine in
  _loaded a2 = false /\ _students a2 = _students alice_engine.
Proof. cbv zeta. split; reflexivity. Qed.

(** A first load attempt on a missing or unreadable source does leave the
    flag false and the record set empty. *)
Lemma load_data_open_raises_fresh (e : exn) (filename : string) :
  let a := load_data (OpenRaises e) (init filename) in
  _loaded a = false /\ _students a = [].
Proof. cbv zeta. rewrite load_data_open_raises. destruct (exn_eqb _ _); split; reflexivity. Qed.

(** A source that fails while it is read (here after its first data line)
    leaves the flag false and the records parsed so far in the store. *)
Lemma load_data_read_error_partial :
  let a := load_data (Opened [header_line; "STU001,Alice,90,85,70,60,95"]
                             (Some UnicodeDecodeError))
                     (init "student_grades.txt") in
  _loaded a = false /\ _students a = [alice].
Proof. cbv zeta. split; reflexivity. Qed.

(** The round trip of the one-student file. *)
Lemma alice_round_trip :
  _students alice_engine = [alice]
  /\ calculate_student_average alice_engine (VStr "STU001")
     = Return (Some (NFloat (Fin 80)))
  /\ get_student_highest_score alice_engine (VStr "STU001")
     = Return (Some ("English", 95))
  /\ is_student_passing alice_engine (VStr "STU001") (VNum (NInt 60))
     = Return (Some true)
  /\ is_student_passing alice_engine (VStr "STU001") (VNum (NInt 150))
     = Return None.
Proof. repeat split; reflexivity. Qed.

(** A data line with six fields, or with a grade that is no integer, is
    skipped and the load succeeds. *)
Lemma load_data_skips_bad_lines :
  let a := load_file ["STU001,Alice,90,85,70,60,95"; "S2,Bob,1,2,3,4";
                      "S3,Cy,1,2,x,4,5"] in
  _loaded a = true /\ _students a = [alice].
Proof. cbv zeta. split; reflexivity. Qed.

(** ** Queries on an engine that is not loaded *)

Lemma not_loaded_calls (a : analyzer) (env : environment) (op : operation) :
  _loaded a = false ->
  match not_loaded_result env op with
  | Some v => call env a op = Return (v, a)
  | None => True
  end.
Proof.
  intros Hl.
  destruct op; cbn [not_loaded_result call]; try exact I;
    autounfold with methods;
    unfold validate_data_body, get_student_count_body, calculate_student_average_body,
      get_student_highest_score_body, get_student_lowest_score_body,
      is_student_passing_body, get_student_info_body, get_course_scores_body,
      calculate_course_average_body, find_course_median_body,
      get_course_grade_distribution_body, rank_courses_by_difficulty_body,
      get_course_statistics_body, rank_students_by_average_body,
      get_top_performers_body, get_struggling_students_body,
      calculate_class_statistics_body, find_subject_correlations_body,
      get_grade_distribution_summary_body, generate_student_report_body,
      generate_course_report_body, generate_class_overview_body,
      display_summary_body; autounfold with methods;
    unfold get_course_scores_body, check_data_loaded; rewrite ?Hl;
    try reflexivity.
  - (* find_subject_correlations: the import comes first *)
    destruct (numpy_importable (env_runtime env)); reflexivity.
Qed.

(** C10.  A readable source with no line at all is a failed load: whatever
    the engine held before, the flag is false and the record set empty
    afterwards, and every operation that depends on the flag returns what it
    returns for data that is not loaded. *)
Theorem load_data_empty_file (a : analyzer) :
  let a' := load_data (Opened [] None) a in
  snd (load_data_body (Opened [] None) a) = Some StopIteration
  /\ _loaded a' = false
  /\ _students a' = []
  /\ forall (env : environment) (op : operation),
       match not_loaded_result env op with
       | Some v => call env a' op = Return (v, a')
       | None => True
       end.
Proof.
  cbv zeta. repeat split.
  intros env op. now apply not_loaded_calls.
Qed.

(** ** Stable sorting *)

Section StableSort.
Context {A : Type} (before : A -> A -> bool).

Lemma insert_stable_perm (x : A) (l : list A) :
  Permutation (insert_stable before x l) (x :: l).
Proof.
  induction l as [|y l IH]; cbn [insert_stable]; [reflexivity|].
  destruct (before y x); [|reflexivity].
  rewrite IH. apply perm_swap.
Qed.

Lemma stable_sort_perm (l : list A) : Permutation (stable_sort before l) l.
Proof.
  induction l as [|x l IH]; cbn [stable_sort fold_right]; [reflexivity|].
  fold (stable_sort before l). rewrite insert_stable_perm. now constructor.
Qed.

Lemma stable_sort_length (l : list A) : length (stable_sort before l) = length l.
Proof. apply Permutation_length, stable_sort_perm. Qed.

(** Elements of one class are never strictly before one another: the
    sort leaves the class in the order it had. *)
Lemma insert_stable_filter (p : A -> bool) (x : A) (l : list A) :
  (forall y z, p y = true -> p z = true -> before y z = false) ->
  List.filter p (insert_stable before x l) = List.filter p (x :: l).
Proof.
  intros Hclass. induction l as [|y l IH]; cbn [insert_stable]; [reflexivity|].
  destruct (before y x) eqn:Hb; [|reflexivity].
  cbn [List.filter] in *. destruct (p y) eqn:Hy, (p x) eqn:Hx;
    try (rewrite IH; reflexivity).
  rewrite (Hclass y x Hy Hx) in Hb. discriminate.
Qed.

Lemma stable_sort_filter (p : A -> bool) (l : list A) :
  (forall y z, p y = true -> p z = true -> before y z = false) ->
  List.filter p (stable_sort before l) = List.filter p l.
Proof.
  intros Hclass. induction l as [|x l IH]; [reflexivity|].
  cbn [stable_sort fold_right]. fold (stable_sort before l).
  rewrite (insert_stable_filter p x _ Hclass). cbn [List.filter]. now rewrite IH.
Qed.

Hypothesis before_asym : forall x y, before x y = true -> before y x = false.
Hypothesis may_precede_trans :
  forall x y z, (may_precede before) x y -> (may_precede before) y z -> (may_precede before) x z.

Lemma insert_stable_sorted (x : A) (l : list A) :
  StronglySorted (may_precede before) l ->
  StronglySorted (may_precede before) (insert_stable before x l).
Proof using before_asym may_precede_trans.
  induction 1 as [|y l Hs IH Hall]; cbn [insert_stable].
  - repeat constructor.
  - destruct (before y x) eqn:Hb.
    + constructor; [assumption|].
      apply (Permutation_Forall (Permutation_sym (insert_stable_perm x l))).
      constructor; [|assumption]. now apply before_asym.
    + constructor; [now constructor|].
      constructor; [exact Hb|].
      eapply List.Forall_impl; [|exact Hall].
      intros z Hz. now apply (may_precede_trans x y z).
Qed.

Lemma stable_sort_sorted (l : list A) : StronglySorted (may_precede before) (stable_sort before l).
Proof using before_asym may_precede_trans.
  induction l as [|x l IH]; cbn [stable_sort fold_right]; [constructor|].
  now apply insert_stable_sorted.
Qed.
End StableSort.

(** The result only depends on the comparisons between elements of the
    list. *)
Lemma insert_stable_ext {A : Type} (f g : A -> A -> bool) (x : A) (l : list A) :
  (forall y, In y l -> f y x = g y x) ->
  insert_stable f x l = insert_stable g x l.
Proof.
  induction l as [|y l IH]; intros Hfg; [reflexivity|]. cbn [insert_stable].
  rewrite (Hfg y (or_introl eq_refl)). destruct (g y x); [|reflexivity].
  f_equal. apply IH. intros z Hz. apply Hfg. now right.
Qed.

Lemma stable_sort_ext {A : Type} (f g : A -> A -> bool) (l : list A) :
  (forall x y, In x l -> In y l -> f x y = g x y) ->
  stable_sort f l = stable_sort g l.
Proof.
  induction l as [|x l IH]; intros Hfg; [reflexivity|].
  cbn [stable_sort fold_right]. fold (stable_sort f l) (stable_sort g l).
  rewrite IH by (intros y z Hy Hz; apply Hfg; now right).
  apply insert_stable_ext. intros y Hy. apply Hfg; [right | now left].
  apply (Permutation_in _ (stable_sort_perm g l) Hy).
Qed.

Lemma StronglySorted_weaken {A : Type} (R R' : A -> A -> Prop) (l : list A) :
  (forall x y, R x y -> R' x y) -> StronglySorted R l -> StronglySorted R' l.
Proof.
  intros HR. induction 1 as [|x l Hs IH Hall]; constructor; [assumption|].
  eapply List.Forall_impl; [|exact Hall]. intros y. apply HR.
Qed.

Lemma py_sorted_perm (l : list Z) : Permutation (py_sorted l) l.
Proof. apply stable_sort_perm. Qed.

Lemma py_sorted_sorted (l : list Z) : StronglySorted Z.le (py_sorted l).
Proof.
  apply (StronglySorted_weaken (may_precede Z.ltb)).
  - unfold may_precede. intros x y H. lia.
  - apply stable_sort_sorted; unfold may_precede; intros; lia.
Qed.

(** ** Letter grades *)

Lemma first_band_band_of (n : num) (q : Q) :
  num_val n = Fin q -> first_band n letter_bands = band_of q.
Proof.
  intros Hq. unfold letter_bands, band_of. cbn [first_band].
  unfold num_leb. rewrite Hq. reflexivity.
Qed.

Lemma convert_to_letter_grade_in_range (score : pyval) (n : num) (q : Q) :
  as_number score = Some n -> num_val n = Fin q -> (0 <= q <= 100)%Q ->
  convert_to_letter_grade score = Return (Some (band_of q)).
Proof.
  unfold convert_to_letter_grade, convert_to_letter_grade_body.
  intros -> Hq [H0 H100].
  assert (Hb : (num_ltb n (NInt 0) || num_ltb (NInt 100) n) = false).
  { apply orb_false_iff. unfold num_ltb. rewrite Hq. cbn [num_val f_ltb].
    split; apply Qlt_bool_false_iff; assumption. }
  rewrite Hb. cbn [try_except]. now rewrite (first_band_band_of n q Hq).
Qed.

(** C4, evaluated where it fails.  A NaN is a float and it is not in
    [0, 100]; both tests of the guard are false for it, so is every band
    test, and it is graded F instead of [None]. *)
Lemma convert_to_letter_grade_nan :
  ~ in_range_score (VNum (NFloat NaN))
  /\ convert_to_letter_grade (VNum (NFloat NaN)) = Return (Some "F")
  /\ ~ (forall score, ~ in_range_score score ->
                      convert_to_letter_grade score = Return None).
Proof.
  assert (Hout : ~ in_range_score (VNum (NFloat NaN))).
  { intros [n [Hn [H0 _]]]. cbn in Hn. injection Hn as <-. discriminate H0. }
  split; [exact Hout|]. split; [reflexivity|].
  intros Hall. specialize (Hall _ Hout). discriminate Hall.
Qed.

(** Apart from NaN the grading is as the table says.  An input that is no
    int or float gets [None]; so does a number below 0 or above 100
    (infinities included); a number from 0 to 100 gets the first band, from
    the top, whose threshold it reaches, so each threshold belongs to the
    higher band. *)
Theorem convert_to_letter_grade_bands (score : pyval) :
  (as_number score = None -> convert_to_letter_grade score = Return None)
  /\ (forall n, as_number score = Some n ->
        num_ltb n (NInt 0) = true \/ num_ltb (NInt 100) n = true ->
        convert_to_letter_grade score = Return None)
  /\ (forall n q, as_number score = Some n -> num_val n = Fin q ->
        (0 <= q <= 100)%Q ->
        convert_to_letter_grade score = Return (Some (band_of q)))
  /\ (band_of 100 = "A" /\ band_of 90 = "A" /\ band_of (8999 # 100) = "B"
      /\ band_of 80 = "B" /\ band_of 79 = "C" /\ band_of 70 = "C"
      /\ band_of 69 = "D" /\ band_of 60 = "D" /\ band_of 59 = "E"
      /\ band_of 50 = "E" /\ band_of 49 = "F" /\ band_of 0 = "F").
Proof.
  split; [|split; [|split]].
  - unfold convert_to_letter_grade, convert_to_letter_grade_body.
    intros ->. reflexivity.
  - unfold convert_to_letter_grade, convert_to_letter_grade_body.
    intros n -> Hout.
    assert (Hb : (num_ltb n (NInt 0) || num_ltb (NInt 100) n) = true)
      by (apply orb_true_iff; exact Hout).
    now rewrite Hb.
  - intros n q Hn Hq Hin.
    exact (convert_to_letter_grade_in_range score n q Hn Hq Hin).
  - repeat split; reflexivity.
Qed.

Lemma convert_to_letter_grade_bands_witness :
  convert_to_letter_grade (VNum (NInt 105)) = Return None
  /\ convert_to_letter_grade (VNum (NInt 90)) = Return (Some "A")
  /\ convert_to_letter_grade (VStr "90") = Return None.
Proof.
  split; [|split].
  - apply (proj1 (proj2 (convert_to_letter_grade_bands (VNum (NInt 105)))) (NInt 105));
      [reflexivity | right; reflexivity].
  - apply (proj1 (proj2 (proj2 (convert_to_letter_grade_bands (VNum (NInt 90)))))
             (NInt 90) 90%Q); [reflexivity | reflexivity |].
    split; discriminate.
  - apply (proj1 (convert_to_letter_grade_bands (VStr "90"))). reflexivity.
Defined.

(** ** The median *)

Lemma list_item_nth {A : Type} (l : list A) (i : nat) (d : A) :
  (i < length l)%nat -> list_item l (Z.of_nat i) = Return (nth i l d).
Proof.
  intros Hi. unfold list_item, len.
  assert (H1 : (Z.of_nat i <? 0) = false) by lia. rewrite H1.
  assert (H2 : (Z.of_nat (length l) <=? Z.of_nat i) = false) by lia.
  rewrite H1, H2. cbn [orb]. rewrite Nat2Z.id.
  now rewrite (nth_error_nth' l d Hi).
Qed.

Lemma get_course_scores_returns (a : analyzer) (course_name : pyval) :
  exists scores, get_course_scores a course_name = Return scores.
Proof. unfold get_course_scores. rewrite try_except_sentinel. now eexists. Qed.

Lemma overflows_comp (p q : Q) : (p == q)%Q -> overflows p = overflows q.
Proof. intros H. unfold overflows. now rewrite (nearest_double_comp p q H). Qed.

Lemma float_of_comp (p q : Q) : (p == q)%Q -> float_of p = float_of q.
Proof.
  intros H. unfold float_of.
  now rewrite (overflows_comp p q H), (nearest_double_comp p q H).
Qed.

(** Within the range of the finite doubles nothing overflows. *)
Lemma overflows_in_range (q : Q) :
  (Qabs q <= inject_Z DBL_MAX)%Q -> overflows q = false.
Proof.
  intros H. apply nearest_double_in_range in H. unfold overflows.
  destruct (Qle_bool (pow2 1024) (Qabs (nearest_double q))) eqn:E; [| reflexivity].
  apply Qle_bool_iff in E. exfalso.
  assert (Hlt : (inject_Z DBL_MAX < pow2 1024)%Q) by reflexivity.
  apply (Qlt_not_le _ _ Hlt). eapply Qle_trans; eassumption.
Qed.

Lemma half_in_range (z : Z) :
  Z.abs z <= 2 ^ 53 -> (Qabs (inject_Z z / inject_Z 2) <= inject_Z DBL_MAX)%Q.
Proof.
  intros H. apply Qabs_Qle_condition.
  assert (Hd : (inject_Z (2 ^ 53) <= inject_Z DBL_MAX)%Q)
    by (rewrite <- Zle_Qle; vm_compute; discriminate).
  assert (H1 : - 2 ^ 53 <= z) by lia. assert (H2 : z <= 2 ^ 53) by lia.
  rewrite Zle_Qle in H1, H2. rewrite inject_Z_opp in H1.
  change (inject_Z 2) with 2%Q.
  set (D := inject_Z DBL_MAX) in *. set (B := inject_Z (2 ^ 53)) in *.
  assert (HB : (0 <= B)%Q) by (unfold B; rewrite <- (Zle_Qle 0); vm_compute; discriminate).
  split; [apply Qle_shift_div_l | apply Qle_shift_div_r]; solve [reflexivity | lra].
Qed.

(** The statements after the sort, for a list that is already named. *)
Lemma median_of_spec (raw : list Z) :
  let sorted := py_sorted raw in
  let n := length sorted in
  match n with
  | O => median_of raw = Return None
  | S _ =>
      if Nat.odd n
      then median_of raw = Return (Some (NInt (nth (n / 2) sorted 0)))
      else median_of raw
           = if overflows (middle_mean sorted) then Raise OverflowError
             else Return (Some (NFloat (Fin (nearest_double (middle_mean sorted)))))
  end.
Proof.
  cbv zeta. unfold median_of, middle_mean. set (sorted := py_sorted raw).
  unfold len. destruct (length sorted) as [|k] eqn:Hlen; [reflexivity|].
  set (n := S k) in *.
  assert (Hn0 : (Z.of_nat n =? 0) = false) by lia. rewrite Hn0.
  assert (Hmid : Z.of_nat n / 2 = Z.of_nat (n / 2))
    by (now rewrite (Nat2Z.inj_div n 2)).
  assert (Hlt : (n / 2 < length sorted)%nat)
    by (rewrite Hlen; apply Nat.div_lt; lia).
  rewrite Hmid.
  destruct (Nat.odd n) eqn:Hodd.
  - assert (Hm : (Z.of_nat n mod 2 =? 0) = false).
    { apply Nat.odd_spec in Hodd. destruct Hodd as [m Hm].
      apply Z.eqb_neq. rewrite Hm. rewrite Nat2Z.inj_add, Nat2Z.inj_mul.
      rewrite Z.add_comm, Z.mul_comm, Z_mod_plus_full. discriminate. }
    rewrite Hm. cbn [negb]. now rewrite (list_item_nth sorted (n / 2) 0 Hlt).
  - assert (Heven : Nat.even n = true)
      by (rewrite <- Nat.negb_odd, Hodd; reflexivity).
    apply Nat.even_spec in Heven. destruct Heven as [m Hm].
    assert (Hm0 : (Z.of_nat n mod 2 =? 0) = true).
    { apply Z.eqb_eq. rewrite Hm, Nat2Z.inj_mul, Z.mul_comm. apply Z_mod_mult. }
    rewrite Hm0. cbn [negb].
    assert (Hhalf : (n / 2 = m)%nat)
      by (rewrite Hm, Nat.mul_comm; apply Nat.div_mul; lia).
    assert (Hpos : (1 <= n / 2)%nat) by lia.
    replace (Z.of_nat (n / 2) - 1) with (Z.of_nat (n / 2 - 1)) by lia.
    rewrite (list_item_nth sorted (n / 2 - 1) 0) by lia.
    rewrite (list_item_nth sorted (n / 2) 0 Hlt).
    cbn [exc_bind]. unfold true_div. cbn [Z.eqb].
    set (x := nth (n / 2 - 1) sorted 0). set (y := nth (n / 2) sorted 0).
    rewrite (float_of_comp (inject_Z (x + y) / inject_Z 2)
                           ((inject_Z x + inject_Z y) / 2))
      by (rewrite inject_Z_plus; reflexivity).
    unfold float_of. destruct (overflows _); reflexivity.
Qed.

(** C5, the claim as stated fails beyond the range of the doubles: with the
    Math scores [10 ** 400] and 1 there are two scores, their mean does not
    fit a float, and the median is [None]. *)
Lemma find_course_median_overflow :
  get_course_scores huge_score_engine (VStr "Math") = Return [10 ^ 400; 1]
  /\ find_course_median huge_score_engine (VStr "Math") = Return None
  /\ ~ (exists m, find_course_median huge_score_engine (VStr "Math")
                  = Return (Some m)).
Proof.
  assert (H : find_course_median huge_score_engine (VStr "Math") = Return None)
    by (vm_compute; reflexivity).
  split; [vm_compute; reflexivity |]. split; [exact H |].
  intros [m Hm]. rewrite H in Hm. discriminate Hm.
Qed.

(** C5, amended.  The median of a course is taken on the ascending sort of
    its scores: none for no score, the element at index [n // 2] for an odd
    count; for an even count the double nearest to the arithmetic mean of
    the two middle elements, which is that mean itself when their sum has
    no more than 53 bits, and none when it is beyond the range of the
    doubles.  For the scores 50, 60, 70 it is 60 and for 50, 60, 70, 80 it
    is 65.0. *)
Theorem find_course_median_spec (a : analyzer) (course_name : pyval) :
  (exists scores sorted,
     get_course_scores a course_name = Return scores
     /\ Permutation sorted scores
     /\ StronglySorted Z.le sorted
     /\ let n := length sorted in
        match n with
        | O => find_course_median a course_name = Return None
        | S _ =>
            if Nat.odd n
            then find_course_median a course_name
                 = Return (Some (NInt (nth (n / 2) sorted 0)))
            else find_course_median a course_name
                 = Return (if overflows (middle_mean sorted) then None
                           else Some (NFloat (Fin (nearest_double (middle_mean sorted)))))
                 /\ (Z.abs (nth (n / 2 - 1) sorted 0 + nth (n / 2) sorted 0) <= 2 ^ 53 ->
                     overflows (middle_mean sorted) = false
                     /\ nearest_double (middle_mean sorted) = Qred (middle_mean sorted))
        end)
  /\ get_course_scores three_scores_engine (VStr "Math") = Return [70; 50; 60]
  /\ find_course_median three_scores_engine (VStr "Math") = Return (Some (NInt 60))
  /\ get_course_scores four_scores_engine (VStr "Math") = Return [70; 50; 80; 60]
  /\ find_course_median four_scores_engine (VStr "Math")
     = Return (Some (NFloat (Fin 65))).
Proof.
  split; [|repeat split; reflexivity].
  destruct (get_course_scores_returns a course_name) as [scores Hs].
  exists scores, (py_sorted scores).
  split; [exact Hs|]. split; [apply py_sorted_perm|].
  split; [apply py_sorted_sorted|].
  pose proof (median_of_spec scores) as Hspec. cbv zeta in Hspec |- *.
  unfold find_course_median, find_course_median_body. rewrite Hs. cbn [exc_bind].
  destruct (length (py_sorted scores)) as [|k] eqn:Hlen.
  - now rewrite Hspec.
  - destruct (Nat.odd (S k)).
    + now rewrite Hspec.
    + split.
      * rewrite Hspec. destruct (overflows _); reflexivity.
      * intros Hsum. unfold middle_mean. rewrite Hlen.
        set (x := nth (S k / 2 - 1) (py_sorted scores) 0) in *.
        set (y := nth (S k / 2) (py_sorted scores) 0) in *.
        assert (He : ((inject_Z x + inject_Z y) / 2 == inject_Z (x + y) / inject_Z 2)%Q)
          by (rewrite inject_Z_plus; reflexivity).
        rewrite (overflows_comp _ _ He), (nearest_double_comp _ _ He).
        rewrite (Qred_complete _ _ He). split.
        -- apply overflows_in_range, half_in_range. exact Hsum.
        -- apply nearest_double_half. exact Hsum.
Qed.

(** ** The record set of a successful load *)

Lemma parse_student_line_returns (line : pyval) :
  exists r, parse_student_line line = Return r.
Proof. unfold parse_student_line. rewrite try_except_sentinel. now eexists. Qed.

Lemma parse_student_line_ok (line : pyval) (s : student) :
  parse_student_line line = Return (Some s) -> record_ok s.
Proof.
  unfold parse_student_line, parse_student_line_body.
  destruct (as_str line) as [text|]; cbn [exc_bind try_except]; [|discriminate].
  destruct (negb (len (split "," (strip text)) =? 7)); [discriminate|].
  intros H.
  repeat match type of H with
         | context [list_item ?l ?i] =>
             destruct (list_item l i); cbn [exc_bind try_except] in H;
             try discriminate H
         | context [py_int ?p] =>
             destruct (py_int p); cbn [exc_bind try_except] in H;
             try discriminate H
         end.
  inversion H. reflexivity.
Qed.

Lemma load_lines_ok (lines : list string) (a : analyzer) :
  Forall record_ok (_students a) ->
  snd (load_lines lines a) = None
  /\ Forall record_ok (_students (fst (load_lines lines a)))
  /\ _loaded (fst (load_lines lines a)) = _loaded a.
Proof.
  revert a. induction lines as [|line rest IH]; intros a Hok; cbn [load_lines].
  - now repeat split.
  - destruct (parse_student_line_returns (VStr line)) as [[s|] Hr]; rewrite Hr.
    + destruct (IH (set_students (_students a ++ [s]) a)) as [H1 [H2 H3]].
      * cbn [_students set_students]. apply Forall_app. split; [assumption|].
        constructor; [|constructor]. now apply (parse_student_line_ok (VStr line)).
      * now repeat split.
    + now apply IH.
Qed.

Lemma load_data_loaded_store (a0 : analyzer) (header : string) (lines : list string) :
  loaded_store (load_data (Opened (header :: lines) None) a0).
Proof.
  unfold load_data, load_data_body.
  destruct (load_lines_ok lines (set_loaded false (set_students [] a0)))
    as [Hnone [Hok _]]; [constructor|].
  destruct (load_lines lines (set_loaded false (set_students [] a0))) as [a [e|]];
    cbn [snd fst] in *; [discriminate|].
  split; [reflexivity | exact Hok].
Qed.

Lemma record_ok_len (s : student) : record_ok s -> len (grades s) = 5.
Proof.
  unfold record_ok, len. intros H.
  rewrite <- (length_map fst), H. reflexivity.
Qed.

Lemma record_ok_dict_item (s : student) (subject : string) :
  record_ok s -> In subject _subjects ->
  dict_item (grades s) subject = Return (dict_get (grades s) subject 0).
Proof.
  unfold record_ok, dict_item, dict_get. intros Hok Hin.
  destruct (dict_find (grades s) subject) eqn:Hf; [reflexivity|].
  exfalso. rewrite <- Hok in Hin. clear Hok.
  induction (grades s) as [|[k v] d IH]; [contradiction|].
  cbn [dict_find] in Hf. destruct (String.eqb k subject) eqn:Hk; [discriminate|].
  destruct Hin as [Hin|Hin]; [|now apply IH].
  cbn in Hin. subst k. rewrite String.eqb_refl in Hk. discriminate.
Qed.

Lemma get_course_scores_column (a : analyzer) (subject : string) :
  _loaded a = true -> In subject _subjects ->
  get_course_scores a (VStr subject) = Return (column a subject).
Proof.
  intros Hl Hin. unfold get_course_scores, get_course_scores_body, check_data_loaded.
  rewrite Hl, (validate_course_name_valid a subject Hin). cbn [negb exc_bind falsy_str].
  destruct (String.eqb subject "") eqn:He; [|reflexivity].
  apply String.eqb_eq in He. subst subject. cbn in Hin.
  repeat (destruct Hin as [Hin|Hin]; [discriminate Hin|]). contradiction.
Qed.

(** ** The grade distribution *)

Lemma dict_find_in_keys {V : Type} (d : list (string * V)) (k : string) :
  In k (map fst d) -> exists v, dict_find d k = Some v.
Proof.
  induction d as [|[k' v'] d IH]; [contradiction|]. cbn [map fst dict_find].
  intros Hin. destruct (String.eqb k' k) eqn:Hk; [now eexists|].
  destruct Hin as [Hin|Hin]; [|now apply IH].
  subst k'. rewrite String.eqb_refl in Hk. discriminate.
Qed.

Lemma dict_set_keys {V : Type} (d : list (string * V)) (k : string) (v : V) :
  In k (map fst d) -> map fst (dict_set d k v) = map fst d.
Proof.
  induction d as [|[k' v'] d IH]; [contradiction|]. cbn [map fst dict_set].
  intros Hin. destruct (String.eqb k' k) eqn:Hk; [reflexivity|].
  cbn [map fst]. f_equal. apply IH.
  destruct Hin as [Hin|Hin]; [|assumption].
  subst k'. rewrite String.eqb_refl in Hk. discriminate.
Qed.

Lemma dict_find_set {V : Type} (d : list (string * V)) (k k' : string) (v : V) :
  In k (map fst d) ->
  dict_find (dict_set d k v) k' = if String.eqb k k' then Some v else dict_find d k'.
Proof.
  induction d as [|[k0 v0] d IH]; [contradiction|]. cbn [map fst dict_set].
  intros Hin. destruct (String.eqb k0 k) eqn:Hk.
  - apply String.eqb_eq in Hk. subst k0. cbn [dict_find].
    destruct (String.eqb k k'); reflexivity.
  - cbn [dict_find]. destruct (String.eqb k0 k') eqn:Hk'.
    + apply String.eqb_eq in Hk'. subst k0. now rewrite String.eqb_sym, Hk.
    + apply IH. destruct Hin as [Hin|Hin]; [|assumption].
      subst k0. rewrite String.eqb_refl in Hk. discriminate.
Qed.

Lemma band_of_letter (q : Q) : In (band_of q) letters.
Proof.
  unfold band_of, letters.
  repeat match goal with
         | |- context [if ?b then _ else _] => destruct b
         end; cbn; tauto.
Qed.

Lemma band_count_cons (letter : string) (score : Z) (scores : list Z) :
  band_count letter (score :: scores)
  = (if String.eqb (band_of (inject_Z score)) letter then 1 else 0)
    + band_count letter scores.
Proof.
  unfold band_count, len. cbn [List.filter].
  destruct (String.eqb _ letter); cbn [length]; lia.
Qed.

Lemma inject_Z_range (z : Z) : 0 <= z <= 100 -> (0 <= inject_Z z <= 100)%Q.
Proof.
  intros [H0 H100]. split.
  - change 0%Q with (inject_Z 0). now rewrite <- Zle_Qle.
  - change 100%Q with (inject_Z 100). now rewrite <- Zle_Qle.
Qed.

Lemma count_letters_in_range (scores : list Z) :
  Forall (fun score => 0 <= score <= 100) scores ->
  forall d, map fst d = letters ->
  exists d',
    count_letters scores d = Return d'
    /\ map fst d' = letters
    /\ forall letter,
         dict_find d' letter
         = option_map (fun v => v + band_count letter scores) (dict_find d letter).
Proof.
  induction 1 as [|score scores Hscore Hrest IH]; intros d Hkeys.
  - exists d. split; [reflexivity|]. split; [assumption|].
    intros letter. unfold band_count, len. cbn.
    destruct (dict_find d letter); cbn; [f_equal; lia | reflexivity].
  - cbn [count_letters].
    rewrite (convert_to_letter_grade_in_range (VNum (NInt score)) (NInt score)
               (inject_Z score) eq_refl eq_refl (inject_Z_range _ Hscore)).
    cbn [exc_bind dict_incr]. set (b := band_of (inject_Z score)).
    assert (Hb : In b (map fst d)) by (rewrite Hkeys; apply band_of_letter).
    destruct (dict_find_in_keys d b Hb) as [v Hv].
    unfold dict_item. rewrite Hv. cbn [exc_bind].
    destruct (IH (dict_set d b (v + 1))) as [d' [Hd' [Hk' Hf']]].
    { now rewrite dict_set_keys. }
    exists d'. split; [exact Hd'|]. split; [exact Hk'|].
    intros letter. rewrite Hf', (dict_find_set d b letter _ Hb), band_count_cons.
    fold b. destruct (String.eqb b letter) eqn:Heq.
    + apply String.eqb_eq in Heq. subst letter. rewrite Hv. cbn. f_equal. lia.
    + destruct (dict_find d letter); cbn; [f_equal; lia | reflexivity].
Qed.

(** When every score of the course lies in [0, 100], the distribution has
    the six keys A to F, each with the number of scores of that band. *)
Lemma get_course_grade_distribution_in_range (a : analyzer) (subject : string) :
  _loaded a = true -> In subject _subjects ->
  Forall (fun score => 0 <= score <= 100) (column a subject) ->
  exists d,
    get_course_grade_distribution a (VStr subject) = Return d
    /\ map fst d = letters
    /\ forall letter, In letter letters ->
         dict_find d letter = Some (band_count letter (column a subject)).
Proof.
  intros Hl Hin Hrange.
  destruct (count_letters_in_range _ Hrange empty_distribution eq_refl)
    as [d [Hd [Hk Hf]]].
  exists d. split; [|split; [exact Hk|]].
  - unfold get_course_grade_distribution, get_course_grade_distribution_body,
      check_data_loaded.
    rewrite Hl, (validate_course_name_valid a subject Hin).
    cbn [negb exc_bind falsy_str].
    destruct (String.eqb subject "") eqn:He.
    { apply String.eqb_eq in He. subst subject. cbn in Hin.
      repeat (destruct Hin as [Hin|Hin]; [discriminate Hin|]). contradiction. }
    rewrite (get_course_scores_column a subject Hl Hin). cbn [exc_bind].
    now rewrite Hd.
  - intros letter Hletter. rewrite Hf.
    cbn in Hletter.
    repeat (destruct Hletter as [<-|Hletter]; [cbn; f_equal; lia|]).
    contradiction.
Qed.

(** C6, evaluated where it fails.  The loader admits a Math score of 105;
    [convert_to_letter_grade] gives it no letter, the count under the key
    [None] is a KeyError, and the distribution comes back as the empty
    mapping, with none of the six keys. *)
Theorem get_course_grade_distribution_out_of_range :
  get_course_scores out_of_range_engine (VStr "Math") = Return [105]
  /\ convert_to_letter_grade (VNum (NInt 105)) = Return None
  /\ get_course_grade_distribution_body out_of_range_engine (VStr "Math")
     = Raise KeyError
  /\ get_course_grade_distribution out_of_range_engine (VStr "Math") = Return [].
Proof. repeat split; reflexivity. Qed.

(** ** Sorting by a rational key, largest first *)

Section DescendingByKey.
Context {A : Type} (qkey : A -> Q).

Lemma larger_first_sorted (l : list A) :
  StronglySorted (fun x y => (qkey y <= qkey x)%Q) (stable_sort (larger_first qkey) l).
Proof.
  apply (StronglySorted_weaken (may_precede (larger_first qkey))).
  - unfold may_precede, larger_first. intros x y H.
    now apply Qlt_bool_false_iff in H.
  - apply stable_sort_sorted; unfold may_precede, larger_first.
    + intros x y H. apply Qlt_bool_iff in H. apply Qlt_bool_false_iff.
      now apply Qlt_le_weak.
    + intros x y z H1 H2. apply Qlt_bool_false_iff in H1, H2.
      apply Qlt_bool_false_iff. now apply (Qle_trans _ (qkey y)).
Qed.

Lemma larger_first_stable (k : Q) (l : list A) :
  List.filter (fun e => Qeq_bool (qkey e) k) (stable_sort (larger_first qkey) l)
  = List.filter (fun e => Qeq_bool (qkey e) k) l.
Proof.
  apply stable_sort_filter. intros y z Hy Hz.
  apply Qeq_bool_iff in Hy, Hz. unfold larger_first.
  apply Qlt_bool_false_iff. rewrite Hy, Hz. apply Qle_refl.
Qed.

Lemma py_sorted_by_larger_first (key : A -> option num) (l : list A) :
  (forall x, In x l -> exists n, key x = Some n /\ num_val n = Fin (qkey x)) ->
  py_sorted_by key true l = Return (stable_sort (larger_first qkey) l).
Proof.
  intros Hkeys. unfold py_sorted_by.
  assert (Hnone : existsb (fun x => is_none (key x)) l = false).
  { destruct (existsb _ l) eqn:Hex; [|reflexivity].
    apply existsb_exists in Hex. destruct Hex as [x [Hin Hx]].
    destruct (Hkeys x Hin) as [n [Hn _]]. rewrite Hn in Hx. discriminate. }
  rewrite Hnone, andb_false_r. f_equal.
  apply stable_sort_ext. intros x y Hx Hy.
  destruct (Hkeys x Hx) as [nx [Hnx Hqx]], (Hkeys y Hy) as [ny [Hny Hqy]].
  rewrite Hnx, Hny. unfold key_before, num_ltb, larger_first.
  now rewrite Hqx, Hqy.
Qed.
End DescendingByKey.

(** ** The ranking of the students *)

Lemma find_id_some (l : list student) (s : student) :
  In s l -> exists s0, find (fun r => String.eqb (id r) (id s)) l = Some s0
                       /\ In s0 l /\ id s0 = id s.
Proof.
  intros Hin.
  destruct (find (fun r => String.eqb (id r) (id s)) l) as [s0|] eqn:Hf.
  - apply find_some in Hf. destruct Hf as [Hin0 Heq].
    apply String.eqb_eq in Heq. now exists s0.
  - apply (find_none _ _ Hf) in Hin. rewrite String.eqb_refl in Hin. discriminate.
Qed.

Lemma find_id_nodup (l : list student) (s : student) :
  List.NoDup (map id l) -> In s l ->
  find (fun r => String.eqb (id r) (id s)) l = Some s.
Proof.
  induction l as [|r l IH]; [contradiction|]. cbn [map find].
  intros Hnd Hin. apply NoDup_cons_iff in Hnd. destruct Hnd as [Hnotin Hnd].
  destruct Hin as [->|Hin]; [now rewrite String.eqb_refl|].
  destruct (String.eqb (id r) (id s)) eqn:Heq; [|now apply IH].
  apply String.eqb_eq in Heq. exfalso. apply Hnotin. rewrite Heq.
  now apply in_map.
Qed.

Lemma calculate_student_average_stored (a : analyzer) (s : student) :
  loaded_store a -> In s (_students a) ->
  exists s0,
    first_with_id a (id s) = Some s0
    /\ In s0 (_students a) /\ id s0 = id s
    /\ calculate_student_average a (VStr (id s)) = Return (record_average s0).
Proof.
  intros [Hl Hok] Hin.
  destruct (find_id_some _ s Hin) as [s0 [Hf [Hin0 Hid]]].
  exists s0. repeat split; try assumption.
  unfold calculate_student_average, calculate_student_average_body,
    check_data_loaded, validate_student_id, validate_student_id_body.
  rewrite Hl. cbn [negb as_str]. rewrite Hf. cbn [try_except exc_bind].
  unfold true_div.
  assert (Hlen : len (grades s0) = 5).
  { apply record_ok_len. rewrite List.Forall_forall in Hok. now apply Hok. }
  destruct (len (grades s0) =? 0) eqn:H0; [lia|].
  unfold record_average, student_mean, float_of. fold (grades_mean s0).
  destruct (overflows (grades_mean s0)); reflexivity.
Qed.

Lemma record_average_in_range (s : student) :
  average_in_range s -> record_average s = Some (NFloat (Fin (student_mean s))).
Proof. unfold average_in_range, record_average. now intros ->. Qed.

Lemma ranking_entries (a : analyzer) (l : list student) :
  loaded_store a -> (forall s, In s l -> In s (_students a)) ->
  exc_map (fun s => let* avg := calculate_student_average a (VStr (id s)) in
                    Return (id s, avg)) l
  = Return (map (ranking_entry a) l).
Proof.
  intros Hstore. induction l as [|s l IH]; intros Hsub; [reflexivity|].
  cbn [exc_map map].
  destruct (calculate_student_average_stored a s Hstore (Hsub s (or_introl eq_refl)))
    as [s0 [Hf [_ [_ Havg]]]].
  rewrite Havg. cbn [exc_bind].
  rewrite IH by (intros r Hr; apply Hsub; now right). cbn [exc_bind].
  unfold ranking_entry at 2. now rewrite Hf.
Qed.

Lemma ranking_entry_key (a : analyzer) (s : student) :
  loaded_store a -> Forall average_in_range (_students a) -> In s (_students a) ->
  exists n, snd (ranking_entry a s) = Some n
            /\ num_val n = Fin (entry_average (ranking_entry a s)).
Proof.
  intros Hstore Hrange Hin.
  destruct (calculate_student_average_stored a s Hstore Hin) as [s0 [Hf [Hin0 _]]].
  unfold ranking_entry, entry_average. rewrite Hf. cbn [snd].
  rewrite List.Forall_forall in Hrange.
  rewrite (record_average_in_range s0 (Hrange s0 Hin0)). now eexists.
Qed.

Lemma rank_students_by_average_loaded (a : analyzer) :
  loaded_store a -> Forall average_in_range (_students a) ->
  rank_students_by_average a
  = Return (stable_sort (larger_first entry_average)
                        (map (ranking_entry a) (_students a))).
Proof.
  intros Hstore Hrange. unfold rank_students_by_average, rank_students_by_average_body,
    check_data_loaded.
  rewrite (proj1 Hstore). cbn [negb].
  rewrite (ranking_entries a (_students a) Hstore) by auto. cbn [exc_bind].
  rewrite (py_sorted_by_larger_first entry_average); [reflexivity|].
  intros e He. apply in_map_iff in He. destruct He as [s [<- Hin]].
  now apply ranking_entry_key.
Qed.

(** C7, the claim as stated fails when two records carry one id: both
    entries get the average of the first of them, so the second record is
    not paired with its own average. *)
Lemma rank_students_by_average_duplicate_id :
  rank_students_by_average duplicate_id_engine
  = Return [("S1", Some (NFloat (Fin 100))); ("S1", Some (NFloat (Fin 100)))]
  /\ map own_entry (_students duplicate_id_engine)
     = [("S1", Some (NFloat (Fin 100))); ("S1", Some (NFloat (Fin 0)))]
  /\ ~ (exists ranking,
          rank_students_by_average duplicate_id_engine = Return ranking
          /\ Permutation ranking (map own_entry (_students duplicate_id_engine))).
Proof.
  assert (H1 : rank_students_by_average duplicate_id_engine
               = Return [("S1", Some (NFloat (Fin 100))); ("S1", Some (NFloat (Fin 100)))])
    by (vm_compute; reflexivity).
  assert (H2 : map own_entry (_students duplicate_id_engine)
               = [("S1", Some (NFloat (Fin 100))); ("S1", Some (NFloat (Fin 0)))])
    by (vm_compute; reflexivity).
  split; [exact H1|]. split; [exact H2|].
  intros [ranking [Hr Hperm]].
  rewrite H1 in Hr. injection Hr as <-. rewrite H2 in Hperm.
  assert (Hin : In ("S1", Some (NFloat (Fin 0)))
                   [("S1", Some (NFloat (Fin 100))); ("S1", Some (NFloat (Fin 100)))]).
  { apply (Permutation_in _ (Permutation_sym Hperm)). right. now left. }
  cbn in Hin. destruct Hin as [H|[H|[]]]; discriminate H.
Qed.

(** It fails as well when an average is beyond the range of the doubles:
    with a Math score of [10 ** 400] the average of that record is [None],
    the sort compares it with a float, and the ranking comes back empty. *)
Lemma rank_students_by_average_overflow :
  List.NoDup (map id (_students huge_score_engine))
  /\ length (_students huge_score_engine) = 2%nat
  /\ calculate_student_average huge_score_engine (VStr "S1") = Return None
  /\ rank_students_by_average_body huge_score_engine = Raise TypeError
  /\ rank_students_by_average huge_score_engine = Return [].
Proof.
  split; [|repeat split; vm_compute; reflexivity].
  assert (H : map id (_students huge_score_engine) = ["S1"; "S2"])
    by (vm_compute; reflexivity).
  rewrite H. repeat constructor; cbn; intuition discriminate.
Qed.

(** Whatever the ids, when every average is within the range of the doubles
    the ranking has one entry per record: the id of the record with the
    average of the first record, in file order, that carries this id; the
    entries are in descending order of the average and entries with equal
    averages keep the order of the store. *)
Lemma rank_students_by_average_first_match
    (a0 : analyzer) (header : string) (lines : list string) :
  let a := load_data (Opened (header :: lines) None) a0 in
  Forall average_in_range (_students a) ->
  exists ranking,
    rank_students_by_average a = Return ranking
    /\ Permutation ranking (map (ranking_entry a) (_students a))
    /\ Forall (fun s => exists s0, first_with_id a (id s) = Some s0
                                   /\ In s0 (_students a) /\ id s0 = id s)
              (_students a)
    /\ StronglySorted (fun x y => (entry_average y <= entry_average x)%Q) ranking
    /\ (forall k, List.filter (fun e => Qeq_bool (entry_average e) k) ranking
                  = List.filter (fun e => Qeq_bool (entry_average e) k)
                                (map (ranking_entry a) (_students a))).
Proof.
  cbv zeta. set (a := load_data (Opened (header :: lines) None) a0).
  intros Hrange.
  assert (Hstore : loaded_store a) by apply load_data_loaded_store.
  eexists. split; [apply (rank_students_by_average_loaded a Hstore Hrange)|].
  split; [apply stable_sort_perm|].
  split.
  { apply List.Forall_forall. intros s Hin.
    destruct (calculate_student_average_stored a s Hstore Hin)
      as [s0 [H1 [H2 [H3 _]]]].
    now exists s0. }
  split; [apply larger_first_sorted|].
  intros k. apply larger_first_stable.
Qed.

Lemma ranking_entry_own (a : analyzer) :
  List.NoDup (map id (_students a)) -> Forall average_in_range (_students a) ->
  map (ranking_entry a) (_students a) = map own_entry (_students a).
Proof.
  intros Hnd Hrange. apply map_ext_in. intros s Hin.
  unfold ranking_entry, own_entry, first_with_id.
  rewrite (find_id_nodup _ s Hnd Hin).
  rewrite List.Forall_forall in Hrange.
  now rewrite (record_average_in_range s (Hrange s Hin)).
Qed.

(** C7, amended.  After a successful load of records with pairwise distinct
    ids whose averages are all within the range of the doubles, the ranking
    holds every student exactly once, paired with the average of the
    student's own grades (the double nearest to their mean); the entries
    are in descending order of the average, and students with equal
    averages keep the order they have in the store. *)
Theorem rank_students_by_average_spec
    (a0 : analyzer) (header : string) (lines : list string) :
  let a := load_data (Opened (header :: lines) None) a0 in
  List.NoDup (map id (_students a)) ->
  Forall average_in_range (_students a) ->
  exists ranking,
    rank_students_by_average a = Return ranking
    /\ Permutation ranking (map own_entry (_students a))
    /\ StronglySorted (fun x y => (entry_average y <= entry_average x)%Q) ranking
    /\ (forall k, List.filter (fun e => Qeq_bool (entry_average e) k) ranking
                  = List.filter (fun e => Qeq_bool (entry_average e) k)
                                (map own_entry (_students a))).
Proof.
  cbv zeta. set (a := load_data (Opened (header :: lines) None) a0).
  intros Hnd Hrange.
  assert (Hstore : loaded_store a) by apply load_data_loaded_store.
  rewrite <- (ranking_entry_own a Hnd Hrange).
  eexists. split; [apply (rank_students_by_average_loaded a Hstore Hrange)|].
  split; [apply stable_sort_perm|].
  split; [apply larger_first_sorted|].
  intros k. apply larger_first_stable.
Qed.

Lemma rank_students_by_average_spec_witness :
  List.NoDup (map id (_students four_scores_engine))
  /\ Forall average_in_range (_students four_scores_engine)
  /\ exists ranking,
       rank_students_by_average four_scores_engine = Return ranking
       /\ Permutation ranking (map own_entry (_students four_scores_engine)).
Proof.
  assert (Hnd : List.NoDup (map id (_students four_scores_engine))).
  { cbn. repeat constructor; cbn; intuition discriminate. }
  assert (Hrange : Forall average_in_range (_students four_scores_engine)).
  { cbn. repeat constructor; vm_compute; reflexivity. }
  split; [exact Hnd|]. split; [exact Hrange|].
  destruct (rank_students_by_average_spec (init "student_grades.txt") header_line
              ["S1,Ann,70,1,1,1,1"; "S2,Ben,50,1,1,1,1"; "S3,Cal,80,1,1,1,1";
               "S4,Dee,60,1,1,1,1"] Hnd Hrange) as [ranking [H1 [H2 _]]].
  exists ranking. split; [exact H1 | exact H2].
Defined.

(** The ranking of that engine, and one with a tie that keeps the file
    order. *)
Lemma rank_students_by_average_example :
  rank_students_by_average four_scores_engine
  = Return [("S3", Some (NFloat (Fin (nearest_double (84 # 5)))));
            ("S1", Some (NFloat (Fin (nearest_double (74 # 5)))));
            ("S4", Some (NFloat (Fin (nearest_double (64 # 5)))));
            ("S2", Some (NFloat (Fin (nearest_double (54 # 5)))))]
  /\ rank_students_by_average
       (load_file ["S1,Ann,60,60,60,60,60"; "S2,Ben,90,90,90,90,90";
                   "S3,Cal,50,70,60,60,60"])
     = Return [("S2", Some (NFloat (Fin 90))); ("S1", Some (NFloat (Fin 60)));
               ("S3", Some (NFloat (Fin 60)))].
Proof. split; vm_compute; reflexivity. Qed.

(** ** Correlations *)


Lemma exc_map_returns {A B : Type} (f : A -> exc B) (g : A -> B) (l : list A) :
  (forall x, In x l -> f x = Return (g x)) -> exc_map f l = Return (map g l).
Proof.
  induction l as [|x l IH]; intros Hf; [reflexivity|]. cbn [exc_map map].
  rewrite (Hf x (or_introl eq_refl)). cbn [exc_bind].
  rewrite IH by (intros y Hy; apply Hf; now right). reflexivity.
Qed.

Lemma score_columns (a : analyzer) :
  loaded_store a ->
  exc_map (fun subject =>
             let* column := exc_map (fun s => dict_item (grades s) subject)
                                    (_students a) in
             Return (subject, column)) _subjects
  = Return (map (fun subject => (subject, column a subject)) _subjects).
Proof.
  intros [_ Hok]. apply exc_map_returns. intros subject Hin.
  rewrite (exc_map_returns _ (fun s => dict_get (grades s) subject 0)).
  - reflexivity.
  - intros s Hs. apply record_ok_dict_item; [|assumption].
    rewrite List.Forall_forall in Hok. now apply Hok.
Qed.

Lemma subject_pairs_in (pair : string * string) :
  In pair (subject_pairs _subjects) ->
  In (fst pair) _subjects /\ In (snd pair) _subjects.
Proof.
  cbn. intros H.
  repeat (destruct H as [<-|H]; [cbn; tauto|]). contradiction.
Qed.

Lemma column_item (a : analyzer) (subject : string) :
  In subject _subjects ->
  dict_item (map (fun subject => (subject, column a subject)) _subjects) subject
  = Return (column a subject).
Proof.
  cbn. intros H.
  repeat (destruct H as [<-|H]; [reflexivity|]). contradiction.
Qed.











(** ** The list returned by the [students] property *)

Lemma records_at_insert_fresh (h : gmap loc object) (r : loc) (o : object)
    (items : list loc) (records : list student) :
  h !! r = None ->
  records_at h items = Some records ->
  records_at (<[r := o]> h) items = Some records.
Proof.
  intros Hfresh. revert records.
  induction items as [|l rest IH]; intros records; [trivial|].
  cbn [records_at]. unfold record_at.
  destruct (h !! l) as [[items'|s]|] eqn:Hl; try discriminate.
  assert (Hne : r <> l) by congruence.
  rewrite (lookup_insert_ne h r l o Hne), Hl.
  destruct (records_at h rest) as [rs|]; [|discriminate].
  now rewrite (IH rs eq_refl).
Qed.

Lemma store_view_insert_fresh (h : gmap loc object) (e : engine) (a : analyzer)
    (r : loc) (o : object) :
  h !! r = None ->
  store_view h e = Some a ->
  store_view (<[r := o]> h) e = Some a.
Proof.
  unfold store_view, read_list, list_at. intros Hfresh.
  destruct (h !! students_ref e) as [[items|s]|] eqn:Hl; try discriminate.
  assert (Hne : r <> students_ref e) by congruence.
  rewrite (lookup_insert_ne h r _ o Hne), Hl.
  destruct (records_at h items) as [records|] eqn:Hr; [|discriminate].
  now rewrite (records_at_insert_fresh h r o items records Hfresh Hr).
Qed.

(** C9, the claim as stated fails for the records: the returned list holds
    the very record objects of the store, so a change made to one of them
    through the returned list is a change of the store. *)
Lemma students_property_shares_records :
  let h1 := <[2%nat := ListObject [1%nat]]> alice_heap in
  let h2 := record_mutate h1 1%nat alice_math_zero in
  store_view alice_heap alice_handle = Some alice_engine
  /\ students_property alice_heap alice_handle 2%nat = Some h1
  /\ list_at h1 2%nat = Some [1%nat]
  /\ store_view h1 alice_handle = Some alice_engine
  /\ store_view h2 alice_handle
     = Some (set_students [alice_math_zero] alice_engine)
  /\ calculate_student_average alice_engine (VStr "STU001")
     = Return (Some (NFloat (Fin 80)))
  /\ calculate_student_average (set_students [alice_math_zero] alice_engine)
                               (VStr "STU001")
     = Return (Some (NFloat (Fin 62)))
  /\ ~ (forall h e a r h' l s,
          store_view h e = Some a -> h !! r = None ->
          students_property h e r = Some h' ->
          (exists items, list_at h' r = Some items /\ In l items) ->
          store_view (record_mutate h' l s) e = Some a).
Proof.
  cbv zeta.
  assert (H0 : store_view alice_heap alice_handle = Some alice_engine)
    by (vm_compute; reflexivity).
  assert (H1 : students_property alice_heap alice_handle 2%nat
               = Some (<[2%nat := ListObject [1%nat]]> alice_heap))
    by (vm_compute; reflexivity).
  assert (H2 : store_view (record_mutate (<[2%nat := ListObject [1%nat]]> alice_heap)
                             1%nat alice_math_zero) alice_handle
               = Some (set_students [alice_math_zero] alice_engine))
    by (vm_compute; reflexivity).
  repeat split; try assumption; try (vm_compute; reflexivity).
  intros Hall.
  specialize (Hall alice_heap alice_handle alice_engine 2%nat _ 1%nat alice_math_zero
                H0 eq_refl H1).
  rewrite H2 in Hall.
  assert (Hex : exists items,
             list_at (<[2%nat := ListObject [1%nat]]> alice_heap) 2%nat = Some items
             /\ In 1%nat items).
  { exists [1%nat]. split; [vm_compute; reflexivity | now left]. }
  specialize (Hall Hex). discriminate Hall.
Qed.

(** C9, amended.  The [students] property returns a new list with the
    records of the store in store order, and it leaves the store as it was;
    whatever the caller then does to the returned list itself, the engine
    state is unchanged, and with it the count and the result of every
    operation. *)
Theorem students_property_copy
    (h h' : gmap loc object) (e : engine) (a : analyzer) (r : loc) :
  store_view h e = Some a ->
  h !! r = None ->
  students_property h e r = Some h' ->
  read_list h' r = Some (students a)
  /\ store_view h' e = Some a
  /\ forall items,
       store_view (list_mutate h' r items) e = Some a
       /\ (forall a', store_view (list_mutate h' r items) e = Some a' ->
             get_student_count a' = get_student_count a
             /\ forall env op, call env a' op = call env a op).
Proof.
  intros Hview Hfresh Hcopy.
  unfold students_property in Hcopy.
  destruct (list_at h (students_ref e)) as [items0|] eqn:Hlist; [|discriminate].
  injection Hcopy as <-.
  assert (Hrecords : records_at h items0 = Some (_students a)).
  { unfold store_view, read_list in Hview. rewrite Hlist in Hview.
    destruct (records_at h items0); [|discriminate].
    injection Hview as <-. reflexivity. }
  split.
  { unfold read_list, list_at. rewrite lookup_insert_eq.
    now apply records_at_insert_fresh. }
  split; [now apply store_view_insert_fresh|].
  intros items.
  assert (Hsame : store_view (list_mutate (<[r := ListObject items0]> h) r items) e
                  = Some a).
  { unfold list_mutate. rewrite insert_insert_eq.
    now apply store_view_insert_fresh. }
  split; [exact Hsame|].
  intros a' Ha'. rewrite Hsame in Ha'. injection Ha' as <-. now split.
Qed.

Lemma students_property_copy_witness :
  read_list (<[2%nat := ListObject [1%nat]]> alice_heap) 2%nat
  = Some (students alice_engine)
  /\ store_view (list_mutate (<[2%nat := ListObject [1%nat]]> alice_heap) 2%nat [])
                alice_handle
     = Some alice_engine.
Proof.
  destruct (students_property_copy alice_heap (<[2%nat := ListObject [1%nat]]> alice_heap)
              alice_handle alice_engine 2%nat) as [H1 [_ H3]].
  - vm_compute. reflexivity.
  - vm_compute. reflexivity.
  - vm_compute. reflexivity.
  - split; [exact H1 | exact (proj1 (H3 []))].
Defined.

(** * Further properties of the code *)

(** ** Loading *)

Lemma set_students_same (a : analyzer) : set_students (_students a) a = a.
Proof. destruct a; reflexivity. Qed.

Lemma load_lines_spec (lines : list string) (a : analyzer) :
  load_lines lines a = (set_students (_students a ++ parsed_records lines) a, None).
Proof.
  revert a. induction lines as [|line rest IH]; intros a.
  - cbn [load_lines parsed_records flat_map]. now rewrite app_nil_r, set_students_same.
  - cbn [load_lines parsed_records flat_map].
    destruct (parse_student_line_returns (VStr line)) as [[s|] Hr]; rewrite Hr.
    + rewrite IH. cbn [_students set_students _filename _loaded].
      fold (parsed_records rest). now rewrite <- app_assoc.
    + rewrite IH. reflexivity.
Qed.

(** X1.  A successful load replaces the record set by the records of the
    data lines that parse, in file order; the header line is not parsed,
    the flag is true, the file name is kept, and the count is the number of
    accepted lines, never more than the number of data lines. *)
Theorem load_data_records_in_file_order
    (a0 : analyzer) (header : string) (lines : list string) :
  let a := load_data (Opened (header :: lines) None) a0 in
  _students a = parsed_records lines
  /\ _loaded a = true
  /\ _filename a = _filename a0
  /\ get_student_count a = Return (len (parsed_records lines))
  /\ (length (_students a) <= length lines)%nat.
Proof.
  cbv zeta. unfold load_data, load_data_body. rewrite load_lines_spec.
  cbn [_students set_students set_loaded _filename _loaded app].
  repeat split.
  unfold parsed_records. induction lines as [|line rest IH]; [apply Nat.le_refl|].
  cbn [flat_map]. rewrite length_app.
  destruct (parse_student_line (VStr line)) as [[s|]|e]; cbn [length]; lia.
Qed.

(** X2.  Whatever the file holds, the record set of a successful load
    passes [validate_data]: every record has one grade for each subject of
    the catalog. *)
Theorem load_data_then_validate_data
    (a0 : analyzer) (header : string) (lines : list string) :
  let a := load_data (Opened (header :: lines) None) a0 in
  validate_data a = Return true
  /\ Forall (fun s => map fst (grades s) = _subjects) (_students a).
Proof.
  cbv zeta. destruct (load_data_loaded_store a0 header lines) as [Hl Hok].
  split; [|exact Hok].
  unfold validate_data, validate_data_body, check_data_loaded. rewrite Hl.
  cbn [negb try_except]. f_equal. apply forallb_forall. intros s Hin.
  rewrite List.Forall_forall in Hok. rewrite (record_ok_len s (Hok s Hin)).
  reflexivity.
Qed.

(** X3.  What a load attempt leaves, once the file could be opened, depends
    on the file only: the records and the flag of the engine before the
    call play no part (the record set is replaced, never extended). *)
Theorem load_data_replaces_state
    (lines : list string) (read_error : option exn) (a b : analyzer) :
  _filename a = _filename b ->
  load_data (Opened lines read_error) a = load_data (Opened lines read_error) b.
Proof.
  intros Hname. unfold load_data, load_data_body.
  assert (Hreset : set_loaded false (set_students [] a)
                   = set_loaded false (set_students [] b)).
  { unfold set_loaded, set_students. cbn. now rewrite Hname. }
  now rewrite Hreset.
Qed.

Lemma load_data_replaces_state_witness :
  load_data (Opened [header_line; "S2,Bob,1,2,3,4,5"] None) alice_engine
  = load_data (Opened [header_line; "S2,Bob,1,2,3,4,5"] None)
              (init "student_grades.txt").
Proof.
  apply (load_data_replaces_state [header_line; "S2,Bob,1,2,3,4,5"] None
           alice_engine (init "student_grades.txt")).
  reflexivity.
Defined.

(** ** Looking up a student *)

Lemma find_first {A : Type} (p : A -> bool) (l : list A) :
  match find p l with
  | Some x => exists before after,
                l = (before ++ x :: after)%list /\ p x = true
                /\ Forall (fun y => p y = false) before
  | None => Forall (fun y => p y = false) l
  end.
Proof.
  induction l as [|y l IH]; cbn [find]; [constructor|].
  destruct (p y) eqn:Hy.
  - exists [], l. repeat split; [assumption | constructor].
  - destruct (find p l) as [x|].
    + destruct IH as [before [after [-> [Hx Hb]]]].
      exists (y :: before), after. repeat split; [assumption|].
      now constructor.
    + now constructor.
Qed.

(** X5.  [validate_student_id] returns the first record, in store order,
    whose id equals the argument: every record in front of it has another
    id.  It returns [None] exactly when no record has the id (or the
    argument is no [str]); whether the data is loaded plays no part. *)
Theorem validate_student_id_first_match (a : analyzer) (sid : string) :
  match validate_student_id a (VStr sid) with
  | Return (Some s) =>
      exists before after,
        _students a = (before ++ s :: after)%list
        /\ id s = sid
        /\ Forall (fun r => id r <> sid) before
  | Return None => Forall (fun r => id r <> sid) (_students a)
  | Raise _ => False
  end.
Proof.
  unfold validate_student_id, validate_student_id_body. cbn [as_str].
  pose proof (find_first (fun s => String.eqb (id s) sid) (_students a)) as H.
  destruct (find (fun s => String.eqb (id s) sid) (_students a)) as [s|];
    cbn [try_except].
  - destruct H as [before [after [Hl [Hs Hb]]]].
    exists before, after. split; [exact Hl|]. split; [now apply String.eqb_eq|].
    eapply List.Forall_impl; [|exact Hb].
    intros r Hr. now apply String.eqb_neq.
  - eapply List.Forall_impl; [|exact H].
    intros r Hr. now apply String.eqb_neq.
Qed.

(** ** Extremes and averages of one record *)

Lemma extreme_by_ext {A : Type} (f g : Z -> Z -> bool) (key key' : A -> Z)
    (best : A) (l : list A) :
  (forall x y, f (key x) (key y) = g (key' x) (key' y)) ->
  extreme_by f key best l = extreme_by g key' best l.
Proof.
  intros Hfg. revert best. induction l as [|x l IH]; intros best; [reflexivity|].
  cbn [extreme_by]. rewrite Hfg. apply IH.
Qed.

(** The item kept by [max]: the first one, in iteration order, whose key
    no other item exceeds. *)
Lemma extreme_by_max {A : Type} (key : A -> Z) (best : A) (l : list A) :
  exists before after,
    (best :: l = before ++ extreme_by Z.gtb key best l :: after)%list
    /\ Forall (fun y => key y < key (extreme_by Z.gtb key best l)) before
    /\ Forall (fun y => key y <= key (extreme_by Z.gtb key best l)) after.
Proof.
  revert best. induction l as [|x l IH]; intros best; cbn [extreme_by].
  - exists [], []. repeat split; constructor.
  - destruct (key x >? key best) eqn:Hgt.
    + destruct (IH x) as [before [after [Heq [Hb Ha]]]].
      exists (best :: before), after. split; [cbn [app]; f_equal; exact Heq|].
      split; [|exact Ha]. constructor; [|exact Hb].
      destruct before as [|y before]; cbn in Heq; injection Heq as Hx Hl.
      * rewrite <- Hx. lia.
      * subst y. inversion Hb; subst. lia.
    + destruct (IH best) as [before [after [Heq [Hb Ha]]]].
      destruct before as [|y before]; cbn in Heq; injection Heq as Hx Hl.
      * exists [], (x :: after).
        split; [cbn [app]; f_equal; [exact Hx | f_equal; exact Hl]|].
        split; [constructor|]. constructor; [rewrite <- Hx; lia | exact Ha].
      * subst y. exists (best :: x :: before), after.
        split; [cbn [app]; do 2 f_equal; exact Hl|]. split; [|exact Ha].
        inversion Hb; subst. constructor; [assumption|].
        constructor; [lia | assumption].
Qed.

Lemma extreme_by_min {A : Type} (key : A -> Z) (best : A) (l : list A) :
  exists before after,
    (best :: l = before ++ extreme_by Z.ltb key best l :: after)%list
    /\ Forall (fun y => key (extreme_by Z.ltb key best l) < key y) before
    /\ Forall (fun y => key (extreme_by Z.ltb key best l) <= key y) after.
Proof.
  rewrite (extreme_by_ext Z.ltb Z.gtb key (fun x => - key x)).
  - destruct (extreme_by_max (fun x => - key x) best l) as [before [after [Heq [Hb Ha]]]].
    exists before, after. split; [exact Heq|].
    split; (eapply List.Forall_impl; [|eassumption]); cbn; intros y Hy; lia.
  - intros x y. destruct (Z.ltb_spec (key x) (key y)), (Z.gtb_spec (- key x) (- key y));
      try reflexivity; lia.
Qed.

Lemma sum_Z_from (l : list Z) (acc : Z) : fold_left Z.add l acc = acc + sum_Z l.
Proof.
  unfold sum_Z. revert acc. induction l as [|x l IH]; intros acc; cbn [fold_left].
  - lia.
  - rewrite (IH (acc + x)), (IH (0 + x)). lia.
Qed.

Lemma sum_Z_cons (x : Z) (l : list Z) : sum_Z (x :: l) = x + sum_Z l.
Proof. unfold sum_Z at 1. cbn [fold_left]. rewrite sum_Z_from. lia. Qed.

Lemma sum_Z_bounds (l : list Z) (lo hi : Z) :
  Forall (fun x => lo <= x <= hi) l ->
  len l * lo <= sum_Z l <= len l * hi.
Proof.
  unfold len. induction 1 as [|x l Hx Hl IH].
  - cbn. lia.
  - rewrite sum_Z_cons. cbn [length]. rewrite Nat2Z.inj_succ. lia.
Qed.

(** The exact quotient of a sum by the count lies between two bounds of
    the terms. *)
Lemma mean_bounds (l : list Z) (lo hi : Z) :
  l <> [] -> Forall (fun x => lo <= x <= hi) l ->
  (inject_Z lo <= exact_mean l <= inject_Z hi)%Q.
Proof.
  intros Hne Hall. pose proof (sum_Z_bounds l lo hi Hall) as [Hlo Hhi].
  assert (Hn : 0 < len l).
  { unfold len. destruct l; [contradiction|]. cbn [length]. lia. }
  assert (HnQ : (0 < inject_Z (len l))%Q).
  { change 0%Q with (inject_Z 0). now rewrite <- Zlt_Qlt. }
  unfold exact_mean. split.
  - apply Qle_shift_div_l; [exact HnQ|].
    rewrite <- inject_Z_mult, <- Zle_Qle. lia.
  - apply Qle_shift_div_r; [exact HnQ|].
    rewrite <- inject_Z_mult, <- Zle_Qle. lia.
Qed.

(** An exact value between two ints of the float range does not
    overflow. *)
Lemma overflows_between (lo hi : Z) (q : Q) :
  Z.abs lo <= DBL_MAX -> Z.abs hi <= DBL_MAX ->
  (inject_Z lo <= q <= inject_Z hi)%Q -> overflows q = false.
Proof.
  intros Hlo Hhi [H1 H2]. apply overflows_in_range, Qabs_Qle_condition.
  assert (Ha : - DBL_MAX <= lo) by lia. assert (Hb : hi <= DBL_MAX) by lia.
  rewrite Zle_Qle in Ha, Hb. rewrite inject_Z_opp in Ha.
  split; eapply Qle_trans; eassumption.
Qed.

Lemma overflows_between_53 (lo hi : Z) (q : Q) :
  Z.abs lo <= 2 ^ 53 -> Z.abs hi <= 2 ^ 53 ->
  (inject_Z lo <= q <= inject_Z hi)%Q -> overflows q = false.
Proof.
  intros Hlo Hhi Hq.
  assert (Hmax : 2 ^ 53 <= DBL_MAX) by (vm_compute; discriminate).
  apply (overflows_between lo hi); [| | exact Hq];
    apply (Z.le_trans _ (2 ^ 53)); assumption.
Qed.

(** The mean of ints of the float range does not overflow. *)
Lemma mean_in_float_range (l : list Z) :
  l <> [] -> Forall (fun x => Z.abs x <= DBL_MAX) l -> overflows (exact_mean l) = false.
Proof.
  intros Hne Hall.
  apply (overflows_between (- DBL_MAX) DBL_MAX); [reflexivity | reflexivity |].
  apply mean_bounds; [exact Hne|].
  eapply List.Forall_impl; [|exact Hall]. cbn. intros x Hx. lia.
Qed.

Lemma grades_mean_exact (s : student) :
  grades_mean s = exact_mean (map snd (grades s)).
Proof. unfold grades_mean, exact_mean, len. now rewrite length_map. Qed.

Lemma map_snd_nonempty {A B : Type} (l : list (A * B)) : l <> [] -> map snd l <> [].
Proof. destruct l; [contradiction | discriminate]. Qed.

(** A record whose grades are ints of the float range has an average. *)
Lemma average_in_range_grades (s : student) :
  grades s <> [] -> Forall (fun item => Z.abs (snd item) <= DBL_MAX) (grades s) ->
  average_in_range s.
Proof.
  intros Hne Hall. unfold average_in_range. rewrite grades_mean_exact.
  apply mean_in_float_range; [now apply map_snd_nonempty|].
  apply List.Forall_forall. intros v Hv. apply in_map_iff in Hv.
  destruct Hv as [item [<- Hitem]]. rewrite List.Forall_forall in Hall. now apply Hall.
Qed.

Lemma validate_student_id_first (a : analyzer) (sid : string) :
  validate_student_id a (VStr sid) = Return (first_with_id a sid).
Proof.
  unfold validate_student_id, validate_student_id_body, first_with_id. cbn [as_str].
  destruct (find _ _); reflexivity.
Qed.

Lemma calculate_student_average_mean (a : analyzer) (sid : string) (s0 : student) :
  _loaded a = true -> first_with_id a sid = Some s0 -> grades s0 <> [] ->
  calculate_student_average a (VStr sid) = Return (record_average s0).
Proof.
  intros Hl Hf Hne.
  unfold calculate_student_average, calculate_student_average_body, check_data_loaded.
  rewrite Hl, validate_student_id_first, Hf. cbn [negb exc_bind]. unfold true_div.
  assert (Hn : (len (grades s0) =? 0) = false).
  { apply Z.eqb_neq. unfold len. destruct (grades s0); [contradiction|].
    cbn [length]. lia. }
  rewrite Hn. unfold record_average, student_mean, float_of. fold (grades_mean s0).
  destruct (overflows (grades_mean s0)); reflexivity.
Qed.

(** X6.  For loaded data and a stored id, the highest and the lowest score
    are items of the first record with that id; no grade of the record is
    above the highest or below the lowest, and among equal scores the
    subject that comes first in the record is the one returned. *)
Theorem student_extremes_first_in_record
    (a : analyzer) (sid : string) (s0 : student) :
  _loaded a = true -> first_with_id a sid = Some s0 -> grades s0 <> [] ->
  exists hi lo,
    get_student_highest_score a (VStr sid) = Return (Some hi)
    /\ get_student_lowest_score a (VStr sid) = Return (Some lo)
    /\ (exists before after,
          (grades s0 = before ++ hi :: after)%list
          /\ Forall (fun item => snd item < snd hi) before
          /\ Forall (fun item => snd item <= snd hi) after)
    /\ (exists before after,
          (grades s0 = before ++ lo :: after)%list
          /\ Forall (fun item => snd lo < snd item) before
          /\ Forall (fun item => snd lo <= snd item) after).
Proof.
  intros Hl Hf Hne.
  unfold get_student_highest_score, get_student_highest_score_body,
    get_student_lowest_score, get_student_lowest_score_body, check_data_loaded.
  rewrite Hl, validate_student_id_first, Hf. cbn [negb exc_bind].
  destruct (grades s0) as [|item items]; [contradiction|].
  cbn [py_max py_min exc_bind try_except].
  eexists. eexists. split; [reflexivity|]. split; [reflexivity|].
  split; [apply extreme_by_max | apply extreme_by_min].
Qed.

Lemma student_extremes_first_in_record_witness :
  exists hi lo,
    get_student_highest_score alice_engine (VStr "STU001") = Return (Some hi)
    /\ get_student_lowest_score alice_engine (VStr "STU001") = Return (Some lo)
    /\ snd hi = 95 /\ snd lo = 60.
Proof.
  destruct (student_extremes_first_in_record alice_engine "STU001" alice)
    as [hi [lo [Hhi [Hlo _]]]].
  - reflexivity.
  - reflexivity.
  - discriminate.
  - exists hi, lo. split; [exact Hhi|]. split; [exact Hlo|].
    change (get_student_highest_score alice_engine (VStr "STU001"))
      with (Return (Some ("English", 95))) in Hhi.
    change (get_student_lowest_score alice_engine (VStr "STU001"))
      with (Return (Some ("Biology", 60))) in Hlo.
    injection Hhi as <-. injection Hlo as <-. split; reflexivity.
Defined.

Lemma Forall_app_cons_bounds {A : Type} (key : A -> Z) (x : A)
    (before after : list A) (P : Z -> Prop) :
  P (key x) ->
  Forall (fun y => P (key y)) before -> Forall (fun y => P (key y)) after ->
  Forall (fun v => P v) (map key (before ++ x :: after)).
Proof.
  intros Hx Hb Ha. apply List.Forall_forall. intros v Hv.
  apply in_map_iff in Hv. destruct Hv as [y [<- Hy]].
  apply in_app_or in Hy. rewrite List.Forall_forall in Hb, Ha.
  destruct Hy as [Hy|[<-|Hy]]; auto.
Qed.

(** X7.  When the grades of a student are ints of at most 53 bits (which
    a float holds exactly), the average lies between the student's lowest
    and highest score. *)
Theorem student_average_between_extremes
    (a : analyzer) (sid : string) (s0 : student) :
  _loaded a = true -> first_with_id a sid = Some s0 -> grades s0 <> [] ->
  Forall (fun item => Z.abs (snd item) <= 2 ^ 53) (grades s0) ->
  exists hi lo q,
    get_student_highest_score a (VStr sid) = Return (Some hi)
    /\ get_student_lowest_score a (VStr sid) = Return (Some lo)
    /\ calculate_student_average a (VStr sid) = Return (Some (NFloat (Fin q)))
    /\ (inject_Z (snd lo) <= q <= inject_Z (snd hi))%Q.
Proof.
  intros Hl Hf Hne Hbits.
  assert (Hhi : exists hi, get_student_highest_score a (VStr sid) = Return (Some hi)
                           /\ In hi (grades s0)
                           /\ Forall (fun v => v <= snd hi) (map snd (grades s0))).
  { unfold get_student_highest_score, get_student_highest_score_body,
      check_data_loaded.
    rewrite Hl, validate_student_id_first, Hf. cbn [negb exc_bind].
    destruct (grades s0) as [|item items]; [contradiction|].
    cbn [py_max exc_bind try_except]. eexists. split; [reflexivity|].
    destruct (extreme_by_max snd item items) as [before [after [Heq [Hb Ha]]]].
    rewrite Heq. split; [apply in_elt|].
    apply (Forall_app_cons_bounds snd _ before after
             (fun v => v <= snd (extreme_by Z.gtb snd item items))).
    - lia.
    - eapply List.Forall_impl; [|exact Hb]. cbn. intros; lia.
    - exact Ha. }
  assert (Hlo : exists lo, get_student_lowest_score a (VStr sid) = Return (Some lo)
                           /\ In lo (grades s0)
                           /\ Forall (fun v => snd lo <= v) (map snd (grades s0))).
  { unfold get_student_lowest_score, get_student_lowest_score_body,
      check_data_loaded.
    rewrite Hl, validate_student_id_first, Hf. cbn [negb exc_bind].
    destruct (grades s0) as [|item items]; [contradiction|].
    cbn [py_min exc_bind try_except]. eexists. split; [reflexivity|].
    destruct (extreme_by_min snd item items) as [before [after [Heq [Hb Ha]]]].
    rewrite Heq. split; [apply in_elt|].
    apply (Forall_app_cons_bounds snd _ before after
             (fun v => snd (extreme_by Z.ltb snd item items) <= v)).
    - lia.
    - eapply List.Forall_impl; [|exact Hb]. cbn. intros; lia.
    - exact Ha. }
  destruct Hhi as [hi [Hhi [Hhi_in Hle]]], Hlo as [lo [Hlo [Hlo_in Hge]]].
  rewrite List.Forall_forall in Hbits.
  pose proof (Hbits hi Hhi_in) as Hhi53. pose proof (Hbits lo Hlo_in) as Hlo53.
  assert (Hmean : (inject_Z (snd lo) <= grades_mean s0 <= inject_Z (snd hi))%Q).
  { rewrite grades_mean_exact. apply mean_bounds; [now apply map_snd_nonempty|].
    rewrite List.Forall_forall in *. intros v Hv. split; auto. }
  exists hi, lo, (student_mean s0).
  split; [exact Hhi|]. split; [exact Hlo|]. split.
  - rewrite (calculate_student_average_mean a sid s0 Hl Hf Hne).
    apply f_equal, record_average_in_range.
    exact (overflows_between_53 (snd lo) (snd hi) _ Hlo53 Hhi53 Hmean).
  - exact (nearest_double_between (snd lo) (snd hi) _ Hlo53 Hhi53 Hmean).
Qed.

Lemma student_average_between_extremes_witness :
  exists (hi lo : string * Z) q,
    calculate_student_average alice_engine (VStr "STU001")
    = Return (Some (NFloat (Fin q)))
    /\ (inject_Z (snd lo) <= q <= inject_Z (snd hi))%Q.
Proof.
  destruct (student_average_between_extremes alice_engine "STU001" alice)
    as [hi [lo [q [_ [_ [Hq Hb]]]]]].
  - reflexivity.
  - reflexivity.
  - discriminate.
  - repeat constructor; vm_compute; discriminate.
  - exists hi, lo, q. split; assumption.
Defined.

(** Beyond 53 bits the average can leave the interval: five grades of
    [2 ** 53 + 1] have the average [2 ** 53], below the lowest score. *)
Lemma student_average_below_lowest :
  let a := load_file ["S1,Ann,9007199254740993,9007199254740993,9007199254740993,"
                      ++ "9007199254740993,9007199254740993"] in
  get_student_lowest_score a (VStr "S1") = Return (Some ("Math", 2 ^ 53 + 1))
  /\ calculate_student_average a (VStr "S1")
     = Return (Some (NFloat (Fin (inject_Z (2 ^ 53))))).
Proof. cbv zeta. split; vm_compute; reflexivity. Qed.

(** ** Passing, top performers and struggling students *)

Lemma valid_threshold_in_range (threshold : pyval) (t : Q) :
  valid_threshold threshold t -> out_of_range threshold = false.
Proof.
  intros [n [Hn [Hv [H0 H100]]]]. unfold out_of_range, num_ltb. rewrite Hn, Hv.
  cbn [num_val f_ltb]. apply orb_false_iff.
  split; apply Qlt_bool_false_iff; assumption.
Qed.

Lemma is_student_passing_value
    (a : analyzer) (sid : string) (s0 : student) (threshold : pyval) (t : Q) :
  _loaded a = true -> first_with_id a sid = Some s0 -> grades s0 <> [] ->
  valid_threshold threshold t ->
  is_student_passing a (VStr sid) threshold
  = Return (Some (negb (overflows (grades_mean s0)) && Qle_bool t (student_mean s0))).
Proof.
  intros Hl Hf Hne Hvalid.
  pose proof (valid_threshold_in_range threshold t Hvalid) as Hrange.
  destruct Hvalid as [n [Hn [Hv _]]].
  unfold is_student_passing, is_student_passing_body, check_data_loaded.
  rewrite Hl, validate_student_id_first, Hf, Hn, Hrange. cbn [negb exc_bind].
  rewrite (calculate_student_average_mean a sid s0 Hl Hf Hne). cbn [exc_bind].
  unfold record_average, num_leb. rewrite Hv.
  destruct (overflows (grades_mean s0)); reflexivity.
Qed.

(** X8.  For loaded data, a stored id and a threshold from 0 to 100, the
    student passes exactly when the average is within the range of the
    doubles and the threshold does not exceed it, the average being the
    double nearest to the mean of the grades; so a student who passes at a
    threshold passes at every lower one. *)
Theorem is_student_passing_monotone
    (a : analyzer) (sid : string) (s0 : student)
    (threshold threshold' : pyval) (t t' : Q) :
  _loaded a = true -> first_with_id a sid = Some s0 -> grades s0 <> [] ->
  valid_threshold threshold t -> valid_threshold threshold' t' -> (t' <= t)%Q ->
  (is_student_passing a (VStr sid) threshold = Return (Some true)
   <-> average_in_range s0 /\ (t <= student_mean s0)%Q)
  /\ (is_student_passing a (VStr sid) threshold = Return (Some true) ->
      is_student_passing a (VStr sid) threshold' = Return (Some true)).
Proof.
  intros Hl Hf Hne Hv Hv' Hle.
  rewrite (is_student_passing_value a sid s0 threshold t Hl Hf Hne Hv).
  rewrite (is_student_passing_value a sid s0 threshold' t' Hl Hf Hne Hv').
  unfold average_in_range.
  assert (Hiff : Return (Some (negb (overflows (grades_mean s0))
                               && Qle_bool t (student_mean s0))) = Return (Some true)
                 <-> overflows (grades_mean s0) = false /\ (t <= student_mean s0)%Q).
  { rewrite <- Qle_bool_iff. split.
    - intros H. injection H as H1. apply andb_true_iff in H1.
      destruct H1 as [H1 H2]. apply negb_true_iff in H1. now split.
    - intros [-> ->]. reflexivity. }
  split; [exact Hiff|].
  intros H. apply Hiff in H. destruct H as [Hin Ht]. rewrite Hin.
  assert (H' : Qle_bool t' (student_mean s0) = true)
    by (apply Qle_bool_iff; now apply (Qle_trans _ t)).
  now rewrite H'.
Qed.

Lemma is_student_passing_monotone_witness :
  is_student_passing alice_engine (VStr "STU001") (VNum (NInt 80)) = Return (Some true)
  <-> average_in_range alice /\ (80 <= student_mean alice)%Q.
Proof.
  refine (proj1 (is_student_passing_monotone alice_engine "STU001" alice
                   (VNum (NInt 80)) (VNum (NFloat (Fin (119 # 2)))) 80 (119 # 2)
                   _ _ _ _ _ _)).
  - reflexivity.
  - reflexivity.
  - discriminate.
  - exists (NInt 80). repeat split; discriminate.
  - exists (NFloat (Fin (119 # 2))). repeat split; discriminate.
  - discriminate.
Defined.

(** A threshold equal to the average as a float is reached, although it is
    above the exact mean: the grades 60, 60, 60, 60, 58 have the mean 59.6,
    and the float 59.6 is a little greater than that. *)
Lemma is_student_passing_rounded_mean :
  let a := load_file ["S1,Ann,60,60,60,60,58"] in
  let t := nearest_double (596 # 10) in
  (298 # 5 < t)%Q
  /\ is_student_passing a (VStr "S1") (VNum (NFloat (Fin t))) = Return (Some true)
  /\ get_struggling_students a (VNum (NFloat (Fin t))) = Return [].
Proof. cbv zeta. repeat split; vm_compute; reflexivity. Qed.

Lemma StronglySorted_app_order {A : Type} (R : A -> A -> Prop) (l1 l2 : list A) :
  StronglySorted R (l1 ++ l2) ->
  forall x y, In x l1 -> In y l2 -> R x y.
Proof.
  induction l1 as [|z l1 IH]; intros Hs x y Hx Hy; [contradiction|].
  cbn [app] in Hs. inversion Hs as [|? ? Hs' Hall]; subst.
  destruct Hx as [->|Hx]; [|now apply IH].
  rewrite List.Forall_forall in Hall. apply Hall, in_or_app. now right.
Qed.

Lemma rank_students_by_average_returns (a : analyzer) :
  exists ranking, rank_students_by_average a = Return ranking.
Proof. unfold rank_students_by_average. rewrite try_except_sentinel. now eexists. Qed.

(** X9.  For a positive int [n] the top performers are the first [n]
    entries of what [rank_students_by_average] returns.  When every average
    is within the range of the doubles, these are [n] entries, or all of
    them when there are fewer than [n] students, and no entry left out has
    a higher average than an entry kept. *)
Theorem get_top_performers_prefix
    (a0 : analyzer) (header : string) (lines : list string) (n : Z) :
  let a := load_data (Opened (header :: lines) None) a0 in
  0 < n ->
  exists ranking,
    rank_students_by_average a = Return ranking
    /\ get_top_performers a (VNum (NInt n)) = Return (firstn (Z.to_nat n) ranking)
    /\ (Forall average_in_range (_students a) ->
        length (firstn (Z.to_nat n) ranking)
        = Nat.min (Z.to_nat n) (length (_students a))
        /\ (forall x y, In x (firstn (Z.to_nat n) ranking) ->
                        In y (skipn (Z.to_nat n) ranking) ->
                        (entry_average y <= entry_average x)%Q)).
Proof.
  cbv zeta. set (a := load_data (Opened (header :: lines) None) a0). intros Hn.
  assert (Hstore : loaded_store a) by apply load_data_loaded_store.
  destruct (rank_students_by_average_returns a) as [ranking Hrank].
  exists ranking. split; [exact Hrank|]. split.
  - unfold get_top_performers, get_top_performers_body, check_data_loaded.
    rewrite (proj1 Hstore). cbn [negb as_int].
    assert (Hpos : (n <=? 0) = false) by lia. rewrite Hpos, Hrank. reflexivity.
  - intros Hrange.
    rewrite (rank_students_by_average_loaded a Hstore Hrange) in Hrank.
    injection Hrank as <-. split.
    + rewrite length_firstn. now rewrite stable_sort_length, length_map.
    + intros x y Hx Hy.
      apply (StronglySorted_app_order
               (fun x y => (entry_average y <= entry_average x)%Q) _ _
               (eq_ind_r (StronglySorted _) (larger_first_sorted entry_average _)
                         (firstn_skipn (Z.to_nat n) _)) x y Hx Hy).
Qed.

Lemma get_top_performers_prefix_witness :
  exists ranking,
    rank_students_by_average four_scores_engine = Return ranking
    /\ get_top_performers four_scores_engine (VNum (NInt 2))
       = Return (firstn 2 ranking).
Proof.
  destruct (get_top_performers_prefix (init "student_grades.txt") header_line
              ["S1,Ann,70,1,1,1,1"; "S2,Ben,50,1,1,1,1"; "S3,Cal,80,1,1,1,1";
               "S4,Dee,60,1,1,1,1"] 2) as [ranking [H1 [H2 _]]].
  - reflexivity.
  - exists ranking. split; [exact H1 | exact H2].
Defined.

Lemma exc_filter_returns {A : Type} (test : A -> exc bool) (f : A -> bool) (l : list A) :
  (forall x, In x l -> test x = Return (f x)) ->
  exc_filter test l = Return (List.filter f l).
Proof.
  induction l as [|x l IH]; intros Ht; [reflexivity|]. cbn [exc_filter List.filter].
  rewrite (Ht x (or_introl eq_refl)). cbn [exc_bind].
  rewrite IH by (intros y Hy; apply Ht; now right). cbn [exc_bind].
  destruct (f x); reflexivity.
Qed.

(** X10.  For a threshold from 0 to 100 and records whose averages are
    all within the range of the doubles, the struggling students are the
    records, in store order, whose average is strictly below the
    threshold; a stored student is among them exactly when
    [is_student_passing] gives False for the same threshold.  (The average
    is looked up by id, so it is the record's own average when ids are
    distinct.) *)
Theorem get_struggling_students_below_threshold
    (a0 : analyzer) (header : string) (lines : list string)
    (threshold : pyval) (t : Q) :
  let a := load_data (Opened (header :: lines) None) a0 in
  valid_threshold threshold t ->
  Forall average_in_range (_students a) ->
  get_struggling_students a threshold
  = Return (List.filter (fun s => Qlt_bool (entry_average (ranking_entry a s)) t)
                        (_students a))
  /\ (forall s, In s (_students a) ->
        (Qlt_bool (entry_average (ranking_entry a s)) t = true
         <-> is_student_passing a (VStr (id s)) threshold = Return (Some false)))
  /\ (List.NoDup (map id (_students a)) ->
      get_struggling_students a threshold
      = Return (List.filter (fun s => Qlt_bool (student_mean s) t) (_students a))).
Proof.
  cbv zeta. set (a := load_data (Opened (header :: lines) None) a0).
  intros Hvalid Hall.
  assert (Hstore : loaded_store a) by apply load_data_loaded_store.
  pose proof (valid_threshold_in_range threshold t Hvalid) as Hrange.
  assert (Hentry : forall s, In s (_students a) ->
            exists s0, first_with_id a (id s) = Some s0 /\ grades s0 <> []
                       /\ average_in_range s0
                       /\ entry_average (ranking_entry a s) = student_mean s0
                       /\ calculate_student_average a (VStr (id s))
                          = Return (Some (NFloat (Fin (student_mean s0))))).
  { intros s Hs.
    destruct (calculate_student_average_stored a s Hstore Hs)
      as [s0 [Hf [Hin0 [_ Havg]]]].
    assert (Hin_range : average_in_range s0)
      by (rewrite List.Forall_forall in Hall; now apply Hall).
    exists s0. split; [exact Hf|]. split.
    - destruct Hstore as [_ Hok]. rewrite List.Forall_forall in Hok.
      specialize (Hok s0 Hin0). unfold record_ok in Hok.
      destruct (grades s0); [discriminate Hok | discriminate].
    - split; [exact Hin_range|].
      rewrite (record_average_in_range s0 Hin_range) in Havg.
      split; [|exact Havg]. unfold ranking_entry, entry_average.
      now rewrite Hf, (record_average_in_range s0 Hin_range). }
  assert (Hresult : get_struggling_students a threshold
            = Return (List.filter
                        (fun s => Qlt_bool (entry_average (ranking_entry a s)) t)
                        (_students a))).
  { destruct Hvalid as [n [Hn [Hv _]]].
    unfold get_struggling_students, get_struggling_students_body, check_data_loaded.
    rewrite (proj1 Hstore), Hn, Hrange. cbn [negb].
    rewrite (exc_filter_returns _
               (fun s => Qlt_bool (entry_average (ranking_entry a s)) t));
      [reflexivity|].
    intros s Hs. destruct (Hentry s Hs) as [s0 [_ [_ [_ [He Havg]]]]].
    rewrite Havg, He. cbn [exc_bind]. unfold num_ltb. now rewrite Hv. }
  split; [exact Hresult|]. split.
  - intros s Hs. destruct (Hentry s Hs) as [s0 [Hf [Hne [Hin_range [He _]]]]].
    rewrite (is_student_passing_value a (id s) s0 threshold t
               (proj1 Hstore) Hf Hne Hvalid), He.
    unfold average_in_range in Hin_range. rewrite Hin_range. cbn [negb andb].
    unfold Qlt_bool. rewrite negb_true_iff.
    split; [now intros -> | intros H; now inversion H].
  - intros Hnd. rewrite Hresult. f_equal. apply filter_ext_in.
    intros s Hs.
    assert (He : ranking_entry a s = own_entry s).
    { unfold ranking_entry, own_entry, first_with_id.
      rewrite (find_id_nodup _ s Hnd Hs).
      rewrite List.Forall_forall in Hall.
      now rewrite (record_average_in_range s (Hall s Hs)). }
    rewrite He. reflexivity.
Qed.

Lemma get_struggling_students_below_threshold_witness :
  get_struggling_students four_scores_engine (VNum (NInt 14))
  = Return (List.filter
              (fun s => Qlt_bool (entry_average (ranking_entry four_scores_engine s)) 14)
              (_students four_scores_engine)).
Proof.
  refine (proj1 (get_struggling_students_below_threshold (init "student_grades.txt")
                   header_line
                   ["S1,Ann,70,1,1,1,1"; "S2,Ben,50,1,1,1,1"; "S3,Cal,80,1,1,1,1";
                    "S4,Dee,60,1,1,1,1"] (VNum (NInt 14)) 14 _ _)).
  - exists (NInt 14). repeat split; discriminate.
  - cbn. repeat constructor; vm_compute; reflexivity.
Defined.

(** ** Sorting by a rational key, smallest first *)

Section AscendingByKey.
Context {A : Type} (qkey : A -> Q).

Lemma smaller_first_sorted (l : list A) :
  StronglySorted (fun x y => (qkey x <= qkey y)%Q) (stable_sort (smaller_first qkey) l).
Proof.
  apply (StronglySorted_weaken (may_precede (smaller_first qkey))).
  - unfold may_precede, smaller_first. intros x y H.
    now apply Qlt_bool_false_iff in H.
  - apply stable_sort_sorted; unfold may_precede, smaller_first.
    + intros x y H. apply Qlt_bool_iff in H. apply Qlt_bool_false_iff.
      now apply Qlt_le_weak.
    + intros x y z H1 H2. apply Qlt_bool_false_iff in H1, H2.
      apply Qlt_bool_false_iff. now apply (Qle_trans _ (qkey y)).
Qed.

Lemma smaller_first_stable (k : Q) (l : list A) :
  List.filter (fun e => Qeq_bool (qkey e) k) (stable_sort (smaller_first qkey) l)
  = List.filter (fun e => Qeq_bool (qkey e) k) l.
Proof.
  apply stable_sort_filter. intros y z Hy Hz.
  apply Qeq_bool_iff in Hy, Hz. unfold smaller_first.
  apply Qlt_bool_false_iff. rewrite Hy, Hz. apply Qle_refl.
Qed.

Lemma py_sorted_by_smaller_first (key : A -> option num) (l : list A) :
  (forall x, In x l -> exists n, key x = Some n /\ num_val n = Fin (qkey x)) ->
  py_sorted_by key false l = Return (stable_sort (smaller_first qkey) l).
Proof.
  intros Hkeys. unfold py_sorted_by.
  assert (Hnone : existsb (fun x => is_none (key x)) l = false).
  { destruct (existsb _ l) eqn:Hex; [|reflexivity].
    apply existsb_exists in Hex. destruct Hex as [x [Hin Hx]].
    destruct (Hkeys x Hin) as [n [Hn _]]. rewrite Hn in Hx. discriminate. }
  rewrite Hnone, andb_false_r. f_equal.
  apply stable_sort_ext. intros x y Hx Hy.
  destruct (Hkeys x Hx) as [nx [Hnx Hqx]], (Hkeys y Hy) as [ny [Hny Hqy]].
  rewrite Hnx, Hny. unfold key_before, num_ltb, smaller_first.
  now rewrite Hqx, Hqy.
Qed.
End AscendingByKey.

(** ** Averages and ranking of the courses *)

Lemma subject_not_empty (subject : string) :
  In subject _subjects -> String.eqb subject "" = false.
Proof.
  cbn. intros H. repeat (destruct H as [<-|H]; [reflexivity|]). contradiction.
Qed.

Lemma calculate_course_average_mean (a : analyzer) (subject : string) :
  _loaded a = true -> In subject _subjects ->
  calculate_course_average a (VStr subject) = Return (course_mean a subject).
Proof.
  intros Hl Hin.
  unfold calculate_course_average, calculate_course_average_body, check_data_loaded.
  rewrite Hl, (validate_course_name_valid a subject Hin).
  cbn [negb exc_bind falsy_str]. rewrite (subject_not_empty subject Hin).
  rewrite (get_course_scores_column a subject Hl Hin). cbn [exc_bind].
  unfold course_mean. destruct (column a subject) as [|x l] eqn:Hc; [reflexivity|].
  unfold true_div.
  assert (Hn : (len (x :: l) =? 0) = false)
    by (apply Z.eqb_neq; unfold len; cbn [length]; lia).
  rewrite Hn. unfold float_of. fold (exact_mean (x :: l)).
  destruct (overflows (exact_mean (x :: l))); reflexivity.
Qed.

Lemma course_mean_finite (a : analyzer) (subject : string) :
  num_val (course_mean a subject) = Fin (num_Q (course_mean a subject)).
Proof.
  unfold course_mean. destruct (column a subject); [reflexivity|].
  destruct (overflows _); reflexivity.
Qed.

(** X11.  For loaded data the difficulty ranking holds each of the five
    catalog subjects once, paired with what [calculate_course_average]
    returns for it (the double nearest to the mean of the column; the int
    0 when there is no record and when that mean is beyond the range of
    the doubles), in ascending order of this number; subjects with equal
    averages keep the catalog order. *)
Theorem rank_courses_by_difficulty_ascending (a : analyzer) :
  _loaded a = true ->
  exists ranking,
    rank_courses_by_difficulty a = Return ranking
    /\ Forall (fun subject =>
                 calculate_course_average a (VStr subject)
                 = Return (course_mean a subject)) _subjects
    /\ Permutation ranking
                   (map (fun subject => (subject, course_mean a subject)) _subjects)
    /\ length ranking = 5%nat
    /\ StronglySorted (fun x y => (num_Q (snd x) <= num_Q (snd y))%Q) ranking
    /\ (forall k,
          List.filter (fun e => Qeq_bool (num_Q (snd e)) k) ranking
          = List.filter (fun e => Qeq_bool (num_Q (snd e)) k)
                        (map (fun subject => (subject, course_mean a subject))
                             _subjects)).
Proof.
  intros Hl.
  set (entries := map (fun subject => (subject, course_mean a subject)) _subjects).
  exists (stable_sort (smaller_first (fun e => num_Q (snd e))) entries).
  split.
  - unfold rank_courses_by_difficulty, rank_courses_by_difficulty_body,
      check_data_loaded.
    rewrite Hl. cbn [negb].
    rewrite (exc_map_returns _ (fun subject => (subject, course_mean a subject))).
    + cbn [exc_bind]. fold entries.
      rewrite (py_sorted_by_smaller_first (fun e => num_Q (snd e))); [reflexivity|].
      intros e He. apply in_map_iff in He. destruct He as [subject [<- _]].
      cbn [snd]. eexists. split; [reflexivity | apply course_mean_finite].
    + intros subject Hin. now rewrite (calculate_course_average_mean a subject Hl Hin).
  - split.
    { apply List.Forall_forall. intros subject Hin.
      now apply calculate_course_average_mean. }
    split; [apply stable_sort_perm|].
    split; [now rewrite stable_sort_length|].
    split; [apply (smaller_first_sorted (fun e => num_Q (snd e)))|].
    intros k. apply (smaller_first_stable (fun e => num_Q (snd e))).
Qed.

Lemma rank_courses_by_difficulty_ascending_witness :
  exists ranking,
    rank_courses_by_difficulty alice_engine = Return ranking
    /\ map fst ranking = ["Biology"; "Chemistry"; "Physics"; "Math"; "English"].
Proof.
  destruct (rank_courses_by_difficulty_ascending alice_engine eq_refl)
    as [ranking [Hr _]].
  exists ranking. split; [exact Hr|].
  change (rank_courses_by_difficulty alice_engine)
    with (Return [("Biology", NFloat (Fin 60)); ("Chemistry", NFloat (Fin 70));
                  ("Physics", NFloat (Fin 85)); ("Math", NFloat (Fin 90));
                  ("English", NFloat (Fin 95))]) in Hr.
  injection Hr as <-. reflexivity.
Defined.

(** ** Statistics of one course *)

Lemma max_default_spec (x : Z) (l : list Z) :
  In (max_default (x :: l)) (x :: l)
  /\ Forall (fun v => v <= max_default (x :: l)) (x :: l).
Proof.
  cbn [max_default].
  destruct (extreme_by_max (fun v => v) x l) as [before [after [Heq [Hb Ha]]]].
  remember (extreme_by Z.gtb (fun v => v) x l) as r eqn:Hr. clear Hr.
  rewrite Heq. split; [apply in_or_app; right; now left|].
  apply Forall_app. split.
  - eapply List.Forall_impl; [|exact Hb]. cbn. intros; lia.
  - constructor; [lia | exact Ha].
Qed.

Lemma min_default_spec (x : Z) (l : list Z) :
  In (min_default (x :: l)) (x :: l)
  /\ Forall (fun v => min_default (x :: l) <= v) (x :: l).
Proof.
  cbn [min_default].
  destruct (extreme_by_min (fun v => v) x l) as [before [after [Heq [Hb Ha]]]].
  remember (extreme_by Z.ltb (fun v => v) x l) as r eqn:Hr. clear Hr.
  rewrite Heq. split; [apply in_or_app; right; now left|].
  apply Forall_app. split.
  - eapply List.Forall_impl; [|exact Hb]. cbn. intros; lia.
  - constructor; [lia | exact Ha].
Qed.

Lemma nth_in_bounds (l : list Z) (i : nat) (lo hi : Z) :
  (i < length l)%nat -> Forall (fun v => lo <= v <= hi) l ->
  lo <= nth i l 0 <= hi.
Proof.
  intros Hi Hall. rewrite List.Forall_forall in Hall. apply Hall, nth_In, Hi.
Qed.

Lemma median_of_bounds (raw : list Z) (lo hi : Z) :
  raw <> [] -> Z.abs lo <= 2 ^ 53 -> Z.abs hi <= 2 ^ 53 ->
  Forall (fun v => lo <= v <= hi) raw ->
  exists m, median_of raw = Return (Some m)
            /\ (inject_Z lo <= num_Q m <= inject_Z hi)%Q.
Proof.
  intros Hne Hlo53 Hhi53 Hall.
  pose proof (median_of_spec raw) as Hspec. cbv zeta in Hspec.
  assert (Hsorted : Forall (fun v => lo <= v <= hi) (py_sorted raw))
    by (apply (Permutation_Forall (Permutation_sym (py_sorted_perm raw))), Hall).
  assert (Hlen : length (py_sorted raw) = length raw)
    by apply Permutation_length, py_sorted_perm.
  destruct (length (py_sorted raw)) as [|k] eqn:Hk.
  { destruct raw; [contradiction | discriminate Hlen]. }
  assert (Hhalf : (S k / 2 < S k)%nat) by (apply Nat.div_lt; lia).
  destruct (Nat.odd (S k)).
  - eexists. split; [exact Hspec|]. cbn [num_Q].
    pose proof (nth_in_bounds (py_sorted raw) (S k / 2) lo hi) as Hb.
    rewrite Hk in Hb. specialize (Hb Hhalf Hsorted).
    rewrite <- !Zle_Qle. exact Hb.
  - assert (Hmid : (inject_Z lo <= middle_mean (py_sorted raw) <= inject_Z hi)%Q).
    { unfold middle_mean. rewrite Hk.
      pose proof (nth_in_bounds (py_sorted raw) (S k / 2) lo hi) as Hb1.
      pose proof (nth_in_bounds (py_sorted raw) (S k / 2 - 1) lo hi) as Hb2.
      rewrite Hk in Hb1, Hb2. specialize (Hb1 Hhalf Hsorted).
      specialize (Hb2 ltac:(lia) Hsorted).
      destruct Hb1 as [H1 H2], Hb2 as [H3 H4].
      rewrite Zle_Qle in H1, H2, H3, H4.
      generalize dependent (inject_Z (nth (S k / 2) (py_sorted raw) 0)).
      generalize dependent (inject_Z (nth (S k / 2 - 1) (py_sorted raw) 0)).
      generalize (inject_Z lo) (inject_Z hi). clear. intros L H X HX1 HX2 Y HY1 HY2.
      split; [apply Qle_shift_div_l | apply Qle_shift_div_r];
        solve [reflexivity | lra]. }
    rewrite (overflows_between_53 lo hi _ Hlo53 Hhi53 Hmid) in Hspec.
    eexists. split; [exact Hspec|]. cbn [num_Q].
    exact (nearest_double_between lo hi _ Hlo53 Hhi53 Hmid).
Qed.

Lemma get_course_grade_distribution_returns (a : analyzer) (course_name : pyval) :
  exists d, get_course_grade_distribution a course_name = Return d.
Proof.
  unfold get_course_grade_distribution. rewrite try_except_sentinel. now eexists.
Qed.

Lemma get_course_statistics_loaded (a : analyzer) (subject : string) :
  _loaded a = true -> In subject _subjects ->
  exists med dist,
    find_course_median a (VStr subject) = Return med
    /\ get_course_grade_distribution a (VStr subject) = Return dist
    /\ get_course_statistics a (VStr subject)
       = Return (Some {| average := course_mean a subject;
                         median := med;
                         highest := max_default (column a subject);
                         lowest := min_default (column a subject);
                         distribution := dist |}).
Proof.
  intros Hl Hin.
  assert (Hmed : exists med, find_course_median a (VStr subject) = Return med).
  { unfold find_course_median. rewrite try_except_sentinel. now eexists. }
  destruct Hmed as [med Hmed].
  destruct (get_course_grade_distribution_returns a (VStr subject)) as [dist Hdist].
  exists med, dist. split; [exact Hmed|]. split; [exact Hdist|].
  unfold get_course_statistics, get_course_statistics_body, check_data_loaded.
  rewrite Hl, (validate_course_name_valid a subject Hin).
  cbn [negb exc_bind falsy_str]. rewrite (subject_not_empty subject Hin).
  rewrite (calculate_course_average_mean a subject Hl Hin), Hmed,
    (get_course_scores_column a subject Hl Hin), Hdist.
  reflexivity.
Qed.

(** X12.  For loaded data with at least one record and a catalog subject,
    the statistics of the course hold a highest and a lowest score that are
    scores of the course and bound every score of it; when the scores are
    ints of at most 53 bits (which a float holds exactly), both the average
    and the median lie between the lowest and the highest. *)
Theorem get_course_statistics_bounds (a : analyzer) (subject : string) :
  _loaded a = true -> In subject _subjects -> _students a <> [] ->
  Forall (fun v => Z.abs v <= 2 ^ 53) (column a subject) ->
  exists st m,
    get_course_statistics a (VStr subject) = Return (Some st)
    /\ In (highest st) (column a subject)
    /\ In (lowest st) (column a subject)
    /\ Forall (fun v => lowest st <= v <= highest st) (column a subject)
    /\ (inject_Z (lowest st) <= num_Q (average st) <= inject_Z (highest st))%Q
    /\ median st = Some m
    /\ (inject_Z (lowest st) <= num_Q m <= inject_Z (highest st))%Q.
Proof.
  intros Hl Hin Hne Hbits.
  destruct (get_course_statistics_loaded a subject Hl Hin)
    as [med [dist [Hmed [_ Hst]]]].
  assert (Hcol : column a subject <> []).
  { unfold column. destruct (_students a); [contradiction | discriminate]. }
  destruct (column a subject) as [|x l] eqn:Hc; [contradiction|].
  destruct (max_default_spec x l) as [Hmax_in Hmax].
  destruct (min_default_spec x l) as [Hmin_in Hmin].
  assert (Hall : Forall (fun v => min_default (x :: l) <= v <= max_default (x :: l))
                        (x :: l)).
  { rewrite List.Forall_forall in *. intros v Hv. split; auto. }
  assert (Hlo53 : Z.abs (min_default (x :: l)) <= 2 ^ 53)
    by (rewrite List.Forall_forall in Hbits; now apply Hbits).
  assert (Hhi53 : Z.abs (max_default (x :: l)) <= 2 ^ 53)
    by (rewrite List.Forall_forall in Hbits; now apply Hbits).
  destruct (median_of_bounds (x :: l) _ _ ltac:(discriminate) Hlo53 Hhi53 Hall)
    as [m [Hm Hmb]].
  assert (Hmed' : med = Some m).
  { unfold find_course_median, find_course_median_body in Hmed.
    rewrite (get_course_scores_column a subject Hl Hin), Hc in Hmed.
    cbn [exc_bind] in Hmed. rewrite Hm in Hmed. cbn [try_except] in Hmed.
    now injection Hmed as <-. }
  eexists. exists m. split; [exact Hst|]. cbn [highest lowest average median].
  split; [exact Hmax_in|]. split; [exact Hmin_in|]. split; [exact Hall|].
  split; [|split; [exact Hmed' | exact Hmb]].
  pose proof (mean_bounds (x :: l) _ _ ltac:(discriminate) Hall) as Hmean.
  unfold course_mean. rewrite Hc.
  rewrite (overflows_between_53 (min_default (x :: l)) (max_default (x :: l)) _
             Hlo53 Hhi53 Hmean). cbn [num_Q].
  exact (nearest_double_between _ _ _ Hlo53 Hhi53 Hmean).
Qed.

Lemma get_course_statistics_bounds_witness :
  exists st m,
    get_course_statistics four_scores_engine (VStr "Math") = Return (Some st)
    /\ median st = Some m
    /\ (inject_Z (lowest st) <= num_Q m <= inject_Z (highest st))%Q.
Proof.
  destruct (get_course_statistics_bounds four_scores_engine "Math")
    as [st [m [H1 [_ [_ [_ [_ [H2 H3]]]]]]]].
  - reflexivity.
  - now left.
  - discriminate.
  - repeat constructor; vm_compute; discriminate.
  - exists st, m. split; [exact H1|]. split; [exact H2 | exact H3].
Defined.

(** X13.  For loaded data without any record (a file with its header line
    only) the statistics of a catalog subject are the defaults: average 0,
    no median, highest 0, lowest 0, and the six letters with count 0. *)
Theorem get_course_statistics_empty_store (a : analyzer) (subject : string) :
  _loaded a = true -> In subject _subjects -> _students a = [] ->
  get_course_statistics a (VStr subject)
  = Return (Some {| average := NInt 0;
                    median := None;
                    highest := 0;
                    lowest := 0;
                    distribution := empty_distribution |}).
Proof.
  intros Hl Hin Hempty.
  destruct (get_course_statistics_loaded a subject Hl Hin)
    as [med [dist [Hmed [Hdist Hst]]]].
  rewrite Hst. unfold course_mean, column. rewrite Hempty. cbn [map max_default min_default].
  assert (Hscores : get_course_scores a (VStr subject) = Return []).
  { rewrite (get_course_scores_column a subject Hl Hin). unfold column.
    now rewrite Hempty. }
  unfold find_course_median, find_course_median_body in Hmed.
  rewrite Hscores in Hmed. cbn in Hmed. injection Hmed as <-.
  unfold get_course_grade_distribution, get_course_grade_distribution_body,
    check_data_loaded in Hdist.
  rewrite Hl, (validate_course_name_valid a subject Hin) in Hdist.
  cbn [negb exc_bind falsy_str] in Hdist.
  rewrite (subject_not_empty subject Hin), Hscores in Hdist.
  cbn in Hdist. injection Hdist as <-. reflexivity.
Qed.

Lemma get_course_statistics_empty_store_witness :
  get_course_statistics (load_file []) (VStr "Physics")
  = Return (Some {| average := NInt 0;
                    median := None;
                    highest := 0;
                    lowest := 0;
                    distribution := empty_distribution |}).
Proof.
  apply (get_course_statistics_empty_store (load_file []) "Physics").
  - reflexivity.
  - right. now left.
  - reflexivity.
Defined.

(** ** Letter grades and their counts *)

Lemma band_count_total (scores : list Z) :
  band_count "A" scores + band_count "B" scores + band_count "C" scores
  + band_count "D" scores + band_count "E" scores + band_count "F" scores
  = len scores.
Proof.
  induction scores as [|score scores IH]; [reflexivity|].
  rewrite !band_count_cons.
  replace (len (score :: scores)) with (1 + len scores)
    by (unfold len; cbn [length]; lia).
  rewrite <- IH. pose proof (band_of_letter (inject_Z score)) as Hb.
  cbn in Hb.
  repeat (destruct Hb as [<-|Hb]; [cbn; lia|]). contradiction.
Qed.

Lemma band_count_nonneg (letter : string) (scores : list Z) :
  0 <= band_count letter scores.
Proof. unfold band_count, len. lia. Qed.

Lemma get_course_grade_distribution_shape (a : analyzer) (subject : string) :
  _loaded a = true -> In subject _subjects ->
  Forall (fun score => 0 <= score <= 100) (column a subject) ->
  get_course_grade_distribution a (VStr subject)
  = Return (map (fun letter => (letter, band_count letter (column a subject))) letters).
Proof.
  intros Hl Hin Hrange.
  destruct (get_course_grade_distribution_in_range a subject Hl Hin Hrange)
    as [d [Hd [Hkeys Hfind]]].
  rewrite Hd. f_equal. unfold letters in *.
  destruct d as [|[k1 v1] [|[k2 v2] [|[k3 v3] [|[k4 v4] [|[k5 v5] [|[k6 v6] [|]]]]]]];
    try discriminate Hkeys.
  cbn in Hkeys. injection Hkeys as -> -> -> -> -> ->.
  pose proof (Hfind "A" ltac:(cbn; tauto)) as HA.
  pose proof (Hfind "B" ltac:(cbn; tauto)) as HB.
  pose proof (Hfind "C" ltac:(cbn; tauto)) as HC.
  pose proof (Hfind "D" ltac:(cbn; tauto)) as HD.
  pose proof (Hfind "E" ltac:(cbn; tauto)) as HE.
  pose proof (Hfind "F" ltac:(cbn; tauto)) as HF.
  cbn in HA, HB, HC, HD, HE, HF.
  injection HA as ->. injection HB as ->. injection HC as ->.
  injection HD as ->. injection HE as ->. injection HF as ->. reflexivity.
Qed.

Lemma column_length (a : analyzer) (subject : string) :
  len (column a subject) = len (_students a).
Proof. unfold len, column. now rewrite length_map. Qed.

(** X14.  When every score of a catalog subject lies in 0..100, the six
    counts of its grade distribution are non-negative and add up to the
    number of students: every student is counted in exactly one band. *)
Theorem get_course_grade_distribution_total (a : analyzer) (subject : string) :
  _loaded a = true -> In subject _subjects ->
  Forall (fun score => 0 <= score <= 100) (column a subject) ->
  exists d,
    get_course_grade_distribution a (VStr subject) = Return d
    /\ map fst d = letters
    /\ Forall (fun count => 0 <= count) (map snd d)
    /\ sum_Z (map snd d) = len (_students a).
Proof.
  intros Hl Hin Hrange. eexists.
  split; [apply (get_course_grade_distribution_shape a subject Hl Hin Hrange)|].
  cbn [map letters fst snd]. split; [reflexivity|]. split.
  - repeat constructor; apply band_count_nonneg.
  - unfold sum_Z. cbn [fold_left].
    pose proof (band_count_total (column a subject)) as Ht.
    rewrite <- (column_length a subject). lia.
Qed.

Lemma get_course_grade_distribution_total_witness :
  exists d,
    get_course_grade_distribution four_scores_engine (VStr "Math") = Return d
    /\ sum_Z (map snd d) = 4.
Proof.
  destruct (get_course_grade_distribution_total four_scores_engine "Math")
    as [d [H1 [_ [_ H2]]]].
  - reflexivity.
  - now left.
  - repeat constructor; discriminate.
  - exists d. split; [exact H1 | exact H2].
Defined.

Lemma Qle_bool_false (x y : Q) : Qle_bool x y = false -> (y < x)%Q.
Proof.
  intros H. apply Qnot_le_lt. intros Hle. apply Qle_bool_iff in Hle. congruence.
Qed.

Lemma band_of_monotone (qx qy : Q) :
  (qx <= qy)%Q -> letter_rank (band_of qy) <= letter_rank (band_of qx).
Proof.
  intros Hle. unfold band_of.
  repeat match goal with
         | |- context [Qle_bool ?c ?q] =>
             let H := fresh "H" in
             destruct (Qle_bool c q) eqn:H;
             [apply Qle_bool_iff in H | apply Qle_bool_false in H]
         end;
    first [ apply Z.leb_le; vm_compute; reflexivity
          | exfalso; lra ].
Qed.

(** X15.  Grading is monotone: of two scores in 0..100, the higher one
    never gets a worse letter than the lower one. *)
Theorem convert_to_letter_grade_monotone
    (sx sy : pyval) (nx ny : num) (qx qy : Q) :
  as_number sx = Some nx -> num_val nx = Fin qx ->
  as_number sy = Some ny -> num_val ny = Fin qy ->
  (0 <= qx)%Q -> (qx <= qy)%Q -> (qy <= 100)%Q ->
  exists lx ly,
    convert_to_letter_grade sx = Return (Some lx)
    /\ convert_to_letter_grade sy = Return (Some ly)
    /\ letter_rank ly <= letter_rank lx.
Proof.
  intros Hnx Hqx Hny Hqy H0 Hle H100.
  exists (band_of qx), (band_of qy).
  split; [|split].
  - apply (convert_to_letter_grade_in_range sx nx qx Hnx Hqx).
    split; [exact H0 | now apply (Qle_trans _ qy)].
  - apply (convert_to_letter_grade_in_range sy ny qy Hny Hqy).
    split; [now apply (Qle_trans _ qx) | exact H100].
  - now apply band_of_monotone.
Qed.

Lemma convert_to_letter_grade_monotone_witness :
  exists lx ly,
    convert_to_letter_grade (VNum (NInt 79)) = Return (Some lx)
    /\ convert_to_letter_grade (VNum (NFloat (Fin (161 # 2)))) = Return (Some ly)
    /\ letter_rank ly <= letter_rank lx.
Proof.
  apply (convert_to_letter_grade_monotone (VNum (NInt 79))
           (VNum (NFloat (Fin (161 # 2)))) (NInt 79) (NFloat (Fin (161 # 2)))
           79 (161 # 2)); try reflexivity; discriminate.
Defined.

(** ** Validating a subject name *)

(** X16.  [validate_course_name] gives back the name exactly when the
    argument is a [str] that is, letter for letter, one of the five catalog
    subjects; for every other argument it gives [None], loaded or not. *)
Theorem validate_course_name_exact (a : analyzer) (v : pyval) (c : string) :
  (validate_course_name a v = Return (Some c) <-> v = VStr c /\ In c _subjects)
  /\ (validate_course_name a v = Return None <-> invalid_course_name v)
  /\ validate_course_name a (VStr "math") = Return None.
Proof.
  split; [|split; [|reflexivity]].
  - unfold validate_course_name, validate_course_name_body. split.
    + destruct v; cbn [as_str try_except]; try discriminate.
      destruct (existsb (String.eqb s) _subjects) eqn:Hex; cbn [negb try_except];
        [|discriminate].
      intros H. injection H as ->. split; [reflexivity|].
      now apply existsb_eqb_In.
    + intros [-> Hin]. cbn [as_str]. apply existsb_eqb_In in Hin. now rewrite Hin.
  - split; [|apply validate_course_name_invalid].
    unfold validate_course_name, validate_course_name_body, invalid_course_name.
    destruct (as_str v) as [s|]; [|trivial].
    destruct (existsb (String.eqb s) _subjects) eqn:Hex; cbn [negb try_except];
      [discriminate|].
    intros _ Hin. apply existsb_eqb_In in Hin. congruence.
Qed.

(** ** Saving a report *)

(** X17.  [save_report_to_file] never raises.  A file is touched only when
    the content is a non-empty [str] and the file name a [str] that ends in
    ".txt", and it is the file of that name; it then holds the content,
    unchanged, when the write succeeds, and the part of the content that
    reached it (it was emptied when it was opened) when the write fails.
    With such arguments and a write that succeeds the file holds the whole
    content; when [open] fails no file is touched. *)
Theorem save_report_to_file_writes
    (w : write_result) (content filename : pyval) :
  snd (save_report_to_file w content filename) = Return tt
  /\ (forall f written,
        fst (save_report_to_file w content filename) = FileHolds f written ->
        exists text,
          content = VStr text /\ text <> "" /\ filename = VStr f
          /\ endswith f ".txt" = true
          /\ (w = WriteSucceeds /\ written = text
              \/ exists e kept, w = WriteRaises e kept
                                /\ written = substring 0 kept text))
  /\ (forall f text,
        content = VStr text -> text <> "" -> filename = VStr f ->
        endswith f ".txt" = true ->
        fst (save_report_to_file w content filename)
        = match w with
          | OpenForWriteRaises _ => NoFileTouched
          | WriteRaises _ kept => FileHolds f (substring 0 kept text)
          | WriteSucceeds => FileHolds f text
          end).
Proof.
  unfold save_report_to_file. cbv zeta. cbn [fst snd]. split; [|split].
  - rewrite try_except_sentinel.
    destruct (snd (save_report_to_file_body w content filename)) as [[]|]; reflexivity.
  - intros f written. unfold save_report_to_file_body.
    destruct (truthy content) eqn:Ht; cbn [negb fst]; [|discriminate].
    destruct filename; cbn [as_str fst]; try discriminate.
    destruct (endswith s ".txt") eqn:He; cbn [negb fst]; [|discriminate].
    destruct content; cbn [as_str fst]; try discriminate.
    assert (Hne : s0 <> "") by (intros ->; discriminate Ht).
    destruct w as [e | e kept |]; cbn [fst]; [discriminate | |];
      intros H; injection H as <- <-; exists s0; repeat split; try assumption.
    + right. now exists e, kept.
    + now left.
  - intros f text -> Hne -> He. unfold save_report_to_file_body.
    cbn [truthy as_str]. destruct (String.eqb_spec text ""); [contradiction|].
    cbn [negb]. rewrite He. cbn [negb]. destruct w; reflexivity.
Qed.

(** A write that fails after four characters leaves a file with these four
    characters, and the call returns as if nothing had happened. *)
Lemma save_report_to_file_partial :
  save_report_to_file (WriteRaises OSError 4) (VStr "hello") (VStr "report.txt")
  = (FileHolds "report.txt" "hell", Return tt).
Proof. reflexivity. Qed.

(** ** The class statistics and the reports *)

Lemma get_course_statistics_of (a : analyzer) (subject : string) :
  get_course_statistics a (VStr subject) = Return (course_statistics_of a subject).
Proof.
  unfold course_statistics_of, get_course_statistics.
  rewrite try_except_sentinel. reflexivity.
Qed.

Lemma course_statistics_of_some (a : analyzer) (subject : string) :
  _loaded a = true -> In subject _subjects ->
  exists st, course_statistics_of a subject = Some st.
Proof.
  intros Hl Hin.
  destruct (get_course_statistics_loaded a subject Hl Hin) as [med [dist [_ [_ Hst]]]].
  unfold course_statistics_of. rewrite Hst. now eexists.
Qed.

Lemma get_top_performers_returns (a : analyzer) (n : pyval) :
  exists top, get_top_performers a n = Return top.
Proof. unfold get_top_performers. rewrite try_except_sentinel. now eexists. Qed.

Lemma get_struggling_students_returns (a : analyzer) (threshold : pyval) :
  exists l, get_struggling_students a threshold = Return l.
Proof. unfold get_struggling_students. rewrite try_except_sentinel. now eexists. Qed.

Lemma calculate_class_statistics_loaded (a : analyzer) :
  _loaded a = true ->
  exists top struggling,
    get_top_performers a (VNum (NInt 5)) = Return top
    /\ get_struggling_students a (VNum (NInt 60)) = Return struggling
    /\ calculate_class_statistics a
       = Return (Some {| top_performers := top;
                         struggling_students := struggling;
                         subject_statistics :=
                           map (fun subject => (subject, course_statistics_of a subject))
                               _subjects;
                         student_count := len (_students a) |}).
Proof.
  intros Hl.
  destruct (get_top_performers_returns a (VNum (NInt 5))) as [top Htop].
  destruct (get_struggling_students_returns a (VNum (NInt 60))) as [str Hstr].
  exists top, str. split; [exact Htop|]. split; [exact Hstr|].
  unfold calculate_class_statistics, calculate_class_statistics_body,
    check_data_loaded.
  rewrite Hl. cbn [negb].
  rewrite (exc_map_returns _ (fun subject => (subject, course_statistics_of a subject)))
    by (intros subject _; now rewrite get_course_statistics_of).
  cbn [exc_bind]. rewrite Htop, Hstr. reflexivity.
Qed.

(** X18.  For loaded data the class statistics bundle what the single
    queries return: the top performers for n = 5 (at most five entries),
    the struggling students for the threshold 60, the statistics of each of
    the five catalog subjects in catalog order (none of them missing), and
    the student count of [get_student_count]. *)
Theorem calculate_class_statistics_bundle (a : analyzer) :
  _loaded a = true ->
  exists cs,
    calculate_class_statistics a = Return (Some cs)
    /\ get_top_performers a (VNum (NInt 5)) = Return (top_performers cs)
    /\ (length (top_performers cs) <= 5)%nat
    /\ get_struggling_students a (VNum (NInt 60)) = Return (struggling_students cs)
    /\ map fst (subject_statistics cs) = _subjects
    /\ Forall (fun item =>
                 get_course_statistics a (VStr (fst item)) = Return (snd item)
                 /\ snd item <> None) (subject_statistics cs)
    /\ get_student_count a = Return (student_count cs).
Proof.
  intros Hl.
  destruct (calculate_class_statistics_loaded a Hl) as [top [str [Htop [Hstr Hcs]]]].
  eexists. split; [exact Hcs|].
  cbn [top_performers struggling_students subject_statistics student_count].
  split; [exact Htop|]. split.
  { unfold get_top_performers, get_top_performers_body, check_data_loaded in Htop.
    rewrite Hl in Htop. cbn [negb as_int Z.leb Z.compare] in Htop.
    destruct (rank_students_by_average a) as [ranking|]; cbn in Htop.
    - injection Htop as <-. rewrite length_firstn. lia.
    - injection Htop as <-. cbn. lia. }
  split; [exact Hstr|]. split.
  { rewrite map_map. cbn [fst]. apply map_id. }
  split.
  { apply List.Forall_forall. intros item Hitem.
    apply in_map_iff in Hitem. destruct Hitem as [subject [<- Hin]]. cbn [fst snd].
    split; [apply get_course_statistics_of|].
    destruct (course_statistics_of_some a subject Hl Hin) as [st ->]. discriminate. }
  unfold get_student_count, get_student_count_body, check_data_loaded.
  now rewrite Hl.
Qed.

Lemma calculate_class_statistics_bundle_witness :
  exists cs,
    calculate_class_statistics alice_engine = Return (Some cs)
    /\ get_student_count alice_engine = Return (student_count cs).
Proof.
  destruct (calculate_class_statistics_bundle alice_engine eq_refl)
    as [cs [H1 [_ [_ [_ [_ [_ H2]]]]]]].
  exists cs. split; [exact H1 | exact H2].
Defined.

Lemma string_app_assoc (s1 s2 s3 : string) : (s1 ++ s2) ++ s3 = s1 ++ (s2 ++ s3).
Proof.
  induction s1 as [|c s1 IH]; [reflexivity|].
  change (String c ((s1 ++ s2) ++ s3) = String c (s1 ++ (s2 ++ s3))).
  now f_equal.
Qed.

Lemma string_app_nil_r (s : string) : s ++ "" = s.
Proof.
  induction s as [|c s IH]; [reflexivity|].
  change (String c (s ++ "") = String c s). now f_equal.
Qed.

Lemma py_str_int_in_range (z : Z) :
  Z.abs z <= DBL_MAX -> py_str_int z = Return (str_int z).
Proof.
  intros H. unfold py_str_int.
  assert (Hlimit : DBL_MAX < 10 ^ int_max_str_digits) by (vm_compute; reflexivity).
  assert (Hlt : (10 ^ int_max_str_digits <=? Z.abs z) = false)
    by (apply Z.leb_gt; exact (Z.le_lt_trans _ _ _ H Hlimit)).
  now rewrite Hlt.
Qed.


Lemma grade_lines_returns (items : list (string * Z)) (info : string) :
  Forall (fun item => Z.abs (snd item) <= DBL_MAX) items ->
  exists rest, grade_lines items info = Return (info ++ rest).
Proof.
  intros Hall. revert info.
  induction Hall as [|[subject grade] items Hitem Hrest IH]; intros info;
    cbn [grade_lines].
  - exists "". now rewrite string_app_nil_r.
  - cbn [snd] in Hitem. rewrite (py_str_int_in_range grade Hitem). cbn [exc_bind].
    destruct (IH (info ++ "  " ++ subject ++ ": " ++ str_int grade ++ nl))
      as [rest Hrest'].
    rewrite Hrest'. eexists. rewrite string_app_assoc. reflexivity.
Qed.

Lemma get_student_info_some (a : analyzer) (sid : string) (s0 : student) :
  _loaded a = true -> first_with_id a sid = Some s0 -> grades_in_float_range s0 ->
  exists info, get_student_info a (VStr sid) = Return (Some info).
Proof.
  intros Hl Hf Hrange. unfold get_student_info, get_student_info_body, check_data_loaded.
  rewrite Hl, validate_student_id_first, Hf. cbn [negb exc_bind try_except].
  match goal with
  | |- context [grade_lines ?items ?info] =>
      destruct (grade_lines_returns items info Hrange) as [rest Hrest]
  end.
  rewrite Hrest. cbn [exc_bind try_except]. now eexists.
Qed.

Lemma is_student_passing_returns (a : analyzer) (student_id threshold : pyval) :
  exists r, is_student_passing a student_id threshold = Return r.
Proof. unfold is_student_passing. rewrite try_except_sentinel. now eexists. Qed.

Lemma letter_lines_returns (items : list (string * Z)) :
  exists text, letter_lines items = Return text.
Proof.
  induction items as [|[subject score] items [text IH]]; cbn [letter_lines].
  - now eexists.
  - unfold convert_to_letter_grade. rewrite try_except_sentinel. cbn [exc_bind].
    rewrite IH. cbn [exc_bind]. now eexists.
Qed.

Lemma extreme_by_in {A : Type} (better : Z -> Z -> bool) (key : A -> Z)
    (best : A) (l : list A) :
  In (extreme_by better key best l) (best :: l).
Proof.
  revert best. induction l as [|x l IH]; intros best; cbn [extreme_by].
  - now left.
  - destruct (IH (if better (key x) (key best) then x else best)) as [H|H].
    + rewrite <- H. destruct (better (key x) (key best)); [right; now left | now left].
    + right. now right.
Qed.

Lemma generate_student_report_some
    (rt : runtime) (a : analyzer) (sid : string) (s0 : student) :
  _loaded a = true -> first_with_id a sid = Some s0 -> grades s0 <> [] ->
  grades_in_float_range s0 ->
  exists info rest,
    get_student_info a (VStr sid) = Return (Some info)
    /\ generate_student_report rt a (VStr sid) = Return (Some (info ++ rest)).
Proof.
  intros Hl Hf Hne Hrange.
  destruct (get_student_info_some a sid s0 Hl Hf Hrange) as [info Hinfo].
  destruct (is_student_passing_returns a (VStr sid) (VNum (NInt 60))) as [p Hp].
  destruct (letter_lines_returns (grades s0)) as [letters_text Hletters].
  pose proof (calculate_student_average_mean a sid s0 Hl Hf Hne) as Havg.
  rewrite (record_average_in_range s0 (average_in_range_grades s0 Hne Hrange)) in Havg.
  unfold grades_in_float_range in Hrange. rewrite List.Forall_forall in Hrange.
  destruct (grades s0) as [|item items] eqn:Hg; [contradiction|].
  exists info. eexists. split; [exact Hinfo|].
  unfold generate_student_report, generate_student_report_body, check_data_loaded.
  rewrite Hl, validate_student_id_first, Hf. cbn [negb exc_bind].
  rewrite Hinfo, Havg, Hp.
  unfold get_student_highest_score, get_student_highest_score_body,
    get_student_lowest_score, get_student_lowest_score_body, check_data_loaded.
  rewrite Hl, validate_student_id_first, Hf. cbn [negb exc_bind]. rewrite Hg.
  cbn [py_max py_min exc_bind try_except fmt_2f fmt_num subscript].
  rewrite (py_str_int_in_range _ (Hrange _ (extreme_by_in Z.gtb snd item items))).
  rewrite (py_str_int_in_range _ (Hrange _ (extreme_by_in Z.ltb snd item items))).
  cbn [exc_bind]. rewrite Hletters.
  cbn [exc_bind try_except str_or_none].
  rewrite !string_app_assoc. reflexivity.
Qed.

(** X19.  On a store whose records have the shape the loader gives them and
    grades within the range of the doubles, a student report is refused
    ([None]) exactly when the data is not loaded or the id is not a stored
    id; otherwise a text is returned, and it begins with what
    [get_student_info] returns for the student. *)
Theorem generate_student_report_defined (rt : runtime) (a : analyzer) (v : pyval) :
  Forall record_ok (_students a) ->
  Forall grades_in_float_range (_students a) ->
  (generate_student_report rt a v = Return None
   <-> _loaded a = false \/ invalid_student_id a v)
  /\ (generate_student_report rt a v = Return None
      \/ exists info rest,
           get_student_info a v = Return (Some info)
           /\ generate_student_report rt a v = Return (Some (info ++ rest))).
Proof.
  intros Hok Hrange.
  assert (Hcases : (_loaded a = false \/ invalid_student_id a v)
                   \/ exists sid s0, v = VStr sid /\ _loaded a = true
                                     /\ first_with_id a sid = Some s0
                                     /\ grades s0 <> []
                                     /\ grades_in_float_range s0).
  { destruct (_loaded a) eqn:Hl; [|now left; left].
    destruct v; try (left; right; exact I).
    destruct (first_with_id a s) as [s0|] eqn:Hf.
    - right. exists s, s0. apply find_some in Hf as Hin. destruct Hin as [Hin _].
      repeat split; try assumption.
      + rewrite List.Forall_forall in Hok. specialize (Hok s0 Hin).
        unfold record_ok in Hok. destruct (grades s0); [discriminate Hok | discriminate].
      + rewrite List.Forall_forall in Hrange. now apply Hrange.
    - left. right. cbn. intros r Hr Hid.
      apply (find_none _ _ Hf) in Hr. rewrite Hid, String.eqb_refl in Hr.
      discriminate. }
  assert (Hnone : _loaded a = false \/ invalid_student_id a v ->
                  generate_student_report rt a v = Return None).
  { intros H. unfold generate_student_report, generate_student_report_body,
      check_data_loaded.
    destruct (_loaded a) eqn:Hl; [|reflexivity].
    destruct H as [H|H]; [discriminate|].
    now rewrite (validate_student_id_invalid a v H). }
  destruct Hcases as [Hbad|[sid [s0 [-> [Hl [Hf [Hne Hs0]]]]]]].
  - split; [split; [intros _; exact Hbad | exact Hnone] | left; now apply Hnone].
  - destruct (generate_student_report_some rt a sid s0 Hl Hf Hne Hs0)
      as [info [rest [Hinfo Hreport]]].
    split; [|right; now exists info, rest].
    split; [rewrite Hreport; discriminate | exact Hnone].
Qed.

Lemma generate_student_report_defined_witness :
  (generate_student_report nan_runtime alice_engine (VStr "STU999") = Return None
   <-> _loaded alice_engine = false \/ invalid_student_id alice_engine (VStr "STU999"))
  /\ exists info rest,
       get_student_info alice_engine (VStr "STU001") = Return (Some info)
       /\ generate_student_report nan_runtime alice_engine (VStr "STU001")
          = Return (Some (info ++ rest)).
Proof.
  assert (Hok : Forall record_ok (_students alice_engine)) by (repeat constructor).
  assert (Hrange : Forall grades_in_float_range (_students alice_engine))
    by (repeat constructor; vm_compute; discriminate).
  split.
  - exact (proj1 (generate_student_report_defined nan_runtime alice_engine
                    (VStr "STU999") Hok Hrange)).
  - destruct (proj2 (generate_student_report_defined nan_runtime alice_engine
                       (VStr "STU001") Hok Hrange)) as [Hnone | Hsome].
    + lazy in Hnone. discriminate Hnone.
    + exact Hsome.
Defined.

(** With a grade beyond the range of the doubles the average is [None],
    [f"{avg:.2f}"] raises, and the report of a stored student of loaded
    data is refused. *)
Lemma generate_student_report_overflow :
  _loaded huge_score_engine = true
  /\ validate_student_id huge_score_engine (VStr "S1") <> Return None
  /\ generate_student_report_body nan_runtime huge_score_engine (VStr "S1")
     = Raise TypeError
  /\ generate_student_report nan_runtime huge_score_engine (VStr "S1") = Return None.
Proof.
  split; [reflexivity|]. split; [vm_compute; discriminate|].
  split; lazy; reflexivity.
Qed.














(** With a score beyond the range of the doubles [f"{highest:.2f}"] raises,
    and the report of a catalog subject of loaded data is refused. *)
Lemma generate_course_report_overflow :
  _loaded huge_score_engine = true
  /\ generate_course_report_body nan_runtime huge_score_engine (VStr "Math")
     = Raise OverflowError
  /\ generate_course_report nan_runtime huge_score_engine (VStr "Math") = Return None.
Proof. split; [reflexivity|]. split; lazy; reflexivity. Qed.




(** With a score beyond the range of the doubles the overview of loaded
    data is refused. *)
Lemma generate_class_overview_overflow :
  _loaded huge_score_engine = true
  /\ generate_class_overview nan_runtime huge_score_engine = Return None.
Proof. split; [reflexivity | lazy; reflexivity]. Qed.

(** ** The letter of an average *)

(** X22.  For loaded data and a stored student whose grades all lie in
    0..100, the average lies in 0..100 as well, so
    [convert_to_letter_grade] accepts it: the letter of an average is
    never [None]. *)
Theorem letter_of_student_average
    (a : analyzer) (sid : string) (s0 : student) :
  _loaded a = true -> first_with_id a sid = Some s0 -> grades s0 <> [] ->
  Forall (fun item => 0 <= snd item <= 100) (grades s0) ->
  exists q,
    calculate_student_average a (VStr sid) = Return (Some (NFloat (Fin q)))
    /\ (0 <= q <= 100)%Q
    /\ convert_to_letter_grade (VNum (NFloat (Fin q))) = Return (Some (band_of q)).
Proof.
  intros Hl Hf Hne Hrange. exists (student_mean s0).
  assert (Hmean : (inject_Z 0 <= grades_mean s0 <= inject_Z 100)%Q).
  { rewrite grades_mean_exact. apply mean_bounds; [now apply map_snd_nonempty|].
    apply List.Forall_forall. intros v Hv. apply in_map_iff in Hv.
    destruct Hv as [item [<- Hitem]].
    rewrite List.Forall_forall in Hrange. now apply Hrange. }
  assert (H0 : Z.abs 0 <= 2 ^ 53) by (vm_compute; discriminate).
  assert (H100 : Z.abs 100 <= 2 ^ 53) by (vm_compute; discriminate).
  split.
  { rewrite (calculate_student_average_mean a sid s0 Hl Hf Hne).
    apply f_equal, record_average_in_range.
    exact (overflows_between_53 0 100 _ H0 H100 Hmean). }
  assert (Hq : (0 <= student_mean s0 <= 100)%Q)
    by exact (nearest_double_between 0 100 _ H0 H100 Hmean).
  split; [exact Hq|].
  now apply (convert_to_letter_grade_in_range _ (NFloat (Fin (student_mean s0)))).
Qed.

Lemma letter_of_student_average_witness :
  exists q,
    calculate_student_average alice_engine (VStr "STU001")
    = Return (Some (NFloat (Fin q)))
    /\ convert_to_letter_grade (VNum (NFloat (Fin q))) = Return (Some (band_of q)).
Proof.
  destruct (letter_of_student_average alice_engine "STU001" alice)
    as [q [H1 [_ H2]]].
  - reflexivity.
  - reflexivity.
  - discriminate.
  - repeat constructor; discriminate.
  - exists q. split; [exact H1 | exact H2].
Defined.

(** ** Correlations: what goes wrong *)

Lemma exc_map_raises {A B : Type} (f : A -> exc B) (l : list A) (x : A) :
  In x l -> raises (f x) = true -> raises (exc_map f l) = true.
Proof.
  induction l as [|y l IH]; [contradiction|]. intros Hin Hx. cbn [exc_map].
  destruct (f y) as [v|e] eqn:Hy; [|reflexivity]. cbn [exc_bind].
  destruct Hin as [->|Hin]; [rewrite Hy in Hx; discriminate|].
  specialize (IH Hin Hx). destruct (exc_map f l); [discriminate | reflexivity].
Qed.

(** X23.  [find_subject_correlations] gives the empty dict, not a list,
    when numpy cannot be imported, whatever the state of the engine, and
    when numpy fails on one of the ten pairs of a loaded record set: no
    partial list is returned.  With numpy importable and the data not
    loaded it gives the empty list. *)
Theorem find_subject_correlations_failures (rt : runtime) (a : analyzer) :
  (numpy_importable rt = false -> find_subject_correlations rt a = Return CorrEmptyDict)
  /\ (numpy_importable rt = true -> _loaded a = false ->
      find_subject_correlations rt a = Return (CorrList []))
  /\ (numpy_importable rt = true -> loaded_store a ->
      (exists pair, In pair (subject_pairs _subjects)
                    /\ raises (corrcoef rt (column a (fst pair)) (column a (snd pair)))
                       = true) ->
      find_subject_correlations rt a = Return CorrEmptyDict).
Proof.
  unfold find_subject_correlations, find_subject_correlations_body, check_data_loaded.
  split; [|split].
  - now intros ->.
  - now intros -> ->.
  - intros -> Hstore [pair [Hpair Hraise]]. rewrite (proj1 Hstore). cbn [negb].
    rewrite (score_columns a Hstore). cbn [exc_bind].
    match goal with
    | |- context [exc_map ?f (subject_pairs _subjects)] =>
        pose proof (exc_map_raises f (subject_pairs _subjects) pair Hpair) as Hr
    end.
    cbn beta in Hr.
    destruct (subject_pairs_in pair Hpair) as [H1 H2].
    rewrite (column_item a _ H1), (column_item a _ H2) in Hr. cbn [exc_bind] in Hr.
    assert (Hr' : raises (let* corr := corrcoef rt (column a (fst pair))
                                                 (column a (snd pair)) in
                          Return (fst pair, snd pair, corr)) = true).
    { destruct (corrcoef rt _ _); [discriminate Hraise | reflexivity]. }
    specialize (Hr Hr').
    match goal with
    | |- context [exc_map ?f (subject_pairs _subjects)] =>
        destruct (exc_map f (subject_pairs _subjects)); [discriminate Hr|]
    end.
    reflexivity.
Qed.

Lemma find_subject_correlations_failures_witness :
  find_subject_correlations
    {| format_2f := fun _ => ""; py_str := fun _ => Return "";
       numpy_importable := true;
       corrcoef := fun _ _ => Raise OtherException;
       nan_sort_order := fun keys => seq 0 (length keys) |}
    alice_engine
  = Return CorrEmptyDict.
Proof.
  refine (proj2 (proj2 (find_subject_correlations_failures _ alice_engine)) _ _ _).
  - reflexivity.
  - split; [reflexivity | repeat constructor].
  - exists ("Math", "Physics"). split; [now left | reflexivity].
Defined.

(** ** The distribution summary *)

Lemma dict_get_range (d : list (string * Z)) (k : string) :
  Forall (fun item => 0 <= snd item <= 100) d -> 0 <= dict_get d k 0 <= 100.
Proof.
  unfold dict_get. induction 1 as [|[k' v] d Hitem Hrest IH]; cbn [dict_find]; [lia|].
  destruct (String.eqb k' k); [exact Hitem | exact IH].
Qed.

(** X24.  For loaded data the distribution summary has one entry per
    catalog subject, in catalog order, holding what
    [get_course_grade_distribution] returns for the subject; when every
    grade of every record lies in 0..100, each of these distributions
    counts every student once. *)
Theorem get_grade_distribution_summary_spec (a : analyzer) :
  _loaded a = true ->
  exists summary,
    get_grade_distribution_summary a = Return summary
    /\ map fst summary = _subjects
    /\ Forall (fun item =>
                 get_course_grade_distribution a (VStr (fst item)) = Return (snd item))
              summary
    /\ (Forall (fun s => Forall (fun item => 0 <= snd item <= 100) (grades s))
               (_students a) ->
        Forall (fun item => map fst (snd item) = letters
                            /\ sum_Z (map snd (snd item)) = len (_students a))
               summary).
Proof.
  intros Hl.
  set (dist_of := fun subject =>
                    match get_course_grade_distribution a (VStr subject) with
                    | Return d => d
                    | Raise _ => []
                    end).
  assert (Hdist : forall subject,
            get_course_grade_distribution a (VStr subject) = Return (dist_of subject)).
  { intros subject. unfold dist_of.
    destruct (get_course_grade_distribution_returns a (VStr subject)) as [d ->].
    reflexivity. }
  exists (map (fun subject => (subject, dist_of subject)) _subjects).
  split; [|split; [|split]].
  - unfold get_grade_distribution_summary, get_grade_distribution_summary_body,
      check_data_loaded.
    rewrite Hl. cbn [negb].
    rewrite (exc_map_returns _ (fun subject => (subject, dist_of subject)));
      [reflexivity|].
    intros subject _. now rewrite Hdist.
  - rewrite map_map. cbn [fst]. apply map_id.
  - apply List.Forall_forall. intros item Hitem.
    apply in_map_iff in Hitem. destruct Hitem as [subject [<- _]]. apply Hdist.
  - intros Hrange. apply List.Forall_forall. intros item Hitem.
    apply in_map_iff in Hitem. destruct Hitem as [subject [<- Hin]]. cbn [snd].
    assert (Hcol : Forall (fun score => 0 <= score <= 100) (column a subject)).
    { unfold column. apply List.Forall_forall. intros v Hv.
      apply in_map_iff in Hv. destruct Hv as [s [<- Hs]].
      apply dict_get_range. rewrite List.Forall_forall in Hrange. now apply Hrange. }
    pose proof (get_course_grade_distribution_shape a subject Hl Hin Hcol) as Hd.
    rewrite Hdist in Hd. injection Hd as ->. cbn [map letters fst snd].
    split; [reflexivity|]. unfold sum_Z. cbn [fold_left].
    pose proof (band_count_total (column a subject)) as Ht.
    rewrite <- (column_length a subject). lia.
Qed.

Lemma get_grade_distribution_summary_spec_witness :
  exists summary,
    get_grade_distribution_summary alice_engine = Return summary
    /\ map fst summary = _subjects.
Proof.
  destruct (get_grade_distribution_summary_spec alice_engine eq_refl)
    as [summary [H1 [H2 _]]].
  exists summary. split; [exact H1 | exact H2].
Defined.
